(** * LA_Crimes: a shallow embedding of [lapd.py] and [helper.py]

    The script loads the incident table, derives calendar fields, prints a
    KPI block and saves eleven charts.  The development follows the script
    top to bottom: text and number conversions first, then the table model,
    the pandas and seaborn operations the script calls, the script itself
    ([Lapd.run]) and finally the properties.

    Modelling conventions.
    - A cell of the loaded table is missing, an integer or a text (the view
      pandas gives of an object column).  binary64 cells are not
      represented; numbers obtained by conversion are exact rationals.
    - Text is a byte string; [len] counts bytes.  On ASCII text, which is
      what the properties are about, a byte is a character of Python.
    - An exception that nobody catches ends the run: every step returns the
      console text and the figures produced so far together with either a
      value or the exception.
    - A figure is recorded as the data handed to the plotting call.  The
      plotting calls are taken to succeed on the data the script reaches
      them with; the one it can reach with no data at all, the line plot
      of line 92, raises there.
    - Three things belong to the libraries and are left as parameters of the
      script: the date parser, the rounding done by the [.1f] format, and
      the positions drawn by the random generator.
    - The input of [Lapd.run] is the table after line 23, with distinct,
      already normalised column names. *)

From Stdlib Require Import ZArith QArith String Ascii List Bool Lia DecimalString.
From Stdlib Require Import Sorted Permutation.
From stdpp Require Import gmap strings list.
Import ListNotations.

Close Scope Q_scope.
Open Scope string_scope.
Open Scope Z_scope.
Open Scope list_scope.

(* ===================================================================== *)
(** ** Text: [str], [zfill], slices *)
(* ===================================================================== *)

Module Text.

(** [str(n)] for a Python integer. *)
Definition str_of_Z (z : Z) : string := NilZero.string_of_int (Z.to_int z).

(** ["0" * n] *)
Fixpoint zeros (n : nat) : string :=
  match n with
  | O => ""
  | S n' => String "0" (zeros n')
  end.

Definition is_sign (c : ascii) : bool :=
  (Ascii.eqb c "+" || Ascii.eqb c "-")%bool.

(** [str.zfill(width)]: pad on the left with zeros, after a leading sign
    (Python's rule, which [Series.str.zfill] applies to each text). *)
Definition zfill (width : nat) (s : string) : string :=
  let n := String.length s in
  if (width <=? n)%nat then s
  else
    match s with
    | String c rest =>
        if is_sign c then String c (zeros (width - n) ++ rest)
        else zeros (width - n) ++ s
    | EmptyString => zeros width
    end.

(** [s[-k:]] *)
Definition last_chars (k : nat) (s : string) : string :=
  let n := String.length s in
  if (n <=? k)%nat then s else substring (n - k) k s.

(** [s[:k]] *)
Definition first_chars (k : nat) (s : string) : string := substring 0 k s.

(** Zero-padded decimal of a non-negative field, as in [%02d] and [%04d]. *)
Definition pad_num (width : nat) (z : Z) : string :=
  let s := str_of_Z z in
  zeros (width - String.length s) ++ s.

(** [" ".join(args)] *)
Fixpoint join_space (args : list string) : string :=
  match args with
  | [] => ""
  | [a] => a
  | a :: rest => a ++ " " ++ join_space rest
  end.

(** One of the sixteen hexadecimal digits. *)
Definition hex_digit (n : nat) : ascii :=
  nth n (list_ascii_of_string "0123456789abcdef") "0"%char.

Definition backslash : ascii := ascii_of_nat 92.

Definition double_quote : ascii := ascii_of_nat 34.

(** How [repr] writes one character between the quotes [quote]. *)
Definition escape (quote c : ascii) : string :=
  let n := nat_of_ascii c in
  if (Ascii.eqb c quote || Ascii.eqb c backslash)%bool then String backslash (String c "")
  else if (n =? 9)%nat then String backslash "t"
  else if (n =? 10)%nat then String backslash "n"
  else if (n =? 13)%nat then String backslash "r"
  else if ((n <? 32) || (n =? 127))%nat%bool then
    String backslash (String "x" (String (hex_digit (n / 16)) (String (hex_digit (n mod 16)) "")))
  else String c "".

(** [repr(text)], as the [%R] of an error message writes a text: between
    apostrophes, or between double quotes when the text has an apostrophe
    and no double quote. *)
Definition repr (s : string) : string :=
  let l := list_ascii_of_string s in
  let quote :=
    if (existsb (Ascii.eqb "'") l && negb (existsb (Ascii.eqb double_quote) l))%bool
    then double_quote else "'"%char in
  String quote (fold_right (fun c rest => (escape quote c ++ rest)%string)
                           (String quote "") l).

End Text.

(* ===================================================================== *)
(** ** Numbers: the text-to-number conversion behind [pd.to_numeric] *)
(* ===================================================================== *)

Module Num.

(** A non-missing float: an exact rational, or an infinity. *)
Inductive real : Type :=
| Finite (q : Q)
| Infinite (negative : bool).

Definition is_space (c : ascii) : bool :=
  let n := nat_of_ascii c in
  ((n =? 32) || ((9 <=? n) && (n <=? 13)))%nat%bool.

Definition digit_of (c : ascii) : option Z :=
  let n := nat_of_ascii c in
  if ((48 <=? n) && (n <=? 57))%nat%bool then Some (Z.of_nat (n - 48)) else None.

Fixpoint skip_spaces (l : list ascii) : list ascii :=
  match l with
  | c :: l' => if is_space c then skip_spaces l' else l
  | [] => []
  end.

(** Reads a run of digits: accumulated value, number of digits, rest. *)
Fixpoint read_digits (l : list ascii) (acc : Z) (n : nat) : Z * nat * list ascii :=
  match l with
  | c :: l' =>
      match digit_of c with
      | Some d => read_digits l' (10 * acc + d) (S n)
      | None => (acc, n, l)
      end
  | [] => (acc, n, [])
  end.

Definition read_sign (l : list ascii) : bool * list ascii :=
  match l with
  | "-"%char :: l' => (true, l')
  | "+"%char :: l' => (false, l')
  | _ => (false, l)
  end.

Definition pow10 (e : Z) : Q :=
  if 0 <=? e then inject_Z (10 ^ e) else Qmake 1 (Z.to_pos (10 ^ (- e))).

Definition scale (negative : bool) (mantissa exponent : Z) : Q :=
  Qred (Qmult (inject_Z (if negative then - mantissa else mantissa)) (pow10 exponent)).

Definition is_exp_mark (c : ascii) : bool :=
  (Ascii.eqb c "e" || Ascii.eqb c "E")%bool.

(** The decimal grammar of the parser: blanks, sign, digits, an optional
    point and more digits (at least one digit in all), an optional exponent
    with at least one digit, blanks, end of text. *)
Definition to_double (s : string) : option Q :=
  let l0 := skip_spaces (list_ascii_of_string s) in
  let '(neg, l1) := read_sign l0 in
  let '(ip, n1, l2) := read_digits l1 0 0 in
  let '(m, n2, l3) :=
    match l2 with
    | "."%char :: l2' => read_digits l2' ip 0
    | _ => (ip, 0%nat, l2)
    end in
  if (n1 + n2 =? 0)%nat then None
  else
    let finish (e : Z) (rest : list ascii) :=
      match skip_spaces rest with
      | [] => Some (scale neg m (e - Z.of_nat n2))
      | _ => None
      end in
    match l3 with
    | c :: l3' =>
        if is_exp_mark c then
          let '(eneg, l4) := read_sign l3' in
          let '(e, n3, l5) := read_digits l4 0 0 in
          if (n3 =? 0)%nat then None
          else finish (if eneg then - e else e) l5
        else finish 0 l3
    | [] => finish 0 l3
    end.

Definition lower (c : ascii) : ascii :=
  let n := nat_of_ascii c in
  if ((65 <=? n) && (n <=? 90))%nat%bool then ascii_of_nat (n + 32) else c.

Fixpoint lowercase (s : string) : string :=
  match s with
  | EmptyString => EmptyString
  | String c s' => String (lower c) (lowercase s')
  end.

(** The special names accepted when the decimal grammar fails. *)
Definition special (s : string) : option (option real) :=
  let t := lowercase s in
  if String.eqb t "nan" then Some None
  else if (String.eqb t "inf" || String.eqb t "+inf"
           || String.eqb t "infinity" || String.eqb t "+infinity")%bool
       then Some (Some (Infinite false))
  else if (String.eqb t "-inf" || String.eqb t "-infinity")%bool
       then Some (Some (Infinite true))
  else None.

(** Outer [None]: the text is not a number.  Inner [None]: it is NaN. *)
Definition parse_number (s : string) : option (option real) :=
  match to_double s with
  | Some q => Some (Some (Finite q))
  | None => special s
  end.

Definition is_digit (c : ascii) : bool :=
  match digit_of c with Some _ => true | None => false end.

(** An underscore may stand only between two digits of the text; the
    underscores are then left out.  [prev] is the character before. *)
Fixpoint drop_underscores (prev : option ascii) (l : list ascii) : option (list ascii) :=
  match l with
  | [] =>
      match prev with
      | Some p => if Ascii.eqb p "_" then None else Some []
      | None => Some []
      end
  | c :: l' =>
      if Ascii.eqb c "_" then
        match prev with
        | Some p => if is_digit p then drop_underscores (Some c) l' else None
        | None => None
        end
      else
        match prev with
        | Some p =>
            if (Ascii.eqb p "_" && negb (is_digit c))%bool then None
            else option_map (cons c) (drop_underscores (Some c) l')
        | None => option_map (cons c) (drop_underscores (Some c) l')
        end
  end.

Definition strip_spaces (l : list ascii) : list ascii :=
  rev (skip_spaces (rev (skip_spaces l))).

(** [inf], [infinity] and [nan] in any mix of cases, after an optional
    sign. *)
Definition inf_or_nan (l : list ascii) : option (option real) :=
  let '(neg, rest) := read_sign l in
  let t := lowercase (string_of_list_ascii rest) in
  if (String.eqb t "inf" || String.eqb t "infinity")%bool then Some (Some (Infinite neg))
  else if String.eqb t "nan" then Some None
  else None.

(** Python's [float(text)], which [astype(float)] applies to each text of
    a column of objects.  Outer [None]: [ValueError].  Inner [None]: NaN.
    Underscores between digits are left out, blanks around the text are
    skipped, and what is left is a decimal number in the grammar of
    [to_double], or an infinity or a NaN. *)
Definition python_float (s : string) : option (option real) :=
  match drop_underscores None (list_ascii_of_string s) with
  | None => None
  | Some l =>
      match to_double (string_of_list_ascii l) with
      | Some q => Some (Some (Finite q))
      | None => inf_or_nan (strip_spaces l)
      end
  end.

Definition real_eqb (a b : real) : bool :=
  match a, b with
  | Finite p, Finite q => Qeq_bool p q
  | Infinite x, Infinite y => Bool.eqb x y
  | _, _ => false
  end.

Definition real_leb (a b : real) : bool :=
  match a, b with
  | Finite p, Finite q => Qle_bool p q
  | Infinite true, _ => true
  | _, Infinite false => true
  | _, _ => false
  end.

Definition real_ltb (a b : real) : bool := (real_leb a b && negb (real_eqb a b))%bool.

Definition of_Z (z : Z) : real := Finite (inject_Z z).

#[global] Instance Q_eq_dec : EqDecision Q.
Proof. solve_decision. Defined.

#[global] Instance real_eq_dec : EqDecision real.
Proof. solve_decision. Defined.

End Num.

(* ===================================================================== *)
(** ** The incident table *)
(* ===================================================================== *)

(** A cell of the loaded table. *)
Inductive cell : Type :=
| NaN
| Int (z : Z)
| Str (s : string).

#[global] Instance cell_eq_dec : EqDecision cell.
Proof. solve_decision. Defined.

Definition isna (c : cell) : bool :=
  match c with NaN => true | _ => false end.

Definition notna (c : cell) : bool := negb (isna c).

(** [str(c)], as [astype(str)] and [print] apply it. *)
Definition str (c : cell) : string :=
  match c with
  | NaN => "nan"
  | Int z => Text.str_of_Z z
  | Str s => s
  end.

(** The table: its number of rows and its named columns. *)
Record DataFrame : Type := {
  df_len : nat;
  df_columns : gmap string (list cell)
}.

(** A parsed date and time; a missing one (NaT) is [None]. *)
Record Timestamp : Type := {
  ts_year : Z; ts_month : Z; ts_day : Z;
  ts_hour : Z; ts_minute : Z; ts_second : Z
}.

(** A calendar month, [to_period("M")]. *)
Definition Period : Type := (Z * Z)%type.

Inductive exn : Type :=
| KeyError (labels : list cell)
| ValueError (msg : string).

(** Rows against columns, as [pd.pivot_table] returns it; a missing value
    in the body is [None]. *)
Record Pivot (I C : Type) : Type := {
  p_index : list I;
  p_columns : list C;
  p_values : list (list (option Z))
}.
Arguments p_index {I C} _.
Arguments p_columns {I C} _.
Arguments p_values {I C} _.

(** What each figure is drawn from. *)
Inductive chart : Type :=
| MonthlyTrend (monthly : list (Period * nat)) (rolling : list (Period * Q))
| WeekdayBars (bars : list (string * nat))
| HourBars (bars : list (Num.real * nat))
| HourWeekdayHeatmap (pivot : Pivot Num.real string)
| TopAreas (bars : list (cell * nat))
| TopCrimes (bars : list (cell * nat))
| AgeHist (ages : list Num.real) (bins : nat)
| SexPie (sizes : list nat) (labels : list cell) (colors : list string)
| DescentBars (bars : list (cell * nat))
| Scatter (lon lat : list (option Num.real))
| YearMonthHeatmap (pivot2 : Pivot Z Z) (xticklabels : list string).

(* ===================================================================== *)
(** ** Running a script: console, figures and uncaught exceptions *)
(* ===================================================================== *)

Record world : Type := {
  stdout : string;
  figures : list (string * chart)
}.

Definition M (A : Type) : Type := world -> world * (exn + A).

#[global] Instance M_ret : MRet M := fun A a w => (w, inr a).

#[global] Instance M_bind : MBind M := fun A B k m w =>
  match m w with
  | (w', inr a) => k a w'
  | (w', inl e) => (w', inl e)
  end.

Definition raise {A} (e : exn) : M A := fun w => (w, inl e).

Definition lift {A} (r : exn + A) : M A := fun w => (w, r).

(** [print(a, b, ...)]: the arguments joined by a space, then a newline. *)
Definition print (args : list string) : M unit :=
  fun w => ({| stdout := stdout w ++ Text.join_space args ++ String (ascii_of_nat 10) "";
               figures := figures w |}, inr tt).

(** [plt.savefig(os.path.join(figures_folder, name))] of the current figure. *)
Definition savefig (name : string) (c : chart) : M unit :=
  fun w => ({| stdout := stdout w; figures := figures w ++ [(name, c)] |}, inr tt).

(** [if cond: body] *)
Definition when (cond : bool) (body : M unit) : M unit :=
  if cond then body else mret tt.

Definition start : world := {| stdout := ""; figures := [] |}.

(* ===================================================================== *)
(** ** helper.py *)
(* ===================================================================== *)

Definition descent_map : gmap string string :=
  list_to_map [
    ("A", "Other Asian");
    ("B", "Black");
    ("C", "Chinese");
    ("D", "Cambodian");
    ("F", "Filipino");
    ("G", "Guamanian");
    ("H", "Hispanic/Latin/Mexican");
    ("I", "American Indian/Alaskan Native");
    ("J", "Japanese");
    ("K", "Korean");
    ("L", "Laotian");
    ("O", "Other");
    ("P", "Pacific Islander");
    ("S", "Samoan");
    ("U", "Hawaiian");
    ("V", "Vietnamese");
    ("W", "White");
    ("X", "Unknown");
    ("Z", "Asian Indian")
  ].

(* ===================================================================== *)
(** ** pandas, numpy and seaborn operations used by the script *)
(* ===================================================================== *)

Module Pandas.

Section Keys.
Context {K : Type} (eqb leb : K -> K -> bool).

Definition mem (k : K) (l : list K) : bool := existsb (eqb k) l.

(** Distinct values, in order of first appearance. *)
Fixpoint unique (l : list K) : list K :=
  match l with
  | [] => []
  | x :: l' => x :: List.filter (fun y => negb (eqb x y)) (unique l')
  end.

Fixpoint insert_sorted (x : K) (l : list K) : list K :=
  match l with
  | [] => [x]
  | y :: l' => if leb x y then x :: l else y :: insert_sorted x l'
  end.

(** A stable sort: equal keys keep their order. *)
Definition sort (l : list K) : list K := fold_right insert_sorted [] l.

Definition count (k : K) (l : list K) : nat :=
  length (List.filter (eqb k) l).
End Keys.

Definition cell_eqb (a b : cell) : bool := bool_decide (a = b).

(** [Series.fillna(value)] *)
Definition fillna (value : cell) (s : list cell) : list cell :=
  map (fun c => if isna c then value else c) s.

(** [Series.dropna()] *)
Definition dropna (s : list cell) : list cell := List.filter notna s.

Definition by_count_desc {A} (a b : A * nat) : bool := (snd b <=? snd a)%nat.

(** [Series.value_counts()]: missing values are not counted; the most
    frequent value comes first and equal counts keep the order of first
    appearance. *)
Definition value_counts (s : list cell) : list (cell * nat) :=
  let vals := dropna s in
  sort by_count_desc (map (fun k => (k, count cell_eqb k vals)) (unique cell_eqb vals)).

(** [Series.nunique()] *)
Definition nunique (s : list cell) : nat := length (unique cell_eqb (dropna s)).

(** [Series.nlargest(n)], with [keep="first"]. *)
Definition nlargest {A} (n : nat) (s : list (A * nat)) : list (A * nat) :=
  firstn n (sort by_count_desc s).

(** [Series.idxmax()]: the label of the first largest value. *)
Fixpoint idxmax_from {A} (best : A * nat) (s : list (A * nat)) : A :=
  match s with
  | [] => fst best
  | x :: s' => idxmax_from (if (snd best <? snd x)%nat then x else best) s'
  end.

Definition idxmax {A} (s : list (A * nat)) : exn + A :=
  match s with
  | [] => inl (ValueError "attempt to get argmax of an empty sequence")
  | x :: s' => inr (idxmax_from x s')
  end.

(** [Series.max()] of counts; [None] (NaN) on an empty series. *)
Definition max_count {A} (s : list (A * nat)) : option nat :=
  match s with
  | [] => None
  | x :: s' => Some (fold_left Nat.max (map snd s') (snd x))
  end.

(** [pd.to_numeric(s, errors="coerce")] on one cell. *)
Definition to_numeric (c : cell) : option Num.real :=
  match c with
  | NaN => None
  | Int z => Some (Num.of_Z z)
  | Str s =>
      match Num.parse_number s with
      | Some r => r
      | None => None
      end
  end.

(** [Series.astype(float)] on one cell of a column of objects: Python's
    [float] is applied to a text, and a text that it does not read raises
    with the text quoted as [repr] writes it. *)
Definition astype_float (c : cell) : exn + option Num.real :=
  match c with
  | NaN => inr None
  | Int z => inr (Some (Num.of_Z z))
  | Str s =>
      match Num.python_float s with
      | Some r => inr r
      | None => inl (ValueError ("could not convert string to float: " ++ Text.repr s))
      end
  end.

Fixpoint astype_float_all (s : list cell) : exn + list (option Num.real) :=
  match s with
  | [] => inr []
  | c :: s' =>
      match astype_float c with
      | inl e => inl e
      | inr x =>
          match astype_float_all s' with
          | inl e => inl e
          | inr xs => inr (x :: xs)
          end
      end
  end.

(** Exact sum and mean of rationals; the mean of nothing is NaN. *)
Definition Qsum (l : list Q) : Q := fold_right Qplus (Qmake 0 1) l.

Definition mean (l : list Q) : option Q :=
  match l with
  | [] => None
  | _ => Some (Qred (Qdiv (Qsum l) (inject_Z (Z.of_nat (length l)))))
  end.

(** [groupby(key).size()]: one entry per key present, in key order. *)
Definition groupby_size {K} (eqb leb : K -> K -> bool) (keys : list (option K))
  : list (K * nat) :=
  let present := omap id keys in
  map (fun k => (k, count eqb k present)) (sort leb (unique eqb present)).

(** [Series.rolling(window, min_periods=1).mean()] *)
Definition rolling_mean {K} (window : nat) (s : list (K * nat)) : list (K * Q) :=
  imap (fun i kv =>
          let lo := (S i - window)%nat in
          let w := firstn (S i - lo) (skipn lo (map snd s)) in
          (fst kv,
           match mean (map (fun n => inject_Z (Z.of_nat n)) w) with
           | Some q => q
           | None => Qmake 0 1
           end)) s.

Section PivotTable.
Context {I C : Type} (eqI leI : I -> I -> bool) (eqC leC : C -> C -> bool).

(** The rows that take part: both keys present. *)
Fixpoint keyed_rows (index : list (option I)) (columns : list (option C))
    (values : list cell) : list (I * C * cell) :=
  match index, columns, values with
  | i :: index', c :: columns', v :: values' =>
      match i, c with
      | Some i0, Some c0 => (i0, c0, v) :: keyed_rows index' columns' values'
      | _, _ => keyed_rows index' columns' values'
      end
  | _, _, _ => []
  end.

Definition in_group (i : I) (c : C) (r : I * C * cell) : bool :=
  (eqI i (fst (fst r)) && eqC c (snd (fst r)))%bool.

(** [aggfunc="count"] on one group: the non-missing values; a group with
    no row has no entry. *)
Definition group_count (rows : list (I * C * cell)) (i : I) (c : C) : option Z :=
  match List.filter (in_group i c) rows with
  | [] => None
  | g => Some (Z.of_nat (length (List.filter (fun r => notna (snd r)) g)))
  end.

Definition fill (fill_value : option Z) (x : option Z) : option Z :=
  match x with
  | Some n => Some n
  | None => fill_value
  end.

(** [pd.pivot_table(df, index=, columns=, values=, aggfunc="count",
    fill_value=)] *)
Definition pivot_table (index : list (option I)) (columns : list (option C))
    (values : list cell) (fill_value : option Z) : Pivot I C :=
  let rows := keyed_rows index columns values in
  let idx := sort leI (unique eqI (map (fun r => fst (fst r)) rows)) in
  let cols := sort leC (unique eqC (map (fun r => snd (fst r)) rows)) in
  {| p_index := idx;
     p_columns := cols;
     p_values :=
       map (fun i => map (fun c => fill fill_value (group_count rows i c)) cols) idx |}.

Definition find_label {V} (eqb : C -> C -> bool) (c : C) (row : list (C * V)) : option V :=
  match find (fun kv => eqb c (fst kv)) row with
  | Some kv => Some (snd kv)
  | None => None
  end.

(** [frame[labels]]: the listed columns in the listed order; a label that
    is not a column raises. *)
Definition getitem_columns (p : Pivot I C) (labels : list C) (show : C -> cell)
    : exn + Pivot I C :=
  match List.filter (fun l => negb (mem eqC l (p_columns p))) labels with
  | [] =>
      inr {| p_index := p_index p;
             p_columns := labels;
             p_values :=
               map (fun row =>
                      map (fun l =>
                             match find_label eqC l (combine (p_columns p) row) with
                             | Some v => v
                             | None => None
                             end) labels)
                   (p_values p) |}
  | missing => inl (KeyError (map show missing))
  end.

End PivotTable.

(** [sns.countplot(x=, data=, order=)]: one bar per listed category. *)
Definition countplot_order (order : list string) (x : list (option string))
  : list (string * nat) :=
  map (fun k => (k, count String.eqb k (omap id x))) order.

(** [sns.countplot(x=, data=)] on a numeric column: one bar per value
    present, in increasing order. *)
Definition countplot (x : list (option Num.real)) : list (Num.real * nat) :=
  let vals := omap id x in
  map (fun k => (k, count Num.real_eqb k vals))
      (sort Num.real_leb (unique Num.real_eqb vals)).

(** [frame.sample(n=, random_state=)] without replacement.  [choice seed
    size n] is the generator's draw of [n] positions below [size]; a
    generator without [random_state] is seeded from the process. *)
Definition sample {A} (choice : Z -> nat -> nat -> list nat) (entropy : Z)
    (rows : list A) (n : Z) (random_state : option Z) : exn + list A :=
  if Z.of_nat (length rows) <? n then
    inl (ValueError "Cannot take a larger sample than population when 'replace=False'")
  else
    let seed := match random_state with Some s => s | None => entropy end in
    inr (omap (fun i => rows !! i) (choice seed (length rows) (Z.to_nat n))).

End Pandas.

(* ===================================================================== *)
(** ** Dates *)
(* ===================================================================== *)

Module Dates.

Fixpoint lex_leb (a b : list Z) : bool :=
  match a, b with
  | x :: a', y :: b' => if x <? y then true else if y <? x then false else lex_leb a' b'
  | _, _ => true
  end.

Definition ts_fields (t : Timestamp) : list Z :=
  [ts_year t; ts_month t; ts_day t; ts_hour t; ts_minute t; ts_second t].

Definition ts_leb (a b : Timestamp) : bool := lex_leb (ts_fields a) (ts_fields b).

(** [Series.min()] and [Series.max()] of dates: missing ones are skipped,
    and the result is missing when nothing is left. *)
Definition ts_min (s : list (option Timestamp)) : option Timestamp :=
  fold_left (fun acc t =>
               match acc with
               | None => Some t
               | Some a => Some (if ts_leb a t then a else t)
               end) (omap id s) None.

Definition ts_max (s : list (option Timestamp)) : option Timestamp :=
  fold_left (fun acc t =>
               match acc with
               | None => Some t
               | Some a => Some (if ts_leb a t then t else a)
               end) (omap id s) None.

(** [str(timestamp)] *)
Definition ts_str (t : option Timestamp) : string :=
  match t with
  | None => "NaT"
  | Some t =>
      Text.pad_num 4 (ts_year t) ++ "-" ++ Text.pad_num 2 (ts_month t) ++ "-"
      ++ Text.pad_num 2 (ts_day t) ++ " " ++ Text.pad_num 2 (ts_hour t) ++ ":"
      ++ Text.pad_num 2 (ts_minute t) ++ ":" ++ Text.pad_num 2 (ts_second t)
  end.

(** Days since 1970-01-01 in the proleptic Gregorian calendar. *)
Definition days_from_civil (y m d : Z) : Z :=
  let y' := if m <=? 2 then y - 1 else y in
  let era := y' / 400 in
  let yoe := y' - era * 400 in
  let mp := (m + 9) mod 12 in
  let doy := (153 * mp + 2) / 5 + d - 1 in
  let doe := yoe * 365 + yoe / 4 - yoe / 100 + doy in
  era * 146097 + doe - 719468.

Definition weekday_names : list string :=
  ["Monday"; "Tuesday"; "Wednesday"; "Thursday"; "Friday"; "Saturday"; "Sunday"].

(** [dt.day_name()]; 1970-01-01 was a Thursday. *)
Definition day_name (t : Timestamp) : string :=
  let k := (days_from_civil (ts_year t) (ts_month t) (ts_day t) + 3) mod 7 in
  nth (Z.to_nat k) weekday_names "Monday".

Definition to_period_M (t : Timestamp) : Period := (ts_year t, ts_month t).

Definition period_eqb (a b : Period) : bool :=
  ((fst a =? fst b) && (snd a =? snd b))%bool.

Definition period_leb (a b : Period) : bool :=
  lex_leb [fst a; snd a] [fst b; snd b].

(** [calendar.month_abbr[i] for i in range(1, 13)] *)
Definition month_abbr : list string :=
  ["Jan"; "Feb"; "Mar"; "Apr"; "May"; "Jun"; "Jul"; "Aug"; "Sep"; "Oct"; "Nov"; "Dec"].

End Dates.

(* ===================================================================== *)
(** ** lapd.py *)
(* ===================================================================== *)

Module Lapd.
Import Pandas Dates.

(** Line 23: the white space that [str.strip()] removes, within ASCII. *)
Definition is_whitespace (c : ascii) : bool :=
  let n := nat_of_ascii c in
  ((n =? 32) || ((9 <=? n) && (n <=? 13)) || ((28 <=? n) && (n <=? 31)))%nat%bool.

Fixpoint lstrip (l : list ascii) : list ascii :=
  match l with
  | c :: l' => if is_whitespace c then lstrip l' else l
  | [] => []
  end.

(** [str.strip()] *)
Definition strip (s : string) : string :=
  string_of_list_ascii (rev (lstrip (rev (lstrip (list_ascii_of_string s))))).

(** The characters the pattern [\w] matches, within ASCII. *)
Definition is_word (c : ascii) : bool :=
  let n := nat_of_ascii c in
  (((48 <=? n) && (n <=? 57)) || ((65 <=? n) && (n <=? 90))
   || ((97 <=? n) && (n <=? 122)) || (n =? 95))%nat%bool.

(** [re.sub(r"[^\w]+", "_", text)]: each longest run of other characters
    becomes one underscore.  [in_run]: the character before was replaced. *)
Fixpoint replace_runs (l : list ascii) (in_run : bool) : list ascii :=
  match l with
  | [] => []
  | c :: l' =>
      if is_word c then c :: replace_runs l' false
      else if in_run then replace_runs l' true
      else "_"%char :: replace_runs l' true
  end.

(** Line 23: [str.strip().str.lower().str.replace(r"[^\w]+", "_",
    regex=True)] on one column name. *)
Definition standardize (name : string) : string :=
  string_of_list_ascii
    (replace_runs (list_ascii_of_string (Num.lowercase (strip name))) false).

Section Script.

(** [pd.to_datetime(series, errors="coerce")]: the date parser is the
    library's; an unparseable cell becomes missing. *)
Variable to_datetime : list cell -> list (option Timestamp).

(** The signed number of tenths that the [.1f] format prints for a
    value. *)
Variable round_tenths : Q -> Z.

(** The positions drawn by the random generator: seed, size, how many. *)
Variable choice : Z -> nat -> nat -> list nat.

Definition nl : string := String (ascii_of_nat 10) "".

Definition str_of_nat (n : nat) : string := Text.str_of_Z (Z.of_nat n).

(** [f"{x:.1f}"] *)
Definition format_1f (x : option Num.real) : string :=
  match x with
  | None => "nan"
  | Some (Num.Infinite false) => "inf"
  | Some (Num.Infinite true) => "-inf"
  | Some (Num.Finite q) =>
      let t := round_tenths q in
      (if t <? 0 then "-" else "")
      +:+ Text.str_of_Z (Z.abs t / 10) +:+ "." +:+ Text.str_of_Z (Z.abs t mod 10)
  end.

(** [Series.mean()] of floats. *)
Definition real_mean (s : list Num.real) : option Num.real :=
  let has (neg : bool) :=
    existsb (fun r => match r with Num.Infinite b => Bool.eqb b neg | _ => false end) s in
  match s with
  | [] => None
  | _ =>
      if (has false && has true)%bool then None
      else if has false then Some (Num.Infinite false)
      else if has true then Some (Num.Infinite true)
      else
        match mean (omap (fun r => match r with Num.Finite q => Some q | _ => None end) s) with
        | Some q => Some (Num.Finite q)
        | None => None
        end
  end.

(** [df[name]] *)
Definition getitem {A} (column : option A) (name : string) : M A :=
  match column with
  | Some c => mret c
  | None => raise (KeyError [Str name])
  end.

(** Lines 29-32: the parsed date column, when one of the two date columns
    is there. *)
Definition date_occ (df : DataFrame) : option (list (option Timestamp)) :=
  match df_columns df !! "date_occ" with
  | Some c => Some (to_datetime c)
  | None =>
      match df_columns df !! "date_rptd" with
      | Some c => Some (to_datetime c)
      | None => None
      end
  end.

(** Line 36: [astype(str).str.zfill(4).str[-4:]].  A missing cell has no
    time code here.  [astype(str)] writes the text nan for it before
    pandas 3.0, which lines 36 and 37 turn into 0nan and then into a
    missing hour; from pandas 3.0 on it leaves the cell missing, and so do
    the text operations after it.  The hour is missing either way, and
    nothing else reads the column. *)
Definition time_occ (col : list cell) : list (option string) :=
  map (fun c => match c with
                | NaN => None
                | _ => Some (Text.last_chars 4 (Text.zfill 4 (str c)))
                end) col.

(** Lines 35-39 *)
Definition hour (df : DataFrame) : list (option Num.real) :=
  match df_columns df !! "time_occ" with
  | Some col =>
      map (fun t => match t with
                    | Some t => to_numeric (Str (Text.first_chars 2 t))
                    | None => None
                    end) (time_occ col)
  | None => repeat None (df_len df)
  end.

(** Lines 42-45 *)
Definition year (dates : list (option Timestamp)) : list (option Z) :=
  map (fmap ts_year) dates.

Definition month (dates : list (option Timestamp)) : list (option Z) :=
  map (fmap ts_month) dates.

Definition weekday (dates : list (option Timestamp)) : list (option string) :=
  map (fmap day_name) dates.

Definition month_year (dates : list (option Timestamp)) : list (option Period) :=
  map (fmap to_period_M) dates.

(** Lines 71-72 and 145-146: the ages strictly between 0 and 120. *)
Definition plausible (a : Num.real) : bool :=
  (Num.real_ltb (Num.of_Z 0) a && Num.real_ltb a (Num.of_Z 120))%bool.

Definition valid_ages (col : list cell) : list Num.real :=
  List.filter plausible (omap to_numeric col).

(** Line 80: [descent_map[code]] *)
Definition descent_label (code : cell) : exn + string :=
  match code with
  | Str s =>
      match descent_map !! s with
      | Some label => inr label
      | None => inl (KeyError [code])
      end
  | _ => inl (KeyError [code])
  end.

(** Line 77 *)
Definition max_descent (col : list cell) : list (cell * nat) :=
  nlargest 1 (value_counts (fillna (Str "X") col)).

(** Lines 79-80 *)
Fixpoint print_descent (items : list (cell * nat)) : M unit :=
  match items with
  | [] => mret tt
  | (code, count) :: rest =>
      label ← lift (descent_label code);
      print ["      " +:+ label +:+ ": " +:+ str_of_nat count];;
      print_descent rest
  end.

(** Lines 54-57 *)
Definition kpi_crime_types (df : DataFrame) : M unit :=
  match df_columns df !! "crm_cd_desc" with
  | Some col =>
      print ["Unique crime types:          "; str_of_nat (nunique col)];;
      top_crime ← lift (idxmax (value_counts col));
      print ["Most common crime type:      "; str top_crime]
  | None => mret tt
  end.

(** Lines 59-62 *)
Definition kpi_top_area (df : DataFrame) : M unit :=
  match df_columns df !! "area_name" with
  | Some col =>
      top_area ← lift (idxmax (value_counts col));
      print ["Top area by count:           "; str top_area];;
      print ["Crimes in " +:+ str top_area +:+ ":           ";
             match max_count (value_counts col) with
             | Some n => str_of_nat n
             | None => "nan"
             end]
  | None => mret tt
  end.

(** Lines 65-67; the column [month_year] was assigned on line 45. *)
Definition kpi_avg_monthly (dates : list (option Timestamp)) : M unit :=
  let avg_monthly :=
    real_mean (map (fun kv => Num.of_Z (Z.of_nat (snd kv)))
                   (groupby_size period_eqb period_leb (month_year dates))) in
  print ["Average crimes per month:     " +:+ format_1f avg_monthly].

(** Lines 70-74 *)
Definition kpi_victim_age (df : DataFrame) : M unit :=
  match df_columns df !! "vict_age" with
  | Some col =>
      when (0 <? length (valid_ages col))%nat
           (print ["Average victim age:           " +:+ format_1f (real_mean (valid_ages col))])
  | None => mret tt
  end.

(** Lines 76-80 *)
Definition kpi_victim_descent (df : DataFrame) : M unit :=
  match df_columns df !! "vict_descent" with
  | Some col =>
      print ["Top victim descent code:"];;
      print_descent (max_descent col)
  | None => mret tt
  end.

(** Lines 50-82 *)
Definition kpi_summary (df : DataFrame) (dates : list (option Timestamp)) : M unit :=
  print [nl +:+ "========= KPI Summary ========="];;
  print ["Total records:               "; str_of_nat (df_len df)];;
  print ["Date range:                  "; ts_str (ts_min dates); "to"; ts_str (ts_max dates)];;
  kpi_crime_types df;;
  kpi_top_area df;;
  kpi_avg_monthly dates;;
  kpi_victim_age df;;
  kpi_victim_descent df;;
  print ["==============================="].

(** Line 105 and line 119 *)
Definition weekday_order : list string :=
  ["Monday"; "Tuesday"; "Wednesday"; "Thursday"; "Friday"; "Saturday"; "Sunday"].

(** Lines 90-99.  With no dated row the series is empty, and drawing it
    on line 92 raises: the limits of the time axis are the least and the
    greatest of no value. *)
Definition plot_monthly_trend (dates : list (option Timestamp)) : M unit :=
  let monthly := groupby_size period_eqb period_leb (month_year dates) in
  match monthly with
  | [] => raise (ValueError "zero-size array to reduction operation fmin which has no identity")
  | _ => savefig "monthly_trend.png" (MonthlyTrend monthly (rolling_mean 12 monthly))
  end.

(** Lines 103-107 *)
Definition crimes_weekday (dates : list (option Timestamp)) : list (string * nat) :=
  countplot_order weekday_order (weekday dates).

Definition plot_crimes_weekday (dates : list (option Timestamp)) : M unit :=
  savefig "crimes_weekday.png" (WeekdayBars (crimes_weekday dates)).

(** Lines 111-114 *)
Definition crimes_hours (df : DataFrame) : list (Num.real * nat) :=
  countplot (hour df).

Definition plot_crimes_hours (df : DataFrame) : M unit :=
  savefig "crimes_hours.png" (HourBars (crimes_hours df)).

(** Lines 118-119 *)
Definition pivot (hours : list (option Num.real)) (weekdays : list (option string))
    (dr_no : list cell) : exn + Pivot Num.real string :=
  getitem_columns String.eqb
    (pivot_table Num.real_eqb Num.real_leb String.eqb String.leb hours weekdays dr_no (Some 0))
    weekday_order Str.

(** Lines 118-123 *)
Definition plot_hour_weekday_heatmap (df : DataFrame) (dates : list (option Timestamp))
  : M unit :=
  dr_no ← getitem (df_columns df !! "dr_no") "dr_no";
  p ← lift (pivot (hour df) (weekday dates) dr_no);
  savefig "hour_weekday_heatmap.png" (HourWeekdayHeatmap p).

(** Lines 127-131 *)
Definition plot_top_areas (df : DataFrame) : M unit :=
  match df_columns df !! "area_name" with
  | Some col => savefig "top_areas.png" (TopAreas (nlargest 10 (value_counts col)))
  | None => mret tt
  end.

(** Lines 135-140 *)
Definition plot_top_crimes (df : DataFrame) : M unit :=
  match df_columns df !! "crm_cd_desc" with
  | Some col => savefig "top_crimes.png" (TopCrimes (nlargest 15 (value_counts col)))
  | None => mret tt
  end.

(** Lines 144-152; [ages] is computed as [valid_ages] is. *)
Definition ages (col : list cell) : list Num.real :=
  List.filter plausible (omap to_numeric col).

Definition plot_victim_age (df : DataFrame) : M unit :=
  match df_columns df !! "vict_age" with
  | Some col => savefig "victim_age.png" (AgeHist (ages col) 20)
  | None => mret tt
  end.

Definition colors : list string := ["#ff6f61"; "#6ec6ff"; "#ffd166"; "#06d6a0"].

(** Lines 156-172 *)
Definition plot_victim_sex (df : DataFrame) : M unit :=
  match df_columns df !! "vict_sex" with
  | Some col =>
      let counts := value_counts (fillna (Str "Unknown") col) in
      let labels := map fst counts in
      let sizes := map snd counts in
      savefig "victim_sex.png" (SexPie sizes labels (firstn (length labels) colors))
  | None => mret tt
  end.

(** Line 179: [.map(descent_map)]; a code that is not a key becomes
    missing. *)
Definition map_descent (c : cell) : cell :=
  match c with
  | Str s =>
      match descent_map !! s with
      | Some label => Str label
      | None => NaN
      end
  | _ => NaN
  end.

(** Line 179 *)
Definition descent_bars (col : list cell) : list (cell * nat) :=
  nlargest 10 (value_counts (map map_descent (fillna (Str "X") col))).

(** Lines 177-184 *)
Definition plot_victim_descent (df : DataFrame) : M unit :=
  match df_columns df !! "vict_descent" with
  | Some col => savefig "victim_descent.png" (DescentBars (descent_bars col))
  | None => mret tt
  end.

(** Line 189: [df.dropna(subset=["lat","lon"])], as (lat, lon) rows. *)
Definition geocoded (lat lon : list cell) : list (cell * cell) :=
  List.filter (fun r => (notna (fst r) && notna (snd r))%bool) (combine lat lon).

(** Line 189 *)
Definition sub (entropy : Z) (df : DataFrame) (lat lon : list cell)
  : exn + list (cell * cell) :=
  sample choice entropy (geocoded lat lon) (Z.min 100000 (Z.of_nat (df_len df))) (Some 1).

(** Lines 188-197 *)
Definition plot_lat_lon (entropy : Z) (df : DataFrame) : M unit :=
  match df_columns df !! "lat", df_columns df !! "lon" with
  | Some lat, Some lon =>
      s ← lift (sub entropy df lat lon);
      xs ← lift (astype_float_all (map snd s));
      ys ← lift (astype_float_all (map fst s));
      savefig "la_lat_lon.png" (Scatter xs ys)
  | _, _ => mret tt
  end.

(** Line 201 *)
Definition df2 (years months : list (option Z)) (dr_no : list cell)
  : list (option Z * option Z * cell) :=
  List.filter (fun r => (bool_decide (is_Some (fst (fst r)))
                    && bool_decide (is_Some (snd (fst r))))%bool)
         (combine (combine years months) dr_no).

(** Line 202 *)
Definition pivot2 (years months : list (option Z)) (dr_no : list cell) : Pivot Z Z :=
  let rows := df2 years months dr_no in
  pivot_table Z.eqb Z.leb Z.eqb Z.leb
    (map (fun r => fst (fst r)) rows) (map (fun r => snd (fst r)) rows) (map snd rows)
    (Some 0).

(** Lines 201-207 *)
Definition plot_year_month_heatmap (df : DataFrame) (dates : list (option Timestamp))
  : M unit :=
  dr_no ← getitem (df_columns df !! "dr_no") "dr_no";
  savefig "year_month_heatmap.png"
          (YearMonthHeatmap (pivot2 (year dates) (month dates) dr_no) month_abbr).

(** Lines 89-207 *)
Definition plots (entropy : Z) (df : DataFrame) (dates : list (option Timestamp)) : M unit :=
  plot_monthly_trend dates;;
  plot_crimes_weekday dates;;
  plot_crimes_hours df;;
  plot_hour_weekday_heatmap df dates;;
  plot_top_areas df;;
  plot_top_crimes df;;
  plot_victim_age df;;
  plot_victim_sex df;;
  plot_victim_descent df;;
  plot_lat_lon entropy df;;
  plot_year_month_heatmap df dates.

(** The script, after the table is loaded (line 18) and its columns are
    renamed (line 23).  Line 42 reads [df["date_occ"]] whether or not
    lines 29-32 assigned it.  [entropy] is what an unseeded generator
    would start from. *)
Definition run (entropy : Z) (df : DataFrame) : M unit :=
  dates ← getitem (date_occ df) "date_occ";
  kpi_summary df dates;;
  plots entropy df dates.

End Script.

End Lapd.

(* ===================================================================== *)
(** ** Sample tables and library stand-ins used to run the script *)
(* ===================================================================== *)

Module Examples.
Import Pandas Dates Lapd.

Definition digits_at (start len : nat) (s : string) : option Z :=
  match Num.read_digits (list_ascii_of_string (substring start len s)) 0 0 with
  | (v, n, []) => if (n =? len)%nat then Some v else None
  | _ => None
  end.

(** A date parser for texts of the form YYYY-MM-DD; anything else is
    coerced to missing. *)
Definition iso_date (c : cell) : option Timestamp :=
  match c with
  | Str s =>
      if (String.length s =? 10)%nat then
        match digits_at 0 4 s, digits_at 5 2 s, digits_at 8 2 s with
        | Some y, Some m, Some d =>
            Some {| ts_year := y; ts_month := m; ts_day := d;
                    ts_hour := 0; ts_minute := 0; ts_second := 0 |}
        | _, _, _ => None
        end
      else None
  | _ => None
  end.

Definition iso_dates (s : list cell) : list (option Timestamp) := map iso_date s.

(** Tenths, rounding half up. *)
Definition nearest_tenth (q : Q) : Z :=
  (20 * Qnum q + Zpos (Qden q)) / (2 * Zpos (Qden q)).

(** A generator that draws the first positions. *)
Definition first_positions (seed : Z) (size n : nat) : list nat := seq 0 n.

Definition frame (n : nat) (cols : list (string * list cell)) : DataFrame :=
  {| df_len := n; df_columns := list_to_map cols |}.

(** One week of incidents, Monday 2020-01-06 to Sunday 2020-01-12. *)
Definition week : list cell :=
  [Str "2020-01-06"; Str "2020-01-07"; Str "2020-01-08"; Str "2020-01-09";
   Str "2020-01-10"; Str "2020-01-11"; Str "2020-01-12"].

(** A table with neither date column. *)
Definition no_dates : DataFrame :=
  frame 2 [("dr_no", [Int 1; Int 2]); ("time_occ", [Int 2300; Int 930])].

(** Two rows, one of them without a latitude. *)
Definition half_geocoded : DataFrame :=
  frame 2 [("lat", [Str "34.05"; NaN]); ("lon", [Str "-118.25"; Str "-118.30"])].

(** A full week, every weekday present. *)
Definition full_week : DataFrame :=
  frame 7 [("date_occ", week);
           ("time_occ", [Int 2300; Int 5; Int 930; Str "9999"; Int 1200; Int 1; Int 2359]);
           ("dr_no", [Int 1; Int 2; Int 3; Int 4; Int 5; Int 6; Int 7])].

Definition ages_table : DataFrame :=
  frame 4 [("vict_age", [Int 30; Int 150; Str "45"; Int 0])].

Definition mostly_missing : DataFrame :=
  frame 5 [("vict_descent", [NaN; Str "B"; NaN; Str "X"; NaN])].

Definition unmapped_minor : DataFrame :=
  frame 3 [("vict_descent", [Str "B"; Str "B"; Str "Q"])].

Definition unmapped_top : DataFrame :=
  frame 3 [("vict_descent", [Str "Q"; Str "Q"; Str "B"])].

Definition at_midnight (y m d : Z) : Timestamp :=
  {| ts_year := y; ts_month := m; ts_day := d; ts_hour := 0; ts_minute := 0; ts_second := 0 |}.

(** Monday 2020-01-06 *)
Definition monday : Timestamp := at_midnight 2020 1 6.

(** One incident, on a Monday at 05:00. *)
Definition one_monday : DataFrame :=
  frame 1 [("date_occ", [Str "2020-01-06"]); ("time_occ", [Int 500]); ("dr_no", [Int 1])].

(** The seven days from Monday 2020-01-06, then a row without a date. *)
Definition week_then_undated : list (option Timestamp) :=
  [Some (at_midnight 2020 1 6); Some (at_midnight 2020 1 7); Some (at_midnight 2020 1 8);
   Some (at_midnight 2020 1 9); Some (at_midnight 2020 1 10); Some (at_midnight 2020 1 11);
   Some (at_midnight 2020 1 12); None].


(** The dates of [week], parsed. *)
Definition week_dates : list (option Timestamp) := firstn 7 week_then_undated.



(** A table without the time column. *)
Definition no_time : DataFrame :=
  frame 2 [("dr_no", [Int 1; Int 2]); ("date_occ", [Str "2020-01-06"; Str "2020-01-07"])].

(** Five incidents with an area, a crime type and a victim sex. *)
Definition survey : DataFrame :=
  frame 5 [("area_name", [Str "Central"; Str "Rampart"; NaN; Str "Rampart"; Str "Hollywood"]);
           ("crm_cd_desc", [Str "THEFT"; Str "THEFT"; Str "ROBBERY"; NaN; Str "THEFT"]);
           ("vict_sex", [Str "M"; Str "F"; NaN; Str "M"; Str "X"])].

(** Two rows, both with a latitude and a longitude. *)
Definition fully_geocoded : DataFrame :=
  frame 2 [("lat", [Str "34.05"; Int 34]); ("lon", [Str "-118.25"; Str "-118.30"])].

(** A week of incidents with every column the script reads but
    [date_rptd]. *)
Definition city_week_columns : list (string * list cell) :=
  [("date_occ", week);
   ("time_occ", [Int 2300; Int 5; Int 930; Int 1415; Int 1200; Int 1; Int 2359]);
   ("dr_no", [Int 1; Int 2; Int 3; Int 4; Int 5; Int 6; Int 7]);
   ("crm_cd_desc", [Str "THEFT"; Str "THEFT"; Str "ROBBERY"; NaN; Str "THEFT";
                    Str "ARSON"; Str "ROBBERY"]);
   ("area_name", [Str "Central"; Str "Rampart"; NaN; Str "Rampart"; Str "Hollywood";
                  Str "Central"; Str "Rampart"]);
   ("vict_age", [Int 30; Int 150; Str "45"; Int 0; Int 27; NaN; Int 61]);
   ("vict_sex", [Str "M"; Str "F"; NaN; Str "M"; Str "X"; Str "F"; Str "F"]);
   ("vict_descent", [Str "H"; Str "B"; NaN; Str "H"; Str "W"; Str "H"; NaN]);
   ("lat", [Str "34.05"; Int 34; Str "34.10"; Str "33.99"; Str "34.02"; Str "34.07";
            Str "34.20"]);
   ("lon", [Str "-118.25"; Str "-118.30"; Int (-118); Str "-118.41"; Str "-118.28";
            Str "-118.33"; Str "-118.45"])].

Definition city_week : DataFrame := frame 7 city_week_columns.

(** The same table with a report date and a weapon column as well. *)
Definition city_week_annotated : DataFrame :=
  frame 7 (city_week_columns
           ++ [("date_rptd", [Str "2020-02-01"; Str "2020-02-01"; Str "2020-02-02"; NaN;
                              Str "2020-02-03"; Str "2020-02-03"; Str "2020-02-04"]);
               ("weapon_desc", [Str "KNIFE"; NaN; NaN; Str "UNKNOWN"; NaN; NaN; NaN])]).

End Examples.

(* ===================================================================== *)
(** ** Statements in the words of the specification, and finite checks *)
(* ===================================================================== *)

Module Checks.
Import Pandas Lapd.

(** C4 in the spec's words: the code converted to a string, zero-padded to
    four characters and truncated to its last four characters; the hour is
    the number read from the first two of them, missing when they are not
    numeric. *)
Definition spec_hour (c : cell) : option Num.real :=
  let code := str c in
  let padded := Text.zfill 4 code in
  let last_four := Text.last_chars 4 padded in
  to_numeric (Str (Text.first_chars 2 last_four)).

Definition all_ascii : list ascii := map ascii_of_nat (seq 0 256).

Definition two_chars (a b : ascii) : string := String a (String b "").

(** What two characters can be read as: nothing, an integer, or a point and
    a digit read as that many tenths. *)
Definition prefix_reading_ok (a b : ascii) : bool :=
  match to_numeric (Str (two_chars a b)) with
  | None => true
  | Some (Num.Infinite _) => false
  | Some (Num.Finite q) =>
      (bool_decide (q = inject_Z (Qnum q))
       || (Ascii.eqb a "." &&
           match Num.digit_of b with
           | Some d => bool_decide (q = Qred (Qmake d 10))
           | None => false
           end))%bool
  end.

(** An integer code below 10000 gives its hundreds. *)
Definition int_code_ok (t : Z) : bool :=
  bool_decide (spec_hour (Int t) = Some (Num.of_Z (t / 100))).

(** [n] consecutive integers from [z] on. *)
Fixpoint upto (n : nat) (z : Z) : list Z :=
  match n with
  | O => []
  | S n' => z :: upto n' (z + 1)
  end.

Definition int_codes : list Z := upto (Z.to_nat 10000) 0.

Definition is_digit (c : ascii) : bool :=
  match Num.digit_of c with Some _ => true | None => false end.

Definition all_digits (s : string) : bool := forallb is_digit (list_ascii_of_string s).

(** A number printed with exactly one decimal place: an optional minus
    sign, at least one digit, a point, one digit. *)
Definition one_decimal (s : string) : Prop :=
  exists (sign whole : string) (tenth : ascii),
    s = sign +:+ whole +:+ "." +:+ String tenth ""
    /\ (sign = "" \/ sign = "-")
    /\ whole <> ""
    /\ all_digits whole = true
    /\ is_digit tenth = true.

(** An age that the claim excludes: at most 0, or at least 120. *)
Definition out_of_range (a : Num.real) : bool :=
  (Num.real_leb a (Num.of_Z 0) || Num.real_leb (Num.of_Z 120) a)%bool.


(** The state after [print(args)]. *)
Definition after_print (args : list string) (w : world) : world := fst (print args w).

(** The state after a figure is saved. *)
Definition after_savefig (name : string) (c : chart) (w : world) : world :=
  fst (savefig name c w).

(** [top] is a most frequent value of the column: it is not missing, it
    occurs, and no value occurs more often. *)
Definition most_frequent (col : list cell) (top : cell) : Prop :=
  top <> NaN /\ In top col
  /\ forall k : cell, k <> NaN -> (count cell_eqb k col <= count cell_eqb top col)%nat.

(** [bars] are the [n] most frequent values of the column with their
    counts, the most frequent first. *)
Definition top_bars (n : nat) (col : list cell) (bars : list (cell * nat)) : Prop :=
  length bars = Nat.min n (nunique col)
  /\ List.NoDup (map fst bars)
  /\ StronglySorted (fun a b => (snd b <= snd a)%nat) bars
  /\ (forall k c, In (k, c) bars ->
        k <> NaN /\ c = count cell_eqb k col /\ (0 < c)%nat)
  /\ (forall k, k <> NaN -> In k col -> ~ In k (map fst bars) ->
        forall b, In b bars -> (count cell_eqb k col <= snd b)%nat).

(** The (code, label) pairs of the mapping. *)
Definition descent_pairs : list (string * string) := map_to_list descent_map.

(** No two codes share a label. *)
Definition labels_distinct (pairs : list (string * string)) : bool :=
  forallb (fun a =>
             forallb (fun b =>
                        implb (String.eqb (snd a) (snd b)) (String.eqb (fst a) (fst b)))
                     pairs) pairs.

(** A code is one capital letter. *)
Definition is_capital (s : string) : bool :=
  match s with
  | String c EmptyString =>
      let n := nat_of_ascii c in ((65 <=? n) && (n <=? 90))%nat%bool
  | _ => false
  end.

(** The columns the script looks up by name. *)
Definition columns_read : list string :=
  ["date_occ"; "date_rptd"; "time_occ"; "crm_cd_desc"; "area_name"; "vict_age";
   "vict_descent"; "vict_sex"; "lat"; "lon"; "dr_no"].
(** Whether the table has a column of that name. *)
Definition has (df : DataFrame) (name : string) : bool :=
  bool_decide (is_Some (df_columns df !! name)).

(** The files a complete run saves, in the order it saves them. *)
Definition figure_names (df : DataFrame) : list string :=
  ["monthly_trend.png"; "crimes_weekday.png"; "crimes_hours.png"; "hour_weekday_heatmap.png"]
  ++ (if has df "area_name" then ["top_areas.png"] else [])
  ++ (if has df "crm_cd_desc" then ["top_crimes.png"] else [])
  ++ (if has df "vict_age" then ["victim_age.png"] else [])
  ++ (if has df "vict_sex" then ["victim_sex.png"] else [])
  ++ (if has df "vict_descent" then ["victim_descent.png"] else [])
  ++ (if (has df "lat" && has df "lon")%bool then ["la_lat_lon.png"] else [])
  ++ ["year_month_heatmap.png"].

(** A step only adds to the console and to the saved figures, and the
    figures it saves are the first of [names], in order: all of them when
    it returns, and, when [strict], not all of them when it raises. *)
Definition emits {A} (strict : bool) (names : list string) (m : M A) : Prop :=
  forall w, exists (out : string) (figs : list (string * chart)) (rest : list string),
    fst (m w) = {| stdout := stdout w +:+ out; figures := figures w ++ figs |}
    /\ names = map fst figs ++ rest
    /\ match snd (m w) with
       | inr _ => rest = []
       | inl _ => strict = true -> rest <> []
       end.
(** A step returns, from whatever state it starts, exactly when [P] holds. *)
Definition returns_iff {A} (m : M A) (P : Prop) : Prop :=
  forall w, (exists w' a, m w = (w', inr a)) <-> P.
(** A lower-case letter, a digit or an underscore. *)
Definition is_name_char (c : ascii) : bool :=
  let n := nat_of_ascii c in
  (((48 <=? n) && (n <=? 57)) || ((97 <=? n) && (n <=? 122)) || (n =? 95))%nat%bool.

(** A letter or a digit. *)
Definition is_alnum (c : ascii) : bool :=
  let n := nat_of_ascii c in
  (((48 <=? n) && (n <=? 57)) || ((65 <=? n) && (n <=? 90))
   || ((97 <=? n) && (n <=? 122)))%nat%bool.

(** Every character is below 128. *)
Definition is_ascii (s : string) : Prop :=
  forall c, In c (list_ascii_of_string s) -> (nat_of_ascii c < 128)%nat.

(** When the step returns, the last thing on the console is [line]. *)
Definition closes_with {A} (line : string) (m : M A) : Prop :=
  forall w w' a, m w = (w', inr a) -> exists body, stdout w' = stdout w +:+ body +:+ line.

End Checks.

(* ===================================================================== *)
(** ** Properties *)
(* ===================================================================== *)

Import Pandas Dates Lapd.

Import Checks Examples.

(** *** Text *)

Lemma length_append (a b : string) :
  String.length (a ++ b) = (String.length a + String.length b)%nat.
Proof. induction a as [|c a IH]; simpl; [reflexivity | now rewrite IH]. Qed.

Lemma length_zeros (n : nat) : String.length (Text.zeros n) = n.
Proof. induction n as [|n IH]; simpl; [reflexivity | now rewrite IH]. Qed.

Lemma length_substring (s : string) (n m : nat) :
  (n + m <= String.length s)%nat -> String.length (substring n m s) = m.
Proof.
  revert n m. induction s as [|c s IH]; intros n m H; simpl in *.
  - destruct n, m; simpl; lia.
  - destruct n as [|n].
    + destruct m as [|m]; simpl; [reflexivity |]. rewrite IH; [reflexivity | lia].
    + apply IH. lia.
Qed.

Lemma length_zfill (w : nat) (s : string) : (w <= String.length (Text.zfill w s))%nat.
Proof.
  unfold Text.zfill. destruct (Nat.leb_spec w (String.length s)) as [H|H]; [exact H |].
  destruct s as [|c rest]; simpl in *.
  - rewrite length_zeros. lia.
  - destruct (Text.is_sign c); simpl; rewrite length_append, length_zeros; simpl; lia.
Qed.

Lemma length_last_chars (k : nat) (s : string) :
  (k <= String.length s)%nat -> String.length (Text.last_chars k s) = k.
Proof.
  intros H. unfold Text.last_chars.
  destruct (Nat.leb_spec (String.length s) k) as [H'|H']; [lia |].
  apply length_substring. lia.
Qed.

Lemma length_prefix_of_code (c : cell) :
  String.length (Text.first_chars 2 (Text.last_chars 4 (Text.zfill 4 (str c)))) = 2%nat.
Proof.
  unfold Text.first_chars. apply length_substring.
  rewrite length_last_chars; [lia | apply length_zfill].
Qed.

Lemma string_of_length_2 (s : string) :
  String.length s = 2%nat -> exists a b, s = two_chars a b.
Proof.
  destruct s as [|a [|b [|c s]]]; simpl; intros H; try discriminate.
  now exists a, b.
Qed.

Lemma in_all_ascii (a : ascii) : In a all_ascii.
Proof.
  unfold all_ascii. rewrite <- (ascii_nat_embedding a).
  apply in_map, in_seq. pose proof (nat_ascii_bounded a). lia.
Qed.

Lemma all_prefixes_ok :
  forallb (fun a => forallb (prefix_reading_ok a) all_ascii) all_ascii = true.
Proof. vm_compute. reflexivity. Qed.

Lemma all_int_codes_ok : forallb int_code_ok int_codes = true.
Proof. vm_compute. reflexivity. Qed.

Lemma prefix_reading_ok_true (a b : ascii) : prefix_reading_ok a b = true.
Proof.
  pose proof all_prefixes_ok as H.
  rewrite forallb_forall in H. specialize (H a (in_all_ascii a)).
  rewrite forallb_forall in H. exact (H b (in_all_ascii b)).
Qed.

Lemma prefix_reading (a b : ascii) :
  to_numeric (Str (two_chars a b)) = None
  \/ (exists z : Z, to_numeric (Str (two_chars a b)) = Some (Num.of_Z z))
  \/ (exists d : Z, a = "."%char /\ Num.digit_of b = Some d
                    /\ to_numeric (Str (two_chars a b)) = Some (Num.Finite (Qred (Qmake d 10)))).
Proof.
  pose proof (prefix_reading_ok_true a b) as H.
  unfold prefix_reading_ok in H.
  destruct (to_numeric (Str (two_chars a b))) as [[q|neg]|]; [| discriminate | now left].
  right. apply orb_true_iff in H. destruct H as [H|H].
  - left. apply bool_decide_eq_true in H. exists (Qnum q). unfold Num.of_Z. now rewrite <- H.
  - right. apply andb_true_iff in H. destruct H as [Ha Hb].
    apply Ascii.eqb_eq in Ha.
    destruct (Num.digit_of b) as [d|]; [| discriminate].
    apply bool_decide_eq_true in Hb. exists d. now subst.
Qed.

Lemma In_upto (n : nat) (z t : Z) : z <= t < z + Z.of_nat n -> In t (upto n z).
Proof.
  revert z. induction n as [|n IH]; intros z H; [lia |].
  simpl. destruct (Z.eq_dec z t) as [E|E]; [now left | right].
  apply IH. lia.
Qed.

Lemma spec_hour_int (t : Z) :
  0 <= t <= 9999 -> spec_hour (Int t) = Some (Num.of_Z (t / 100)).
Proof.
  intros Ht. pose proof all_int_codes_ok as H.
  rewrite forallb_forall in H. specialize (H t).
  eapply bool_decide_eq_true_1. apply H. unfold int_codes. apply In_upto. lia.
Qed.

(** *** Keys *)

Section KeysFacts.
Context {K : Type} (eqb leb : K -> K -> bool).
Hypothesis eqb_refl : forall a, eqb a a = true.
Hypothesis eqb_sym : forall a b, eqb a b = eqb b a.
Hypothesis eqb_trans : forall a b c, eqb a b = true -> eqb b c = true -> eqb a c = true.

Lemma In_insert_sorted (k x : K) (l : list K) :
  In k (insert_sorted leb x l) <-> k = x \/ In k l.
Proof.
  induction l as [|y l IH]; simpl.
  - intuition congruence.
  - destruct (leb x y); simpl; [| rewrite IH]; intuition congruence.
Qed.

Lemma In_sort (k : K) (l : list K) : In k (sort leb l) <-> In k l.
Proof.
  induction l as [|x l IH]; simpl; [reflexivity |].
  rewrite In_insert_sorted, IH. intuition congruence.
Qed.

Lemma In_unique (k : K) (l : list K) : In k (unique eqb l) -> In k l.
Proof.
  revert k. induction l as [|x l IH]; simpl; intros k H; [exact H |].
  destruct H as [H|H]; [now left | right].
  apply filter_In in H. apply IH, H.
Qed.

Lemma mem_In (k : K) (l : list K) :
  mem eqb k l = true <-> exists k', In k' l /\ eqb k k' = true.
Proof. unfold mem. apply existsb_exists. Qed.

Lemma mem_unique (k : K) (l : list K) : In k l -> mem eqb k (unique eqb l) = true.
Proof.
  induction l as [|x l IH]; simpl; intros H; [contradiction |].
  destruct H as [->|H]; [now rewrite eqb_refl |].
  destruct (eqb k x) eqn:Hkx; [reflexivity | simpl].
  specialize (IH H). apply mem_In in IH. destruct IH as (k' & Hin & Hk).
  apply mem_In. exists k'. split; [| exact Hk].
  apply filter_In. split; [exact Hin |].
  destruct (eqb x k') eqn:Hx; [| reflexivity].
  rewrite eqb_sym in Hx. rewrite (eqb_trans _ _ _ Hk Hx) in Hkx. discriminate.
Qed.


End KeysFacts.

Lemma real_eqb_refl (a : Num.real) : Num.real_eqb a a = true.
Proof.
  destruct a as [q|b]; simpl.
  - apply Qeq_bool_iff. reflexivity.
  - now destruct b.
Qed.

Lemma real_eqb_sym (a b : Num.real) : Num.real_eqb a b = Num.real_eqb b a.
Proof.
  destruct a as [p|x], b as [q|y]; simpl; try reflexivity.
  - apply eq_true_iff_eq. rewrite !Qeq_bool_iff. split; intros H; now symmetry.
  - now destruct x, y.
Qed.

Lemma real_eqb_trans (a b c : Num.real) :
  Num.real_eqb a b = true -> Num.real_eqb b c = true -> Num.real_eqb a c = true.
Proof.
  destruct a as [p|x], b as [q|y], c as [r|z]; simpl; try discriminate.
  - rewrite !Qeq_bool_iff. intros H1 H2. now rewrite H1.
  - destruct x, y, z; simpl; congruence.
Qed.

Lemma countplot_order_categories (order : list string) (x : list (option string)) :
  map fst (countplot_order order x) = order.
Proof.
  unfold countplot_order. rewrite map_map. simpl. apply map_id.
Qed.

Lemma getitem_columns_labels {I C} (eqC : C -> C -> bool) (p q : Pivot I C)
    (labels : list C) (show : C -> cell) :
  getitem_columns eqC p labels show = inr q -> p_columns q = labels /\ p_index q = p_index p.
Proof.
  unfold getitem_columns.
  destruct (List.filter _ labels); [| discriminate].
  intros H. injection H as <-. split; reflexivity.
Qed.

Lemma hour_lookup (df : DataFrame) (col : list cell) (i : nat) (c : cell) :
  df_columns df !! "time_occ" = Some col ->
  col !! i = Some c ->
  hour df !! i = Some (spec_hour c).
Proof.
  intros Hcol Hi. unfold hour, time_occ. rewrite Hcol.
  rewrite map_map, list_lookup_fmap, Hi.
  destruct c; [vm_compute | |]; reflexivity.
Qed.

Lemma hour_length (df : DataFrame) (col : list cell) :
  df_columns df !! "time_occ" = Some col -> length (hour df) = length col.
Proof.
  intros Hcol. unfold hour, time_occ. rewrite Hcol. now rewrite !length_map.
Qed.

Lemma spec_hour_reading (c : cell) :
  spec_hour c = None
  \/ (exists z : Z, spec_hour c = Some (Num.of_Z z))
  \/ (exists (d : Z) (b : ascii),
        Text.first_chars 2 (Text.last_chars 4 (Text.zfill 4 (str c))) = two_chars "." b
        /\ Num.digit_of b = Some d
        /\ spec_hour c = Some (Num.Finite (Qred (Qmake d 10)))).
Proof.
  unfold spec_hour.
  destruct (string_of_length_2 _ (length_prefix_of_code c)) as (a & b & E).
  rewrite E. destruct (prefix_reading a b) as [H|[H|(d & -> & Hd & H)]].
  - now left.
  - right; now left.
  - right; right. exists d, b. auto.
Qed.

Lemma In_omap_id {A} (x : list (option A)) (i : nat) (a : A) :
  x !! i = Some (Some a) -> In a (omap id x).
Proof.
  intros H. apply list_elem_of_In, list_elem_of_omap.
  exists (Some a). split; [| reflexivity].
  apply list_elem_of_lookup. now exists i.
Qed.



Lemma keyed_rows_lookup {I C} (index : list (option I)) (columns : list (option C))
    (values : list cell) (n : nat) (i : I) (c : C) (v : cell) :
  index !! n = Some (Some i) -> columns !! n = Some (Some c) -> values !! n = Some v ->
  In (i, c, v) (keyed_rows index columns values).
Proof.
  revert columns values n.
  induction index as [|i0 index IH]; intros columns values n Hi Hc Hv; [discriminate |].
  destruct columns as [|c0 columns]; [discriminate |].
  destruct values as [|v0 values]; [discriminate |].
  destruct n as [|n]; simpl in *.
  - injection Hi as ->. injection Hc as ->. injection Hv as ->. now left.
  - specialize (IH _ _ _ Hi Hc Hv).
    destruct i0, c0; simpl; auto.
Qed.

Lemma keyed_rows_In {I C} (index : list (option I)) (columns : list (option C))
    (values : list cell) (i : I) (c : C) (v : cell) :
  In (i, c, v) (keyed_rows index columns values) ->
  exists n, index !! n = Some (Some i) /\ columns !! n = Some (Some c)
            /\ values !! n = Some v.
Proof.
  revert columns values.
  induction index as [|x index IH]; intros [|y columns] [|z values]; simpl; try tauto.
  intros H.
  assert (Hrest : In (i, c, v) (keyed_rows index columns values) ->
                  exists n, (x :: index) !! n = Some (Some i)
                            /\ (y :: columns) !! n = Some (Some c)
                            /\ (z :: values) !! n = Some v).
  { intros Hin. destruct (IH _ _ Hin) as (n & H1 & H2 & H3). now exists (S n). }
  destruct x as [i0|], y as [c0|]; auto.
  destruct H as [[= <- <- <-]|Hin]; [now exists 0%nat | auto].
Qed.



(** C4 (amended).  When the time column is present, the hour column has one
    entry per row, and the entry is what [spec_hour] reads from the code:
    the text of the code, zero-padded to four characters, cut to its last
    four, and the number read from the first two of them.  That number is
    missing, or an integer, or, when the two characters are a point and a
    digit, that many tenths.  An integer code from 0 to 9999 gives its
    hundreds.  When the time column is absent the hour is missing in every
    row. *)
Theorem C4_hour_from_time_code (df : DataFrame) :
  (forall col : list cell,
      df_columns df !! "time_occ" = Some col ->
      length (hour df) = length col
      /\ forall (i : nat) (c : cell),
           col !! i = Some c ->
           hour df !! i = Some (spec_hour c)
           /\ (spec_hour c = None
               \/ (exists z : Z, spec_hour c = Some (Num.of_Z z))
               \/ (exists (d : Z) (b : ascii),
                     Text.first_chars 2 (Text.last_chars 4 (Text.zfill 4 (str c)))
                     = two_chars "." b
                     /\ Num.digit_of b = Some d
                     /\ spec_hour c = Some (Num.Finite (Qred (Qmake d 10)))))
           /\ (forall t : Z, c = Int t -> 0 <= t <= 9999 ->
                             hour df !! i = Some (Some (Num.of_Z (t / 100)))))
  /\ (df_columns df !! "time_occ" = None -> hour df = repeat None (df_len df)).
Proof.
  split.
  - intros col Hcol. split; [now apply hour_length |].
    intros i c Hi. pose proof (hour_lookup df col i c Hcol Hi) as Hh.
    split; [exact Hh | split; [apply spec_hour_reading |]].
    intros t -> Ht. rewrite Hh. f_equal. now apply spec_hour_int.
  - intros Hcol. unfold hour. now rewrite Hcol.
Qed.


(** C4 as stated fails on the text code [.530]: the two characters read are
    a point and a five, and the hour is one half, which is no integer. *)
Lemma C4_counterexample :
  hour (Examples.frame 1 [("time_occ", [Str ".530"])]) = [Some (Num.Finite (Qmake 1 2))]
  /\ forall z : Z, Num.real_eqb (Num.Finite (Qmake 1 2)) (Num.of_Z z) = false.
Proof.
  split; [reflexivity |].
  intros z. apply not_true_is_false. intros H.
  apply Qeq_bool_iff in H. unfold Qeq in H. simpl in H. lia.
Qed.

Lemma all_digits_uint (d : Decimal.uint) : all_digits (NilEmpty.string_of_uint d) = true.
Proof. induction d; simpl; [reflexivity | exact IHd ..]. Qed.

Lemma str_of_Z_digits (n : Z) :
  0 <= n -> all_digits (Text.str_of_Z n) = true /\ Text.str_of_Z n <> "".
Proof.
  intros Hn. unfold Text.str_of_Z. destruct n as [|p|p]; [split; [reflexivity | discriminate] | | lia].
  simpl. unfold NilZero.string_of_uint.
  destruct (Pos.to_uint p) eqn:E; simpl; try (split; [| discriminate]);
    try reflexivity; try (rewrite <- E || idtac); try apply (all_digits_uint u).
Qed.

Lemma str_of_Z_one_digit (n : Z) :
  0 <= n <= 9 -> exists c : ascii, Text.str_of_Z n = String c "" /\ is_digit c = true.
Proof.
  intros Hn.
  assert (H : In (Z.to_nat n) (seq 0 10)) by (apply in_seq; lia).
  simpl in H.
  repeat (destruct H as [H|H];
          [apply (f_equal Z.of_nat) in H; rewrite Z2Nat.id in H by lia; subst n;
           eexists; split; reflexivity |]).
  contradiction.
Qed.

Lemma format_1f_one_decimal (round_tenths : Q -> Z) (q : Q) :
  one_decimal (format_1f round_tenths (Some (Num.Finite q))).
Proof.
  unfold format_1f, one_decimal.
  set (t := round_tenths q).
  destruct (str_of_Z_one_digit (Z.abs t mod 10)) as (c & Hc & Hd).
  { pose proof (Z.mod_pos_bound (Z.abs t) 10). lia. }
  destruct (str_of_Z_digits (Z.abs t / 10)) as [Hw Hne].
  { apply Z.div_pos; lia. }
  exists (if t <? 0 then "-" else ""), (Text.str_of_Z (Z.abs t / 10)), c.
  rewrite Hc. repeat split; auto.
  destruct (t <? 0); auto.
Qed.

Lemma plausible_finite (a : Num.real) :
  plausible a = true -> exists q : Q, a = Num.Finite q.
Proof.
  destruct a as [q|[|]]; [now exists q | discriminate | discriminate].
Qed.

Lemma plausible_in_range (a : Num.real) :
  plausible a = true -> out_of_range a = false.
Proof.
  intros H. destruct (plausible_finite a H) as [q ->].
  unfold plausible, Num.real_ltb in H. unfold out_of_range.
  apply andb_true_iff in H. destruct H as [H1 H2].
  apply andb_true_iff in H1, H2. destruct H1 as [L1 N1], H2 as [L2 N2].
  simpl in *. apply negb_true_iff in N1, N2.
  apply orb_false_iff. split; apply not_true_is_false; intros H;
    apply Qle_bool_iff in H.
  - apply Qle_bool_iff in L1. apply not_true_iff_false in N1. apply N1.
    apply Qeq_bool_iff. now apply Qle_antisym.
  - apply Qle_bool_iff in L2. apply not_true_iff_false in N2. apply N2.
    apply Qeq_bool_iff. now apply Qle_antisym.
Qed.

Lemma valid_ages_plausible (col : list cell) (a : Num.real) :
  In a (valid_ages col) -> plausible a = true.
Proof. unfold valid_ages. intros H. apply filter_In in H. apply H. Qed.

Lemma valid_ages_app (l1 l2 : list cell) :
  valid_ages (l1 ++ l2) = valid_ages l1 ++ valid_ages l2.
Proof. unfold valid_ages. now rewrite omap_app, List.filter_app. Qed.

Lemma valid_ages_skip (c : cell) (before after : list cell) :
  (forall a, to_numeric c = Some a -> out_of_range a = true) ->
  valid_ages (before ++ c :: after) = valid_ages (before ++ after).
Proof.
  intros H. rewrite !valid_ages_app. f_equal.
  change (c :: after) with ([c] ++ after). rewrite valid_ages_app.
  unfold valid_ages at 1. simpl.
  destruct (to_numeric c) as [a|] eqn:E; simpl; [| reflexivity].
  destruct (plausible a) eqn:P; [| reflexivity].
  apply plausible_in_range in P. rewrite (H a eq_refl) in P. discriminate.
Qed.

Lemma ages_eq_valid_ages (col : list cell) : ages col = valid_ages col.
Proof. reflexivity. Qed.

Lemma real_mean_finite (s : list Num.real) :
  s <> [] -> (forall a, In a s -> exists q, a = Num.Finite q) ->
  exists q : Q, real_mean s = Some (Num.Finite q).
Proof.
  intros Hne Hfin. unfold real_mean.
  assert (Hno : forall neg,
             existsb (fun r => match r with Num.Infinite b => Bool.eqb b neg | _ => false end) s
             = false).
  { intros neg. apply not_true_is_false. intros H. apply existsb_exists in H.
    destruct H as (r & Hin & Hr). destruct (Hfin r Hin) as [q ->]. discriminate. }
  destruct s as [|a s]; [contradiction |].
  rewrite !Hno. simpl andb. cbv iota.
  destruct (Hfin a (or_introl eq_refl)) as [q ->].
  simpl omap. unfold mean. eexists. reflexivity.
Qed.

(** C5.  Every age kept for the mean and every age handed to the histogram
    is strictly between 0 and 120; a row whose age is at most 0 or at least
    120 (150, say) can be deleted from the column without changing either;
    the histogram is drawn from exactly those ages; and the mean, when there
    is one, is printed with exactly one decimal place. *)
Theorem C5_victim_age_range_and_format (round_tenths : Q -> Z) (df : DataFrame)
    (col : list cell) (w : world) :
  df_columns df !! "vict_age" = Some col ->
  (forall a : Num.real,
      In a (valid_ages col) \/ In a (ages col) -> plausible a = true /\ out_of_range a = false)
  /\ (forall (c : cell) (before after : list cell),
         col = before ++ c :: after ->
         (forall a, to_numeric c = Some a -> out_of_range a = true) ->
         valid_ages col = valid_ages (before ++ after)
         /\ ages col = ages (before ++ after))
  /\ (forall before after : list cell,
         col = before ++ Int 150 :: after ->
         valid_ages col = valid_ages (before ++ after)
         /\ ages col = ages (before ++ after))
  /\ plot_victim_age df w
     = ({| stdout := stdout w;
           figures := figures w ++ [("victim_age.png", AgeHist (ages col) 20)] |}, inr tt)
  /\ (valid_ages col <> [] ->
      exists text : string,
        text = format_1f round_tenths (real_mean (valid_ages col))
        /\ one_decimal text
        /\ kpi_victim_age round_tenths df w
           = ({| stdout := stdout w +:+ ("Average victim age:           " +:+ text) +:+ nl;
                 figures := figures w |}, inr tt))
  /\ (valid_ages col = [] -> kpi_victim_age round_tenths df w = (w, inr tt)).
Proof.
  intros Hcol.
  assert (Hskip : forall (c : cell) (before after : list cell),
             col = before ++ c :: after ->
             (forall a, to_numeric c = Some a -> out_of_range a = true) ->
             valid_ages col = valid_ages (before ++ after)
             /\ ages col = ages (before ++ after)).
  { intros c before after -> H. change ages with valid_ages.
    split; now apply valid_ages_skip. }
  split; [| split; [exact Hskip | split; [| split; [| split]]]].
  - intros a H. change ages with valid_ages in H.
    assert (P : plausible a = true) by (apply (valid_ages_plausible col); tauto).
    split; [exact P | now apply plausible_in_range].
  - intros before after E. apply (Hskip (Int 150) before after E).
    intros a Ha. injection Ha as <-. reflexivity.
  - unfold plot_victim_age. rewrite Hcol. reflexivity.
  - intros Hne.
    destruct (real_mean_finite (valid_ages col) Hne) as [q Hq].
    { intros a Ha. apply plausible_finite. now apply valid_ages_plausible with col. }
    exists (format_1f round_tenths (real_mean (valid_ages col))).
    split; [reflexivity | split].
    + rewrite Hq. apply format_1f_one_decimal.
    + unfold kpi_victim_age. rewrite Hcol.
      destruct (valid_ages col) as [|a l] eqn:E; [contradiction |].
      reflexivity.
  - intros E. unfold kpi_victim_age. rewrite Hcol, E. reflexivity.
Qed.

(** C5, at the ages 30, 150, "45" and 0: the mean printed is 37.5. *)
Lemma C5_witness :
  valid_ages [Int 30; Int 150; Str "45"; Int 0] = valid_ages ([Int 30] ++ [Str "45"; Int 0])
  /\ kpi_victim_age Examples.nearest_tenth Examples.ages_table start
     = ({| stdout := "Average victim age:           37.5" +:+ nl; figures := [] |}, inr tt).
Proof.
  destruct (C5_victim_age_range_and_format Examples.nearest_tenth Examples.ages_table
              [Int 30; Int 150; Str "45"; Int 0] start eq_refl)
    as (_ & _ & H150 & _ & Hprint & _).
  split.
  - apply (H150 [Int 30] [Str "45"; Int 0] eq_refl).
  - destruct Hprint as (text & Htext & _ & Hrun); [discriminate |].
    rewrite Hrun, Htext. reflexivity.
Defined.

(** *** Counting and ranking *)

Lemma cell_eqb_eq (a b : cell) : cell_eqb a b = true <-> a = b.
Proof. unfold cell_eqb. apply bool_decide_eq_true. Qed.

Lemma cell_eqb_refl (a : cell) : cell_eqb a a = true.
Proof. now apply cell_eqb_eq. Qed.

Lemma cell_eqb_sym (a b : cell) : cell_eqb a b = cell_eqb b a.
Proof. apply eq_true_iff_eq. rewrite !cell_eqb_eq. split; congruence. Qed.

Lemma cell_eqb_trans (a b c : cell) :
  cell_eqb a b = true -> cell_eqb b c = true -> cell_eqb a c = true.
Proof. rewrite !cell_eqb_eq. congruence. Qed.

Lemma In_unique_cell (k : cell) (l : list cell) : In k (unique cell_eqb l) <-> In k l.
Proof.
  split; [apply In_unique |]. intros H.
  pose proof (mem_unique cell_eqb cell_eqb_refl cell_eqb_sym cell_eqb_trans k l H) as M.
  apply mem_In in M. destruct M as (k' & Hin & E). apply cell_eqb_eq in E. now subst.
Qed.

Lemma sort_head {A} `{EqDecision A} (leb : A -> A -> bool) (l : list A) (e : A) :
  In e l ->
  (forall x, In x l -> leb e x = true) ->
  (forall x, In x l -> x <> e -> leb x e = false) ->
  hd_error (sort leb l) = Some e.
Proof.
  induction l as [|x l IH]; intros Hin Hge Hlt; [contradiction |].
  simpl. destruct (decide (x = e)) as [->|Hne].
  - destruct (sort leb l) as [|y rest] eqn:E; [reflexivity |]. simpl.
    assert (Hy : In y l) by (apply (In_sort leb); rewrite E; now left).
    rewrite (Hge y (or_intror Hy)). reflexivity.
  - assert (He : In e l) by (destruct Hin; [contradiction | assumption]).
    rewrite <- (In_sort leb) in He.
    assert (IH' : hd_error (sort leb l) = Some e).
    { apply IH; [now apply (In_sort leb) | | ]; intros; [apply Hge | apply Hlt]; simpl; auto. }
    destruct (sort leb l) as [|y rest]; [discriminate |].
    injection IH' as ->. simpl.
    rewrite (Hlt x (or_introl eq_refl) Hne). reflexivity.
Qed.

Lemma count_app {K} (eqb : K -> K -> bool) (k : K) (l1 l2 : list K) :
  count eqb k (l1 ++ l2) = (count eqb k l1 + count eqb k l2)%nat.
Proof. unfold count. now rewrite List.filter_app, length_app. Qed.

Lemma count_cons {K} (eqb : K -> K -> bool) (k x : K) (l : list K) :
  count eqb k (x :: l) = ((if eqb k x then 1 else 0) + count eqb k l)%nat.
Proof. unfold count. simpl. now destruct (eqb k x). Qed.

Lemma count_pos_In (k : cell) (l : list cell) : (0 < count cell_eqb k l)%nat <-> In k l.
Proof.
  induction l as [|x l IH].
  - unfold count. simpl. lia.
  - rewrite count_cons. destruct (cell_eqb k x) eqn:E.
    + apply cell_eqb_eq in E. subst. split; [intros _; left; reflexivity | lia].
    + assert (x <> k) by (intros ->; rewrite cell_eqb_refl in E; discriminate).
      split.
      * intros H0. right. apply IH. lia.
      * intros [?|H0]; [contradiction | apply IH in H0; lia].
Qed.

Lemma dropna_notna (l : list cell) : (forall c, In c l -> c <> NaN) -> dropna l = l.
Proof.
  intros H. unfold dropna. induction l as [|x l IH]; simpl; [reflexivity |].
  destruct x; simpl; [exfalso; apply (H NaN); [left |]; reflexivity | |];
    (rewrite IH; [reflexivity | intros c Hc; apply H; now right]).
Qed.

Lemma fillna_notna (v : cell) (l : list cell) (c : cell) :
  v <> NaN -> In c (fillna v l) -> c <> NaN.
Proof.
  intros Hv H. apply in_map_iff in H. destruct H as (x & <- & _).
  destruct x; simpl; [exact Hv | discriminate | discriminate].
Qed.

Lemma fillna_idem (v : cell) (l : list cell) :
  v <> NaN -> fillna v (fillna v l) = fillna v l.
Proof.
  intros Hv. unfold fillna. rewrite map_map. apply map_ext. intros x.
  destruct x; simpl; [| reflexivity | reflexivity].
  destruct v; [contradiction | reflexivity | reflexivity].
Qed.

Lemma count_fillna (v k : cell) (l : list cell) :
  v <> NaN ->
  count cell_eqb k (fillna v l)
  = if decide (k = v) then (count cell_eqb NaN l + count cell_eqb v l)%nat
    else if decide (k = NaN) then 0%nat
    else count cell_eqb k l.
Proof.
  intros Hv. induction l as [|x l IH]; simpl.
  - unfold count. simpl. repeat case_decide; reflexivity.
  - rewrite !count_cons, IH. clear IH.
    unfold cell_eqb.
    destruct x; simpl; repeat case_decide; repeat case_bool_decide; subst;
      try congruence; try lia.
Qed.

Lemma firstn_1_hd {A} (l : list A) (e : A) : hd_error l = Some e -> firstn 1 l = [e].
Proof. destruct l as [|x l]; [discriminate |]. intros [= ->]. reflexivity. Qed.

Lemma ranked_head {A} `{EqDecision A} (l : list (A * nat)) (e : A * nat) :
  In e l ->
  (forall x, In x l -> x <> e -> (snd x < snd e)%nat) ->
  hd_error (sort by_count_desc l) = Some e.
Proof.
  intros Hin Hlt. apply sort_head; [exact Hin | |].
  - intros x Hx. unfold by_count_desc. apply Nat.leb_le.
    destruct (decide (x = e)) as [->|Hne]; [lia |]. specialize (Hlt x Hx Hne). lia.
  - intros x Hx Hne. unfold by_count_desc. apply Nat.leb_gt. now apply Hlt.
Qed.

Lemma nlargest_1_top {A} `{EqDecision A} (l : list (A * nat)) (e : A * nat) :
  In e l ->
  (forall x, In x l -> x <> e -> (snd x < snd e)%nat) ->
  nlargest 1 l = [e].
Proof.
  intros Hin Hlt. unfold nlargest. apply firstn_1_hd. now apply ranked_head.
Qed.

Lemma value_counts_In (s : list cell) (x : cell * nat) :
  In x (value_counts s)
  <-> In (fst x) (dropna s) /\ snd x = count cell_eqb (fst x) (dropna s).
Proof.
  unfold value_counts. rewrite In_sort, in_map_iff. split.
  - intros (k & <- & Hk). simpl. split; [now apply In_unique_cell | reflexivity].
  - intros [Hk Hn]. exists (fst x). split; [| now apply In_unique_cell].
    destruct x; simpl in *. now subst.
Qed.

Lemma value_counts_top (s : list cell) (k : cell) :
  In k (dropna s) ->
  (forall k', In k' (dropna s) -> k' <> k ->
              (count cell_eqb k' (dropna s) < count cell_eqb k (dropna s))%nat) ->
  nlargest 1 (value_counts s) = [(k, count cell_eqb k (dropna s))].
Proof.
  intros Hk Hlt. apply nlargest_1_top.
  - apply value_counts_In. simpl. auto.
  - intros [k' n'] Hx Hne. apply value_counts_In in Hx. simpl in *.
    destruct Hx as [Hk' ->]. apply Hlt; [exact Hk' |]. intros ->. now apply Hne.
Qed.

Lemma max_descent_unknown (col : list cell) :
  (forall k : cell, k <> NaN -> (count cell_eqb k col < count cell_eqb NaN col)%nat) ->
  max_descent col = [(Str "X", (count cell_eqb NaN col + count cell_eqb (Str "X") col)%nat)].
Proof.
  intros H. unfold max_descent.
  assert (HX : Str "X" <> NaN) by discriminate.
  assert (Hd : dropna (fillna (Str "X") col) = fillna (Str "X") col).
  { apply dropna_notna. intros c. now apply fillna_notna. }
  assert (Hc : count cell_eqb (Str "X") (fillna (Str "X") col)
               = (count cell_eqb NaN col + count cell_eqb (Str "X") col)%nat).
  { rewrite count_fillna by exact HX. now rewrite decide_True. }
  rewrite <- Hc.
  pose proof (value_counts_top (fillna (Str "X") col) (Str "X")) as T.
  rewrite Hd in T. apply T.
  - apply count_pos_In. rewrite Hc. specialize (H (Str "X") HX). lia.
  - intros k' Hk' Hne. rewrite Hc.
    rewrite count_fillna by exact HX. rewrite decide_False by exact Hne.
    case_decide as Hn; [specialize (H (Str "X") HX); lia |].
    specialize (H k' Hn). lia.
Qed.

Lemma max_descent_short (col : list cell) : (length (max_descent col) <= 1)%nat.
Proof. unfold max_descent, nlargest. apply firstn_le_length. Qed.

Lemma print_descent_one (code : cell) (n : nat) (w : world) :
  print_descent [(code, n)] w
  = match descent_label code with
    | inl e => (w, inl e)
    | inr label =>
        ({| stdout := stdout w +:+ ("      " +:+ label +:+ ": " +:+ str_of_nat n) +:+ nl;
            figures := figures w |}, inr tt)
    end.
Proof.
  simpl. unfold mbind, M_bind, lift. destruct (descent_label code); reflexivity.
Qed.

Lemma descent_label_error (code : cell) (e : exn) :
  descent_label code = inl e -> e = KeyError [code].
Proof.
  unfold descent_label.
  destruct code as [|z|s]; [intros [= <-]; reflexivity | intros [= <-]; reflexivity |].
  destruct (descent_map !! s); [discriminate | intros [= <-]; reflexivity].
Qed.

Lemma In_take {A} (n : nat) (l : list A) (x : A) : In x (firstn n l) -> In x l.
Proof.
  revert l. induction n as [|n IH]; intros [|y l]; simpl; try tauto.
  intros [H|H]; [now left | right; now apply IH].
Qed.

(** C6 (amended).  The chart block never fails: a code that is not a key of
    [descent_map] is translated to a missing label and every bar carries a
    label of the map.  The KPI block looks up only the most frequent code:
    it ends the run with [KeyError] exactly when that code is not a key,
    after the heading has been printed, and prints the label otherwise. *)
Theorem C6_unmapped_descent_code (df : DataFrame) (col : list cell) (w : world) :
  df_columns df !! "vict_descent" = Some col ->
  let header := {| stdout := stdout w +:+ "Top victim descent code:" +:+ nl;
                   figures := figures w |} in
  plot_victim_descent df w
  = ({| stdout := stdout w;
        figures := figures w ++ [("victim_descent.png", DescentBars (descent_bars col))] |},
     inr tt)
  /\ (forall s : string, descent_map !! s = None -> map_descent (Str s) = NaN)
  /\ (forall bar, In bar (descent_bars col) ->
        exists s label, descent_map !! s = Some label /\ fst bar = Str label)
  /\ match max_descent col with
     | [] => kpi_victim_descent df w = (header, inr tt)
     | (code, n) :: _ =>
         match descent_label code with
         | inl _ => kpi_victim_descent df w = (header, inl (KeyError [code]))
         | inr label =>
             kpi_victim_descent df w
             = ({| stdout := stdout header +:+ ("      " +:+ label +:+ ": " +:+ str_of_nat n)
                             +:+ nl;
                   figures := figures w |}, inr tt)
         end
     end.
Proof.
  intros Hcol header. split; [| split; [| split]].
  - unfold plot_victim_descent. rewrite Hcol. reflexivity.
  - intros s Hs. unfold map_descent. now rewrite Hs.
  - intros bar Hbar. unfold descent_bars, nlargest in Hbar.
    apply In_take in Hbar. apply In_sort in Hbar. apply value_counts_In in Hbar.
    destruct Hbar as [Hin _]. unfold dropna in Hin. apply filter_In in Hin.
    destruct Hin as [Hin Hna]. apply in_map_iff in Hin. destruct Hin as (c & Hc & _).
    unfold map_descent in Hc. destruct c as [| |s]; try (rewrite <- Hc in Hna; discriminate).
    destruct (descent_map !! s) as [label|] eqn:E; [| rewrite <- Hc in Hna; discriminate].
    exists s, label. split; [exact E | now symmetry].
  - pose proof (max_descent_short col) as Hlen.
    unfold kpi_victim_descent. rewrite Hcol.
    destruct (max_descent col) as [|[code n] rest]; [reflexivity |].
    destruct rest; [| simpl in Hlen; lia].
    assert (Hrun : (print ["Top victim descent code:"] ;; print_descent [(code, n)]) w
                   = print_descent [(code, n)] header) by reflexivity.
    rewrite Hrun, print_descent_one.
    destruct (descent_label code) as [e|label] eqn:E; [| reflexivity].
    now rewrite (descent_label_error code e E).
Qed.

(** C6 as stated fails on the codes B, B, Q: Q occurs and is not a key, yet
    both the KPI block and the chart block complete. *)
Lemma C6_counterexample :
  In (Str "Q") [Str "B"; Str "B"; Str "Q"]
  /\ descent_map !! "Q" = None
  /\ kpi_victim_descent Examples.unmapped_minor start
     = ({| stdout := ("" +:+ "Top victim descent code:" +:+ nl)
                     +:+ ("      Black: 2") +:+ nl;
           figures := [] |}, inr tt)
  /\ plot_victim_descent Examples.unmapped_minor start
     = ({| stdout := "";
           figures := [("victim_descent.png", DescentBars [(Str "Black", 2%nat)])] |}, inr tt).
Proof.
  split; [simpl; tauto | split; [reflexivity | split; reflexivity]].
Qed.

(** C6, at the codes Q, Q, B: the most frequent code is not a key. *)
Lemma C6_witness :
  kpi_victim_descent Examples.unmapped_top start
  = ({| stdout := "" +:+ "Top victim descent code:" +:+ nl; figures := [] |},
     inl (KeyError [Str "Q"])).
Proof.
  destruct (C6_unmapped_descent_code Examples.unmapped_top [Str "Q"; Str "Q"; Str "B"] start eq_refl)
    as (_ & _ & _ & H).
  exact H.
Defined.

(** *** The pivot table *)

Section PivotFacts.
Context {I C : Type} (eqI leI : I -> I -> bool) (eqC leC : C -> C -> bool).
Hypothesis eqI_refl : forall a, eqI a a = true.
Hypothesis eqI_sym : forall a b, eqI a b = eqI b a.
Hypothesis eqI_trans : forall a b c, eqI a b = true -> eqI b c = true -> eqI a c = true.
Hypothesis eqC_refl : forall a, eqC a a = true.
Hypothesis eqC_sym : forall a b, eqC a b = eqC b a.
Hypothesis eqC_trans : forall a b c, eqC a b = true -> eqC b c = true -> eqC a c = true.





Lemma filter_filter {A} (f g : A -> bool) (l : list A) :
  List.filter g (List.filter f l) = List.filter (fun x => (f x && g x)%bool) l.
Proof.
  induction l as [|x l IH]; simpl; [reflexivity |].
  destruct (f x); simpl; [destruct (g x); now rewrite IH | exact IH].
Qed.



Lemma pivot_table_index (index : list (option I)) (columns : list (option C))
    (values : list cell) (i : I) :
  In i (p_index (pivot_table eqI leI eqC leC index columns values (Some 0))) ->
  exists c v, In (i, c, v) (keyed_rows index columns values).
Proof.
  unfold pivot_table. cbn [p_index]. intros H.
  apply In_sort, In_unique, in_map_iff in H. destruct H as ([[i0 c] v] & <- & H).
  now exists c, v.
Qed.

Lemma pivot_table_columns (index : list (option I)) (columns : list (option C))
    (values : list cell) (c : C) :
  In c (p_columns (pivot_table eqI leI eqC leC index columns values (Some 0))) ->
  exists i v, In (i, c, v) (keyed_rows index columns values).
Proof.
  unfold pivot_table. cbn [p_columns]. intros H.
  apply In_sort, In_unique, in_map_iff in H. destruct H as ([[i c0] v] & <- & H).
  now exists i, v.
Qed.




Lemma getitem_columns_present (p q : Pivot I C) (labels : list C) (show : C -> cell) (l : C) :
  getitem_columns eqC p labels show = inr q -> In l labels ->
  mem eqC l (p_columns p) = true.
Proof.
  unfold getitem_columns. intros H Hl.
  destruct (List.filter _ labels) as [|x rest] eqn:E; [| discriminate].
  destruct (mem eqC l (p_columns p)) eqn:M; [reflexivity |].
  assert (Hin : In l (List.filter (fun l => negb (mem eqC l (p_columns p))) labels)).
  { apply filter_In. split; [exact Hl | now rewrite M]. }
  rewrite E in Hin. contradiction.
Qed.


End PivotFacts.

Lemma string_eqb_trans (a b c : string) :
  String.eqb a b = true -> String.eqb b c = true -> String.eqb a c = true.
Proof. rewrite !String.eqb_eq. congruence. Qed.


Lemma keyed_rows_df2 (years months : list (option Z)) (dr_no : list cell) :
  let rows := df2 years months dr_no in
  keyed_rows (map (fun r => fst (fst r)) rows) (map (fun r => snd (fst r)) rows) (map snd rows)
  = keyed_rows years months dr_no.
Proof.
  unfold df2. revert months dr_no.
  induction years as [|y years IH]; intros [|m months] [|v dr_no]; simpl; try reflexivity.
  destruct y as [y|], m as [m|]; simpl; try apply IH.
  f_equal. apply IH.
Qed.



(** C4, at the code 2300 and at a table without the time column. *)
Lemma C4_witness :
  hour full_week !! 0%nat = Some (Some (Num.of_Z (2300 / 100)))
  /\ hour no_time = repeat None 2.
Proof.
  destruct (C4_hour_from_time_code full_week) as [Hpresent _].
  destruct (C4_hour_from_time_code no_time) as [_ Habsent].
  split.
  - destruct (Hpresent [Int 2300; Int 5; Int 930; Str "9999"; Int 1200; Int 1; Int 2359]
                eq_refl) as [_ Hrow].
    destruct (Hrow 0%nat (Int 2300) eq_refl) as (_ & _ & Hint).
    apply (Hint 2300 eq_refl). lia.
  - apply Habsent. reflexivity.
Defined.


(** C1 (the code departs from the claim).  A table that has neither
    [date_occ] nor [date_rptd] is not handled by skipping: line 42 reads
    the date column unconditionally, the lookup raises [KeyError], and the
    run ends there with nothing printed and no figure saved. *)
Theorem C1_missing_date_column_is_fatal
    (to_datetime : list cell -> list (option Timestamp)) (round_tenths : Q -> Z)
    (choice : Z -> nat -> nat -> list nat) (entropy : Z) (df : DataFrame) :
  df_columns df !! "date_occ" = None ->
  df_columns df !! "date_rptd" = None ->
  run to_datetime round_tenths choice entropy df start
  = (start, inl (KeyError [Str "date_occ"])).
Proof.
  intros Hocc Hrptd. unfold run, date_occ. rewrite Hocc, Hrptd. reflexivity.
Qed.

(** The heatmap blocks read [dr_no] without a guard as well. *)
Lemma heatmap_without_dr_no (df : DataFrame) (dates : list (option Timestamp)) (w : world) :
  df_columns df !! "dr_no" = None ->
  plot_hour_weekday_heatmap df dates w = (w, inl (KeyError [Str "dr_no"])).
Proof.
  intros H. unfold plot_hour_weekday_heatmap. rewrite H. reflexivity.
Qed.

(** C7 (the code departs from the claim).  The sample size is computed
    from the length of the whole table, not from the number of geocoded
    rows: whenever fewer rows are geocoded than [min(100000, len(df))],
    the sampling step raises [ValueError] and the scatter plot is not
    drawn. *)
Theorem C7_sample_size_counts_all_rows (choice : Z -> nat -> nat -> list nat)
    (entropy : Z) (df : DataFrame) (lat lon : list cell) (w : world) :
  df_columns df !! "lat" = Some lat ->
  df_columns df !! "lon" = Some lon ->
  Z.of_nat (length (geocoded lat lon)) < Z.min 100000 (Z.of_nat (df_len df)) ->
  plot_lat_lon choice entropy df w
  = (w, inl (ValueError "Cannot take a larger sample than population when 'replace=False'")).
Proof.
  intros Hlat Hlon Hlt. unfold plot_lat_lon, sub, sample. rewrite Hlat, Hlon.
  apply Z.ltb_lt in Hlt.
  unfold mbind, M_bind, lift. rewrite Hlt. reflexivity.
Qed.

(** C8.  The console text and the figures do not depend on what an
    unseeded generator would draw: two runs on the same table that differ
    only in that ambient randomness end in the same state, and the rows
    sampled for the scatter plot are the same, because the sample is
    drawn with the fixed seed 1. *)
Theorem C8_rerun_is_identical
    (to_datetime : list cell -> list (option Timestamp)) (round_tenths : Q -> Z)
    (choice : Z -> nat -> nat -> list nat)
    (e1 e2 : Z) (df : DataFrame) (w : world) (lat lon : list cell) :
  run to_datetime round_tenths choice e1 df w
  = run to_datetime round_tenths choice e2 df w
  /\ sub choice e1 df lat lon = sub choice e2 df lat lon
  /\ sub choice e1 df lat lon
     = sample choice e2 (geocoded lat lon) (Z.min 100000 (Z.of_nat (df_len df))) (Some 1).
Proof.
  split; [reflexivity | split; reflexivity].
Qed.


(** C1, at a table with the columns [dr_no] and [time_occ] only. *)
Lemma C1_witness :
  run Examples.iso_dates Examples.nearest_tenth Examples.first_positions 0
      Examples.no_dates start
  = (start, inl (KeyError [Str "date_occ"])).
Proof.
  apply C1_missing_date_column_is_fatal; reflexivity.
Defined.

(** C7, at two rows of which one has no latitude. *)
Lemma C7_witness :
  plot_lat_lon Examples.first_positions 0 Examples.half_geocoded start
  = (start, inl (ValueError "Cannot take a larger sample than population when 'replace=False'")).
Proof.
  apply (C7_sample_size_counts_all_rows Examples.first_positions 0 Examples.half_geocoded
           [Str "34.05"; NaN] [Str "-118.25"; Str "-118.30"] start);
    [reflexivity | reflexivity | vm_compute; reflexivity].
Defined.

(** *** Counting over distinct values, and sorting *)

Section CountingFacts.
Context {K : Type} (eqb : K -> K -> bool).
Hypothesis eqb_refl : forall a, eqb a a = true.
Hypothesis eqb_sym : forall a b, eqb a b = eqb b a.
Hypothesis eqb_trans : forall a b c, eqb a b = true -> eqb b c = true -> eqb a c = true.

Lemma list_sum_indicator {A} (p : A -> bool) (l : list A) :
  list_sum (map (fun k => if p k then 1%nat else 0%nat) l) = length (List.filter p l).
Proof.
  induction l as [|x l IH]; simpl; [reflexivity |].
  destruct (p x); simpl; now rewrite IH.
Qed.

Lemma list_sum_map_add {A} (f g : A -> nat) (l : list A) :
  list_sum (map (fun k => (f k + g k)%nat) l)
  = (list_sum (map f l) + list_sum (map g l))%nat.
Proof. induction l as [|x l IH]; simpl; [reflexivity | rewrite IH; lia]. Qed.

Lemma filter_none {A} (p : A -> bool) (l : list A) :
  (forall k, In k l -> p k = false) -> List.filter p l = [].
Proof.
  induction l as [|x l IH]; intros H; simpl; [reflexivity |].
  rewrite (H x (or_introl eq_refl)). apply IH. intros; apply H; now right.
Qed.

(** Double counting: summing, over the keys, the members a key matches is
    summing, over the members, the keys that match it. *)
Lemma count_double (keys l : list K) :
  list_sum (map (fun k => count eqb k l) keys)
  = list_sum (map (fun y => length (List.filter (fun k => eqb k y) keys)) l).
Proof.
  induction l as [|y l IH]; simpl.
  - unfold count. simpl. induction keys; simpl; auto.
  - rewrite <- IH, <- list_sum_indicator, <- list_sum_map_add.
    f_equal. apply map_ext. intros k. apply count_cons.
Qed.

(** A member has exactly one representative among the distinct values. *)
Lemma one_representative (y : K) (l : list K) :
  length (List.filter (fun k => eqb k y) (unique eqb l))
  = if mem eqb y l then 1%nat else 0%nat.
Proof.
  induction l as [|x l IH]; [reflexivity |].
  simpl. rewrite (eqb_sym y x). destruct (eqb x y) eqn:Exy; simpl.
  - rewrite filter_none; [reflexivity |].
    intros k Hk. apply filter_In in Hk. destruct Hk as [_ Hk].
    apply negb_true_iff in Hk. apply not_true_iff_false. intros Eky.
    rewrite eqb_sym in Eky.
    rewrite (eqb_trans x y k Exy Eky) in Hk. discriminate.
  - rewrite <- IH. f_equal.
    rewrite filter_filter. apply filter_ext_in. intros k _.
    destruct (eqb k y) eqn:Eky; [| now rewrite andb_false_r].
    rewrite andb_true_r. apply negb_true_iff. apply not_true_iff_false. intros Exk.
    rewrite (eqb_trans x k y Exk Eky) in Exy. discriminate.
Qed.

Lemma count_unique_sum (l : list K) :
  list_sum (map (fun k => count eqb k l) (unique eqb l)) = length l.
Proof.
  rewrite count_double.
  rewrite (map_ext_in _ (fun _ => 1%nat)).
  - induction l; simpl; auto.
  - intros y Hy. rewrite one_representative.
    replace (mem eqb y l) with true; [reflexivity |].
    symmetry. apply mem_In. exists y. auto.
Qed.

End CountingFacts.

Section SortFacts.
Context {K : Type} (leb : K -> K -> bool).
Hypothesis leb_total : forall a b, leb a b = false -> leb b a = true.
Hypothesis leb_trans : forall a b c, leb a b = true -> leb b c = true -> leb a c = true.

Lemma insert_sorted_perm (x : K) (l : list K) : Permutation (insert_sorted leb x l) (x :: l).
Proof.
  induction l as [|y l IH]; simpl; [reflexivity |].
  destruct (leb x y); [reflexivity |].
  rewrite IH. apply perm_swap.
Qed.

Lemma sort_perm (l : list K) : Permutation (sort leb l) l.
Proof.
  induction l as [|x l IH]; simpl; [reflexivity |].
  rewrite insert_sorted_perm. now constructor.
Qed.

Lemma sort_length (l : list K) : length (sort leb l) = length l.
Proof. apply Permutation_length, sort_perm. Qed.

Lemma insert_sorted_sorted (x : K) (l : list K) :
  Sorted (fun a b => leb a b = true) l ->
  Sorted (fun a b => leb a b = true) (insert_sorted leb x l).
Proof.
  induction l as [|y l IH]; intros Hs; simpl.
  - repeat constructor.
  - destruct (leb x y) eqn:E.
    + constructor; [exact Hs | constructor; exact E].
    + inversion Hs as [|? ? Hs' Hhd]; subst.
      constructor; [now apply IH |].
      destruct l as [|z l]; simpl.
      * constructor. now apply leb_total.
      * destruct (leb x z); constructor; [now apply leb_total |].
        now inversion Hhd.
Qed.

Lemma sort_sorted (l : list K) : StronglySorted (fun a b => leb a b = true) (sort leb l).
Proof.
  apply Sorted_StronglySorted.
  - intros a b c. apply leb_trans.
  - induction l as [|x l IH]; simpl; [constructor | now apply insert_sorted_sorted].
Qed.

(** Sorting a sorted list changes nothing. *)
Lemma insert_sorted_head (x : K) (l : list K) :
  Forall (fun y => leb x y = true) l -> insert_sorted leb x l = x :: l.
Proof.
  destruct l as [|y l]; [reflexivity |]. intros H. simpl.
  inversion H; subst. now rewrite H2.
Qed.

Lemma sort_sorted_id (l : list K) :
  StronglySorted (fun a b => leb a b = true) l -> sort leb l = l.
Proof.
  induction 1 as [|x l Hs IH Hx]; simpl; [reflexivity |].
  rewrite IH. now apply insert_sorted_head.
Qed.

Lemma sort_idem (l : list K) : sort leb (sort leb l) = sort leb l.
Proof. apply sort_sorted_id, sort_sorted. Qed.

End SortFacts.

Lemma by_count_desc_total {A} (a b : A * nat) :
  by_count_desc a b = false -> by_count_desc b a = true.
Proof. unfold by_count_desc. rewrite Nat.leb_gt, Nat.leb_le. lia. Qed.

Lemma by_count_desc_trans {A} (a b c : A * nat) :
  by_count_desc a b = true -> by_count_desc b c = true -> by_count_desc a c = true.
Proof. unfold by_count_desc. rewrite !Nat.leb_le. lia. Qed.

(** *** The ranking returned by value_counts *)

Lemma count_dropna (k : cell) (s : list cell) :
  k <> NaN -> count cell_eqb k (dropna s) = count cell_eqb k s.
Proof.
  intros Hk. unfold count, dropna. rewrite filter_filter. f_equal. apply filter_ext.
  intros x. destruct (cell_eqb k x) eqn:E; [| now rewrite andb_false_r].
  apply cell_eqb_eq in E. subst x. destruct k; [contradiction | reflexivity | reflexivity].
Qed.

Lemma In_dropna (k : cell) (s : list cell) : In k (dropna s) <-> In k s /\ k <> NaN.
Proof.
  unfold dropna. rewrite filter_In. split; intros [H1 H2]; split; auto.
  - intros ->. discriminate.
  - destruct k; [contradiction | reflexivity | reflexivity].
Qed.

Lemma NoDup_unique_cell (l : list cell) : List.NoDup (unique cell_eqb l).
Proof.
  induction l as [|x l IH]; simpl; constructor.
  - intros H. apply filter_In in H. destruct H as [_ H].
    rewrite cell_eqb_refl in H. discriminate.
  - now apply List.NoDup_filter.
Qed.

Lemma value_counts_keys (s : list cell) :
  Permutation (map fst (value_counts s)) (unique cell_eqb (dropna s)).
Proof.
  unfold value_counts. rewrite sort_perm, map_map. simpl. now rewrite map_id.
Qed.

Lemma value_counts_sum (s : list cell) :
  list_sum (map snd (value_counts s)) = length (dropna s).
Proof.
  unfold value_counts.
  rewrite (Permutation_map snd (sort_perm by_count_desc _)) at 1.
  - rewrite map_map. simpl.
    apply (count_unique_sum cell_eqb cell_eqb_refl cell_eqb_sym cell_eqb_trans).
Qed.

Lemma value_counts_sorted (s : list cell) :
  StronglySorted (fun a b => by_count_desc a b = true) (value_counts s).
Proof.
  unfold value_counts. apply sort_sorted;
    [apply by_count_desc_total | apply by_count_desc_trans].
Qed.

Lemma by_count_desc_le {A} (l : list (A * nat)) :
  StronglySorted (fun a b => by_count_desc a b = true) l ->
  StronglySorted (fun a b => (snd b <= snd a)%nat) l.
Proof.
  induction 1 as [|x l Hs IH Hx]; constructor; [exact IH |].
  eapply List.Forall_impl; [| exact Hx]. intros y Hy. now apply Nat.leb_le.
Qed.

Lemma nlargest_value_counts (n : nat) (s : list cell) :
  nlargest n (value_counts s) = firstn n (value_counts s).
Proof.
  unfold nlargest. f_equal. apply sort_sorted_id. apply value_counts_sorted.
Qed.

Lemma value_counts_entry (s : list cell) (k : cell) (n : nat) :
  In (k, n) (value_counts s) <-> k <> NaN /\ In k s /\ n = count cell_eqb k s.
Proof.
  rewrite value_counts_In. simpl. rewrite In_dropna. split.
  - intros [[Hin Hk] ->]. repeat split; auto. now apply count_dropna.
  - intros (Hk & Hin & ->). repeat split; auto. symmetry. now apply count_dropna.
Qed.

Lemma value_counts_NoDup (s : list cell) : List.NoDup (map fst (value_counts s)).
Proof.
  eapply Permutation_NoDup; [symmetry; apply value_counts_keys | apply NoDup_unique_cell].
Qed.

Lemma value_counts_length (s : list cell) : length (value_counts s) = nunique s.
Proof.
  unfold nunique. rewrite <- (length_map fst).
  apply Permutation_length, value_counts_keys.
Qed.

Lemma StronglySorted_app_le {A} (R : A -> A -> Prop) (l1 l2 : list A) :
  StronglySorted R (l1 ++ l2) -> forall a b, In a l1 -> In b l2 -> R a b.
Proof.
  induction l1 as [|x l1 IH]; intros Hs a b Ha Hb; [contradiction |].
  simpl in Hs. inversion Hs as [|? ? Hs' Hx]; subst.
  destruct Ha as [->|Ha]; [| now apply IH].
  rewrite List.Forall_forall in Hx. apply Hx. apply in_or_app. now right.
Qed.

Lemma StronglySorted_firstn {A} (R : A -> A -> Prop) (n : nat) (l : list A) :
  StronglySorted R l -> StronglySorted R (firstn n l).
Proof.
  revert n. induction l as [|x l IH]; intros n Hs; [now destruct n |].
  destruct n as [|n]; simpl; [constructor |].
  inversion Hs as [|? ? Hs' Hx]; subst. constructor; [now apply IH |].
  rewrite List.Forall_forall in *. intros y Hy. apply Hx. now apply In_take in Hy.
Qed.

Lemma NoDup_firstn {A} (n : nat) (l : list A) : List.NoDup l -> List.NoDup (firstn n l).
Proof.
  revert n. induction l as [|x l IH]; intros n Hn; [now destruct n |].
  destruct n as [|n]; simpl; [constructor |].
  inversion Hn; subst. constructor; [| now apply IH].
  intros H. apply In_take in H. contradiction.
Qed.

Lemma top_bars_spec (n : nat) (col : list cell) :
  top_bars n col (nlargest n (value_counts col)).
Proof.
  rewrite nlargest_value_counts. unfold top_bars.
  pose proof (value_counts_sorted col) as Hs. apply by_count_desc_le in Hs.
  split; [| split; [| split; [| split]]].
  - rewrite length_firstn, value_counts_length. reflexivity.
  - rewrite <- firstn_map. apply NoDup_firstn, value_counts_NoDup.
  - now apply StronglySorted_firstn.
  - intros k c H. apply In_take in H. apply value_counts_entry in H.
    destruct H as (Hk & Hin & ->). repeat split; auto. now apply count_pos_In.
  - intros k Hk Hin Hout b Hb.
    assert (Hall : In (k, count cell_eqb k col) (value_counts col))
      by (apply value_counts_entry; auto).
    rewrite <- (firstn_skipn n (value_counts col)) in Hall, Hs.
    apply in_app_or in Hall. destruct Hall as [Hin1|Hin2].
    + exfalso. apply Hout. apply (in_map fst) in Hin1. exact Hin1.
    + apply (StronglySorted_app_le _ _ _ Hs b _ Hb Hin2).
Qed.

(** *** The top-N bar charts and the pie chart *)

(** X14.  With an area column, the chart of lines 127-131 is saved with the
    ten most frequent areas, or all of them when there are fewer: missing
    cells left out, each area once with the number of rows that have it,
    the most frequent first, and no area that is left out occurs more often
    than one that is shown.  The chart of lines 135-140 is the same for the
    fifteen most frequent crime types. *)
Theorem top_charts_show_most_frequent (df : DataFrame) (w : world) :
  (forall col, df_columns df !! "area_name" = Some col ->
     exists bars, top_bars 10 col bars
       /\ plot_top_areas df w = (after_savefig "top_areas.png" (TopAreas bars) w, inr tt))
  /\ (forall col, df_columns df !! "crm_cd_desc" = Some col ->
     exists bars, top_bars 15 col bars
       /\ plot_top_crimes df w = (after_savefig "top_crimes.png" (TopCrimes bars) w, inr tt)).
Proof.
  split; intros col Hcol; eexists; (split; [apply top_bars_spec |]).
  - unfold plot_top_areas. now rewrite Hcol.
  - unfold plot_top_crimes. now rewrite Hcol.
Qed.

Lemma length_fillna (v : cell) (l : list cell) : length (fillna v l) = length l.
Proof. unfold fillna. apply length_map. Qed.

Lemma In_fillna (v k : cell) (l : list cell) :
  v <> NaN -> (In k (fillna v l) <-> (k <> NaN /\ In k l) \/ (k = v /\ In NaN l)).
Proof.
  intros Hv. unfold fillna. rewrite in_map_iff. split.
  - intros (x & Hx & Hin). destruct x; simpl in Hx; subst.
    + now right.
    + left. split; [discriminate | exact Hin].
    + left. split; [discriminate | exact Hin].
  - intros [[Hk Hin]|[-> Hin]].
    + exists k. split; [| exact Hin]. destruct k; [contradiction | reflexivity | reflexivity].
    + exists NaN. split; [reflexivity | exact Hin].
Qed.

(** X15.  With a victim-sex column, the pie chart (lines 156-172) is saved
    with one slice for each distinct value, a missing cell counted under
    Unknown together with the cells that already say so.  The slices add up
    to the number of rows, no label is repeated, and the colours are the
    first of the four listed ones: a fifth slice has no colour of its
    own. *)
Theorem victim_sex_pie_counts_every_row (df : DataFrame) (col : list cell) (w : world) :
  df_columns df !! "vict_sex" = Some col ->
  exists (sizes : list nat) (labels : list cell),
    plot_victim_sex df w
    = (after_savefig "victim_sex.png"
         (SexPie sizes labels (firstn (length labels) colors)) w, inr tt)
    /\ length sizes = length labels
    /\ list_sum sizes = length col
    /\ List.NoDup labels
    /\ ~ In NaN labels
    /\ (In (Str "Unknown") labels <-> In NaN col \/ In (Str "Unknown") col)
    /\ (forall k, k <> NaN -> In k col -> In k labels)
    /\ (length (firstn (length labels) colors) = Nat.min (length labels) 4)%nat.
Proof.
  intros Hcol.
  set (filled := fillna (Str "Unknown") col).
  assert (HU : Str "Unknown" <> NaN) by discriminate.
  assert (Hd : dropna filled = filled).
  { apply dropna_notna. intros c. now apply fillna_notna. }
  assert (Hlab : forall k, In k (map fst (value_counts filled)) <-> In k filled).
  { intros k. rewrite in_map_iff. split.
    - intros ([k' n] & <- & H). apply value_counts_entry in H. tauto.
    - intros H. exists (k, count cell_eqb k filled). split; [reflexivity |].
      apply value_counts_entry. repeat split; auto. now apply fillna_notna with (Str "Unknown") col. }
  exists (map snd (value_counts filled)), (map fst (value_counts filled)).
  split; [| split; [| split; [| split; [| split; [| split; [| split]]]]]].
  - unfold plot_victim_sex. now rewrite Hcol.
  - now rewrite !length_map.
  - rewrite value_counts_sum, Hd. apply length_fillna.
  - apply value_counts_NoDup.
  - rewrite Hlab. intros H. now apply fillna_notna in H.
  - rewrite Hlab. unfold filled. rewrite In_fillna by exact HU. split.
    + intros [[_ H]|[_ H]]; auto.
    + intros [H|H]; [right | left]; split; auto.
  - intros k Hk Hin. apply Hlab. unfold filled. apply In_fillna; auto.
  - rewrite length_firstn. reflexivity.
Qed.

(** *** The most frequent value *)

Lemma idxmax_from_max {A} (best : A * nat) (s : list (A * nat)) :
  exists n, In (idxmax_from best s, n) (best :: s)
            /\ forall x, In x (best :: s) -> (snd x <= n)%nat.
Proof.
  revert best. induction s as [|y s IH]; intros best.
  - exists (snd best). simpl. split; [left; now destruct best |].
    intros x [<-|[]]. lia.
  - simpl idxmax_from. destruct (snd best <? snd y)%nat eqn:E.
    + apply Nat.ltb_lt in E. destruct (IH y) as (n & Hin & Hmax).
      exists n. split; [right; exact Hin |].
      intros x [<-|Hx]; [| now apply Hmax].
      specialize (Hmax y (or_introl eq_refl)). lia.
    + apply Nat.ltb_ge in E. destruct (IH best) as (n & Hin & Hmax).
      exists n. split.
      * destruct Hin as [Hin|Hin]; [left; exact Hin | right; right; exact Hin].
      * intros x [<-|[<-|Hx]].
        -- apply Hmax. now left.
        -- specialize (Hmax best (or_introl eq_refl)). lia.
        -- apply Hmax. now right.
Qed.

Lemma max_count_max {A} (s : list (A * nat)) (m : nat) :
  max_count s = Some m ->
  (exists x, In x s /\ snd x = m) /\ forall x, In x s -> (snd x <= m)%nat.
Proof.
  destruct s as [|x s]; [discriminate |]. simpl. intros [= <-].
  revert x. induction s as [|y s IH]; intros x; simpl.
  - split; [exists x; auto |]. intros z [<-|[]]. lia.
  - destruct (IH (fst x, Nat.max (snd x) (snd y))) as [(z & Hz & Ez) Hmax]. simpl in *.
    split.
    + destruct Hz as [<-|Hz].
      * simpl in Ez. destruct (Nat.max_spec (snd x) (snd y)) as [[_ E]|[_ E]];
          rewrite E in *; [exists y | exists x]; (split; [simpl; tauto | exact Ez]).
      * exists z. auto.
    + intros z' [<-|[<-|Hz']].
      * specialize (Hmax _ (or_introl eq_refl)). simpl in Hmax. lia.
      * specialize (Hmax _ (or_introl eq_refl)). simpl in Hmax. lia.
      * apply Hmax. now right.
Qed.

Lemma idxmax_value_counts (col : list cell) :
  match idxmax (value_counts col) with
  | inl e => dropna col = []
             /\ e = ValueError "attempt to get argmax of an empty sequence"
  | inr top => most_frequent col top
               /\ max_count (value_counts col) = Some (count cell_eqb top col)
  end.
Proof.
  unfold idxmax. destruct (value_counts col) as [|x s] eqn:E.
  - split; [| reflexivity].
    pose proof (value_counts_sum col) as H. rewrite E in H. simpl in H.
    destruct (dropna col); [reflexivity | discriminate].
  - destruct (idxmax_from_max x s) as (n & Hin & Hmax).
    rewrite <- E in Hin, Hmax.
    apply value_counts_entry in Hin. destruct Hin as (Hk & Hin & ->).
    split.
    + repeat split; auto. intros k Hk'.
      destruct (count cell_eqb k col) eqn:Ec; [lia |]. rewrite <- Ec.
      assert (Hink : In k col) by (apply count_pos_In; lia).
      apply (Hmax (k, count cell_eqb k col)). apply value_counts_entry. auto.
    + destruct (max_count (x :: s)) as [m|] eqn:Em; [| discriminate].
      rewrite <- E in Em.
      destruct (max_count_max _ _ Em) as [(z & Hz & Ez) Hle].
      f_equal. specialize (Hmax z Hz). rewrite Ez in Hmax.
      assert (Htop : In (idxmax_from x s, count cell_eqb (idxmax_from x s) col)
                        (value_counts col)) by (apply value_counts_entry; auto).
      specialize (Hle _ Htop). simpl in Hle. lia.
Qed.

(** X5.  With a crime-type column, lines 54-57 first print the number of
    distinct crime types, missing cells left out.  When every cell is
    missing that number is 0 and [idxmax] then raises [ValueError], after
    the first line is on the console.  Otherwise the second line names a
    most frequent crime type: a value of the column that is not missing
    and that no other value outnumbers. *)
Theorem kpi_crime_types_reports_most_frequent (df : DataFrame) (col : list cell) (w : world) :
  df_columns df !! "crm_cd_desc" = Some col ->
  let w1 := after_print ["Unique crime types:          "; str_of_nat (nunique col)] w in
  (dropna col = [] ->
     nunique col = 0%nat
     /\ kpi_crime_types df w
        = (w1, inl (ValueError "attempt to get argmax of an empty sequence")))
  /\ (dropna col <> [] ->
      exists top_crime,
        most_frequent col top_crime
        /\ kpi_crime_types df w
           = (after_print ["Most common crime type:      "; str top_crime] w1, inr tt)).
Proof.
  intros Hcol w1. pose proof (idxmax_value_counts col) as H.
  unfold kpi_crime_types. rewrite Hcol.
  assert (Hrun : forall r,
             idxmax (value_counts col) = r ->
             (print ["Unique crime types:          "; str_of_nat (nunique col)];;
              top_crime ← lift r;
              print ["Most common crime type:      "; str top_crime]) w
             = match r with
               | inl e => (w1, inl e)
               | inr top => (after_print ["Most common crime type:      "; str top] w1, inr tt)
               end).
  { intros r _. destruct r; reflexivity. }
  destruct (idxmax (value_counts col)) as [e|top] eqn:E.
  - destruct H as [Hempty ->]. split; [| intros Hne; contradiction].
    intros _. split; [unfold nunique; now rewrite Hempty |].
    apply (Hrun _ eq_refl).
  - destruct H as [Hmost _]. split.
    + intros Hempty. exfalso. destruct Hmost as (Hk & Hin & _).
      assert (Hd : In top (dropna col)) by (apply In_dropna; auto).
      rewrite Hempty in Hd. contradiction.
    + intros _. exists top. split; [exact Hmost | apply (Hrun _ eq_refl)].
Qed.

(** X6.  With an area column, lines 59-62 raise [ValueError] before printing
    anything when every cell is missing.  Otherwise they print a most
    frequent area and, on the next line, the number of rows that have that
    area. *)
Theorem kpi_top_area_reports_its_count (df : DataFrame) (col : list cell) (w : world) :
  df_columns df !! "area_name" = Some col ->
  (dropna col = [] ->
     kpi_top_area df w = (w, inl (ValueError "attempt to get argmax of an empty sequence")))
  /\ (dropna col <> [] ->
      exists top_area,
        most_frequent col top_area
        /\ kpi_top_area df w
           = (after_print ["Crimes in " +:+ str top_area +:+ ":           ";
                           str_of_nat (count cell_eqb top_area col)]
                (after_print ["Top area by count:           "; str top_area] w), inr tt)).
Proof.
  intros Hcol. pose proof (idxmax_value_counts col) as H.
  unfold kpi_top_area. rewrite Hcol.
  destruct (idxmax (value_counts col)) as [e|top] eqn:E.
  - destruct H as [Hempty ->]. split; [| intros Hne; contradiction].
    intros _. reflexivity.
  - destruct H as [Hmost Hmax]. split.
    + intros Hempty. exfalso. destruct Hmost as (Hk & Hin & _).
      assert (Hd : In top (dropna col)) by (apply In_dropna; auto).
      rewrite Hempty in Hd. contradiction.
    + intros _. exists top. split; [exact Hmost |].
      unfold mbind, M_bind, lift. simpl. rewrite Hmax. reflexivity.
Qed.

Lemma top_charts_witness :
  (exists bars, top_bars 10 [Str "Central"; Str "Rampart"; NaN; Str "Rampart"; Str "Hollywood"] bars
     /\ plot_top_areas survey start
        = (after_savefig "top_areas.png" (TopAreas bars) start, inr tt))
  /\ (exists bars, top_bars 15 [Str "THEFT"; Str "THEFT"; Str "ROBBERY"; NaN; Str "THEFT"] bars
     /\ plot_top_crimes survey start
        = (after_savefig "top_crimes.png" (TopCrimes bars) start, inr tt)).
Proof.
  destruct (top_charts_show_most_frequent survey start) as [H1 H2].
  split; [apply H1 | apply H2]; reflexivity.
Defined.

Lemma victim_sex_pie_witness :
  exists (sizes : list nat) (labels : list cell),
    plot_victim_sex survey start
    = (after_savefig "victim_sex.png"
         (SexPie sizes labels (firstn (length labels) colors)) start, inr tt)
    /\ length sizes = length labels
    /\ list_sum sizes = 5%nat
    /\ List.NoDup labels
    /\ ~ In NaN labels
    /\ (In (Str "Unknown") labels
        <-> In NaN [Str "M"; Str "F"; NaN; Str "M"; Str "X"]
            \/ In (Str "Unknown") [Str "M"; Str "F"; NaN; Str "M"; Str "X"])
    /\ (forall k, k <> NaN -> In k [Str "M"; Str "F"; NaN; Str "M"; Str "X"] -> In k labels)
    /\ (length (firstn (length labels) colors) = Nat.min (length labels) 4)%nat.
Proof.
  apply (victim_sex_pie_counts_every_row survey
           [Str "M"; Str "F"; NaN; Str "M"; Str "X"] start eq_refl).
Defined.

Lemma kpi_crime_types_witness :
  exists top_crime,
    most_frequent [Str "THEFT"; Str "THEFT"; Str "ROBBERY"; NaN; Str "THEFT"] top_crime
    /\ kpi_crime_types survey start
       = (after_print ["Most common crime type:      "; str top_crime]
            (after_print ["Unique crime types:          "; "2"] start), inr tt).
Proof.
  destruct (kpi_crime_types_reports_most_frequent survey
              [Str "THEFT"; Str "THEFT"; Str "ROBBERY"; NaN; Str "THEFT"] start eq_refl)
    as [_ H].
  apply H. discriminate.
Defined.

Lemma kpi_top_area_witness :
  exists top_area,
    most_frequent [Str "Central"; Str "Rampart"; NaN; Str "Rampart"; Str "Hollywood"] top_area
    /\ kpi_top_area survey start
       = (after_print ["Crimes in " +:+ str top_area +:+ ":           ";
                       str_of_nat (count cell_eqb top_area
                                     [Str "Central"; Str "Rampart"; NaN; Str "Rampart";
                                      Str "Hollywood"])]
            (after_print ["Top area by count:           "; str top_area] start), inr tt).
Proof.
  destruct (kpi_top_area_reports_its_count survey
              [Str "Central"; Str "Rampart"; NaN; Str "Rampart"; Str "Hollywood"] start eq_refl)
    as [_ H].
  apply H. discriminate.
Defined.

(** *** Orders on dates and periods *)

Lemma lex_leb_total (a b : list Z) : lex_leb a b = false -> lex_leb b a = true.
Proof.
  revert b. induction a as [|x a IH]; intros [|y b]; simpl; try discriminate; auto.
  destruct (Z.ltb_spec x y), (Z.ltb_spec y x); try discriminate; auto; lia.
Qed.

Lemma lex_leb_trans (a b c : list Z) :
  length a = length b -> length b = length c ->
  lex_leb a b = true -> lex_leb b c = true -> lex_leb a c = true.
Proof.
  revert b c. induction a as [|x a IH]; intros [|y b] [|z c]; simpl; try discriminate; auto.
  intros Hab Hbc.
  destruct (Z.ltb_spec x y), (Z.ltb_spec y x), (Z.ltb_spec y z), (Z.ltb_spec z y),
    (Z.ltb_spec x z), (Z.ltb_spec z x); try discriminate; auto; try lia.
  apply IH; lia.
Qed.

Lemma period_leb_total (a b : Period) : period_leb a b = false -> period_leb b a = true.
Proof. apply lex_leb_total. Qed.

Lemma period_leb_trans (a b c : Period) :
  period_leb a b = true -> period_leb b c = true -> period_leb a c = true.
Proof. apply lex_leb_trans; reflexivity. Qed.

Lemma period_eqb_eq (a b : Period) : period_eqb a b = true <-> a = b.
Proof.
  unfold period_eqb. rewrite andb_true_iff, !Z.eqb_eq.
  destruct a, b; simpl. split; [intros [-> ->]; reflexivity | intros [= -> ->]; auto].
Qed.

Lemma period_eqb_refl (a : Period) : period_eqb a a = true.
Proof. now apply period_eqb_eq. Qed.

Lemma period_eqb_sym (a b : Period) : period_eqb a b = period_eqb b a.
Proof. apply eq_true_iff_eq. rewrite !period_eqb_eq. split; congruence. Qed.

Lemma period_eqb_trans (a b c : Period) :
  period_eqb a b = true -> period_eqb b c = true -> period_eqb a c = true.
Proof. rewrite !period_eqb_eq. congruence. Qed.

Lemma ts_leb_total (a b : Timestamp) : ts_leb a b = false -> ts_leb b a = true.
Proof. apply lex_leb_total. Qed.

Lemma ts_leb_trans (a b c : Timestamp) :
  ts_leb a b = true -> ts_leb b c = true -> ts_leb a c = true.
Proof. apply lex_leb_trans; reflexivity. Qed.

Lemma ts_leb_refl (a : Timestamp) : ts_leb a a = true.
Proof.
  destruct (ts_leb a a) eqn:E; [reflexivity | now apply ts_leb_total in E as E'; congruence].
Qed.

(** *** Grouping *)

Section GroupFacts.
Context {K : Type} (eqb leb : K -> K -> bool).
Hypothesis eqb_refl : forall a, eqb a a = true.
Hypothesis eqb_sym : forall a b, eqb a b = eqb b a.
Hypothesis eqb_trans : forall a b c, eqb a b = true -> eqb b c = true -> eqb a c = true.
Hypothesis leb_total : forall a b, leb a b = false -> leb b a = true.
Hypothesis leb_trans : forall a b c, leb a b = true -> leb b c = true -> leb a c = true.

Lemma NoDup_unique (l : list K) : List.NoDup (unique eqb l).
Proof.
  induction l as [|x l IH]; simpl; constructor.
  - intros H. apply filter_In in H. destruct H as [_ H].
    rewrite eqb_refl in H. discriminate.
  - now apply List.NoDup_filter.
Qed.

Lemma groups_keys (l : list K) :
  map fst (map (fun k => (k, count eqb k l)) (sort leb (unique eqb l)))
  = sort leb (unique eqb l).
Proof. rewrite map_map. simpl. apply map_id. Qed.

Lemma groups_sum (l : list K) :
  list_sum (map snd (map (fun k => (k, count eqb k l)) (sort leb (unique eqb l))))
  = length l.
Proof.
  rewrite map_map. simpl. rewrite (Permutation_map _ (sort_perm leb _)).
  now apply count_unique_sum.
Qed.

Lemma groups_positive (l : list K) (k : K) (n : nat) :
  In (k, n) (map (fun k => (k, count eqb k l)) (sort leb (unique eqb l))) ->
  In k l /\ n = count eqb k l /\ (0 < n)%nat.
Proof.
  rewrite in_map_iff. intros (k' & [= <- <-] & Hin).
  apply In_sort, In_unique in Hin. repeat split; auto.
  unfold count. apply in_split in Hin. destruct Hin as (l1 & l2 & ->).
  rewrite List.filter_app. simpl. rewrite eqb_refl, length_app. simpl. lia.
Qed.

Lemma groups_sorted (l : list K) :
  StronglySorted (fun a b : K * nat => leb (fst a) (fst b) = true)
    (map (fun k => (k, count eqb k l)) (sort leb (unique eqb l))).
Proof.
  pose proof (sort_sorted leb leb_total leb_trans (unique eqb l)) as H.
  induction H as [|x s Hs IH Hx]; simpl; constructor; [exact IH |].
  rewrite List.Forall_forall in *. intros [k n] Hin. apply in_map_iff in Hin.
  destruct Hin as (k' & [= <- <-] & Hin). simpl. now apply Hx.
Qed.

Lemma groups_NoDup (l : list K) :
  List.NoDup (map fst (map (fun k => (k, count eqb k l)) (sort leb (unique eqb l)))).
Proof.
  rewrite groups_keys. eapply Permutation_NoDup; [symmetry; apply sort_perm |].
  apply NoDup_unique.
Qed.

End GroupFacts.

(** *** The monthly series *)

Lemma omap_id_fmap {A B} (f : A -> B) (l : list (option A)) :
  omap id (map (fmap f) l) = map f (omap id l).
Proof.
  induction l as [|[a|] l IH]; simpl; [reflexivity | | exact IH].
  f_equal. exact IH.
Qed.

Lemma count_map {A K} (eqb : K -> K -> bool) (f : A -> K) (k : K) (l : list A) :
  count eqb k (map f l) = length (List.filter (fun a => eqb k (f a)) l).
Proof.
  unfold count. induction l as [|a l IH]; simpl; [reflexivity |].
  destruct (eqb k (f a)); simpl; now rewrite IH.
Qed.

Lemma monthly_sum (dates : list (option Timestamp)) :
  list_sum (map snd (groupby_size period_eqb period_leb (month_year dates)))
  = length (omap id dates).
Proof.
  unfold groupby_size, month_year.
  rewrite (groups_sum period_eqb period_leb period_eqb_refl period_eqb_sym period_eqb_trans).
  now rewrite omap_id_fmap, length_map.
Qed.

Lemma monthly_empty (dates : list (option Timestamp)) :
  groupby_size period_eqb period_leb (month_year dates) = [] <-> omap id dates = [].
Proof.
  pose proof (monthly_sum dates) as Hsum. split.
  - intros E. rewrite E in Hsum. simpl in Hsum.
    destruct (omap id dates); [reflexivity | discriminate].
  - intros E. rewrite E in Hsum. simpl in Hsum.
    destruct (groupby_size period_eqb period_leb (month_year dates)) as [|[p n] rest] eqn:Em;
      [reflexivity |].
    assert (Hin : In (p, n) (groupby_size period_eqb period_leb (month_year dates)))
      by (rewrite Em; now left).
    unfold groupby_size in Hin.
    apply (groups_positive period_eqb period_leb period_eqb_refl) in Hin.
    simpl in Hsum. lia.
Qed.

Lemma plot_monthly_trend_outcome (dates : list (option Timestamp)) (w : world) :
  let monthly := groupby_size period_eqb period_leb (month_year dates) in
  (omap id dates = [] ->
     plot_monthly_trend dates w
     = (w, inl (ValueError "zero-size array to reduction operation fmin which has no identity")))
  /\ (omap id dates <> [] ->
      plot_monthly_trend dates w
      = (after_savefig "monthly_trend.png" (MonthlyTrend monthly (rolling_mean 12 monthly)) w,
         inr tt)).
Proof.
  intros monthly. pose proof (monthly_empty dates) as He. fold monthly in He.
  unfold plot_monthly_trend. fold monthly.
  destruct monthly as [|x rest].
  - split; [reflexivity |]. intros Hne. exfalso. apply Hne. now apply He.
  - split; [| reflexivity]. intros E. apply He in E. discriminate.
Qed.

(** X8.  With no dated row the monthly series is empty, and drawing it on
    line 92 raises [ValueError] with nothing saved.  Otherwise the monthly
    trend (lines 90-99) is saved.  Its series has a point for each calendar
    month in which a dated row falls, each month once and in increasing
    order; the value at a month is the number of dated rows in it, never
    zero; and the values add up to the number of dated rows, so undated
    rows are in no point. *)
Theorem monthly_series_counts_dated_rows (dates : list (option Timestamp)) (w : world) :
  let monthly := groupby_size period_eqb period_leb (month_year dates) in
  (omap id dates = [] ->
     monthly = []
     /\ exists msg, plot_monthly_trend dates w = (w, inl (ValueError msg)))
  /\ (omap id dates <> [] ->
      monthly <> []
      /\ plot_monthly_trend dates w
         = (after_savefig "monthly_trend.png" (MonthlyTrend monthly (rolling_mean 12 monthly)) w,
            inr tt))
  /\ list_sum (map snd monthly) = length (omap id dates)
  /\ List.NoDup (map fst monthly)
  /\ StronglySorted (fun a b => period_leb (fst a) (fst b) = true) monthly
  /\ forall (p : Period) (n : nat),
       In (p, n) monthly ->
       (0 < n)%nat
       /\ n = length (List.filter (fun t => period_eqb p (to_period_M t)) (omap id dates)).
Proof.
  intros monthly.
  destruct (plot_monthly_trend_outcome dates w) as [Hfail Hsave].
  split; [| split; [| split; [apply monthly_sum | split; [| split]]]].
  - intros E. split; [now apply monthly_empty |]. eexists. now apply Hfail.
  - intros Hne. split; [| now apply Hsave].
    intros E. apply Hne. now apply monthly_empty.
  - unfold monthly, groupby_size. apply groups_NoDup. apply period_eqb_refl.
  - unfold monthly, groupby_size.
    apply groups_sorted; [apply period_leb_total | apply period_leb_trans].
  - intros p n Hin. unfold monthly, groupby_size, month_year in Hin.
    apply (groups_positive period_eqb period_leb period_eqb_refl) in Hin.
    destruct Hin as (_ & -> & Hpos). split; [exact Hpos |].
    now rewrite omap_id_fmap, count_map.
Qed.

Lemma Qsum_inject (l : list Z) :
  Qeq (Qsum (map inject_Z l)) (inject_Z (fold_right Z.add 0 l)).
Proof.
  induction l as [|x l IH]; simpl; [reflexivity |].
  rewrite IH. now rewrite inject_Z_plus.
Qed.

Lemma real_mean_of_Z (l : list Z) :
  l <> [] ->
  real_mean (map Num.of_Z l)
  = Some (Num.Finite (Qred (Qdiv (inject_Z (fold_right Z.add 0 l))
                                 (inject_Z (Z.of_nat (length l)))))).
Proof.
  intros Hne. unfold real_mean.
  assert (Hno : forall neg,
             existsb (fun r => match r with Num.Infinite b => Bool.eqb b neg | _ => false end)
                     (map Num.of_Z l) = false).
  { intros neg. clear Hne. induction l; simpl; auto. }
  destruct l as [|x l]; [contradiction |].
  change (map Num.of_Z (x :: l)) with (Num.of_Z x :: map Num.of_Z l) at 1.
  cbv iota. rewrite !Hno. cbv iota. simpl andb. cbv iota.
  assert (Hom : omap (fun r => match r with Num.Finite q => Some q | _ => None end)
                     (map Num.of_Z (x :: l)) = map inject_Z (x :: l)).
  { generalize (x :: l). intros l'. induction l' as [|y l' IH]; simpl; [reflexivity |].
    f_equal. exact IH. }
  rewrite Hom. unfold mean.
  change (map inject_Z (x :: l)) with (inject_Z x :: map inject_Z l) at 1. cbv iota.
  do 2 f_equal. apply Qred_complete.
  rewrite Qsum_inject, length_map. reflexivity.
Qed.

Lemma sum_of_nat (l : list nat) :
  fold_right Z.add 0 (map Z.of_nat l) = Z.of_nat (list_sum l).
Proof. induction l as [|x l IH]; simpl; [reflexivity | rewrite IH; lia]. Qed.

(** X7.  Lines 65-67 always print the average line.  Without a dated row
    the figure printed is nan.  Otherwise it is the number of dated rows
    divided by the number of calendar months that have a dated row, printed
    with one decimal: months without any incident do not lower the
    average. *)
Theorem kpi_avg_monthly_is_rows_per_month (round_tenths : Q -> Z)
    (dates : list (option Timestamp)) (w : world) :
  let monthly := groupby_size period_eqb period_leb (month_year dates) in
  exists text : string,
    kpi_avg_monthly round_tenths dates w
    = (after_print ["Average crimes per month:     " +:+ text] w, inr tt)
    /\ (omap id dates = [] -> text = "nan")
    /\ (omap id dates <> [] ->
        one_decimal text
        /\ text = format_1f round_tenths
                    (Some (Num.Finite
                             (Qred (Qdiv (inject_Z (Z.of_nat (length (omap id dates))))
                                         (inject_Z (Z.of_nat (length monthly)))))))).
Proof.
  intros monthly.
  assert (Hsum : list_sum (map snd monthly) = length (omap id dates)).
  { unfold monthly, groupby_size, month_year.
    rewrite (groups_sum period_eqb period_leb period_eqb_refl period_eqb_sym period_eqb_trans).
    now rewrite omap_id_fmap, length_map. }
  assert (Hpos : forall p n, In (p, n) monthly -> (0 < n)%nat).
  { intros p n Hin. unfold monthly, groupby_size in Hin.
    now apply (groups_positive period_eqb period_leb period_eqb_refl) in Hin. }
  exists (format_1f round_tenths
            (real_mean (map (fun kv => Num.of_Z (Z.of_nat (snd kv))) monthly))).
  split; [reflexivity |].
  assert (Hmap : map (fun kv : Period * nat => Num.of_Z (Z.of_nat (snd kv))) monthly
                 = map Num.of_Z (map Z.of_nat (map snd monthly))).
  { now rewrite !map_map. }
  split.
  - intros Hempty. rewrite Hempty in Hsum. simpl in Hsum.
    destruct monthly as [|[p n] rest] eqn:E; [reflexivity |].
    exfalso. specialize (Hpos p n (or_introl eq_refl)).
    simpl in Hsum. lia.
  - intros Hne.
    assert (Hmne : map Z.of_nat (map snd monthly) <> []).
    { destruct monthly; [| discriminate]. simpl in Hsum.
      destruct (omap id dates); [contradiction | discriminate]. }
    rewrite Hmap, (real_mean_of_Z _ Hmne).
    rewrite sum_of_nat, Hsum, !length_map.
    split; [apply format_1f_one_decimal | reflexivity].
Qed.

(** *** The rolling average *)

Lemma rolling_mean_labels {K} (window : nat) (s : list (K * nat)) :
  map fst (rolling_mean window s) = map fst s.
Proof.
  unfold rolling_mean. apply list_eq. intros i.
  rewrite !list_lookup_fmap, list_lookup_imap.
  destruct (s !! i) as [[k n]|]; reflexivity.
Qed.

Lemma mean_of_counts (w : list nat) :
  w <> [] ->
  match mean (map (fun n => inject_Z (Z.of_nat n)) w) with
  | Some q => q
  | None => Qmake 0 1
  end
  = Qred (Qdiv (inject_Z (Z.of_nat (list_sum w))) (inject_Z (Z.of_nat (length w)))).
Proof.
  intros Hne. destruct w as [|x w]; [contradiction |].
  unfold mean.
  change (map (fun n => inject_Z (Z.of_nat n)) (x :: w))
    with (inject_Z (Z.of_nat x) :: map (fun n => inject_Z (Z.of_nat n)) w) at 1.
  cbv iota. apply Qred_complete.
  rewrite <- (map_map Z.of_nat inject_Z), Qsum_inject, sum_of_nat, !length_map.
  reflexivity.
Qed.

(** X9.  The rolling average of line 93 is over the same months as the
    monthly series.  Its value at a month is the mean of the counts of the
    twelve months of the series that end there, or of all the months so far
    when they are fewer than twelve ([min_periods=1]). *)
Theorem rolling_average_of_last_twelve {K} (s : list (K * nat)) (i : nat) (p : K) (n : nat) :
  s !! i = Some (p, n) ->
  map fst (rolling_mean 12 s) = map fst s
  /\ exists (window : list nat),
       length window = Nat.min (S i) 12
       /\ (forall j, (j < Nat.min (S i) 12)%nat ->
             window !! j = map snd s !! (S i - Nat.min (S i) 12 + j)%nat)
       /\ rolling_mean 12 s !! i
          = Some (p, Qred (Qdiv (inject_Z (Z.of_nat (list_sum window)))
                                (inject_Z (Z.of_nat (length window))))).
Proof.
  intros Hi. split; [apply rolling_mean_labels |].
  assert (Hlen : (i < length s)%nat) by (apply lookup_lt_is_Some; eauto).
  set (lo := (S i - 12)%nat).
  exists (firstn (S i - lo) (skipn lo (map snd s))).
  assert (Hw : length (firstn (S i - lo) (skipn lo (map snd s))) = Nat.min (S i) 12).
  { rewrite length_firstn, length_skipn, length_map. unfold lo. lia. }
  split; [exact Hw | split].
  - intros j Hj. rewrite lookup_take_lt by (unfold lo; lia).
    rewrite lookup_drop. f_equal. unfold lo. lia.
  - unfold rolling_mean. rewrite list_lookup_imap, Hi. simpl.
    change (i - 11)%nat with lo.
    do 2 f_equal. apply mean_of_counts.
    intros E. rewrite E in Hw. simpl in Hw. lia.
Qed.

(** *** The weekday and hour bar charts *)

Lemma day_name_is_a_weekday (t : Timestamp) : In (day_name t) weekday_order.
Proof.
  unfold day_name.
  set (k := (days_from_civil (ts_year t) (ts_month t) (ts_day t) + 3) mod 7).
  assert (Hk : 0 <= k < 7) by (apply Z.mod_pos_bound; lia).
  clearbody k. change weekday_order with weekday_names.
  apply nth_In. simpl length. lia.
Qed.

Lemma weekday_order_NoDup : List.NoDup weekday_order.
Proof.
  unfold weekday_order.
  repeat (constructor; [simpl; intros H; repeat (destruct H as [H|H]; [discriminate |]);
                        exact H |]).
  constructor.
Qed.

Lemma matches_in_NoDup (order : list string) (y : string) :
  List.NoDup order ->
  length (List.filter (fun k => String.eqb k y) order)
  = if mem String.eqb y order then 1%nat else 0%nat.
Proof.
  induction 1 as [|x l Hx Hn IH]; [reflexivity |].
  simpl. rewrite (String.eqb_sym y x). destruct (String.eqb_spec x y) as [->|Hne]; simpl.
  - rewrite filter_none; [reflexivity |].
    intros k Hk. destruct (String.eqb_spec k y) as [->|]; [contradiction | reflexivity].
  - exact IH.
Qed.

Lemma countplot_order_sum (order : list string) (x : list (option string)) :
  List.NoDup order ->
  list_sum (map snd (countplot_order order x))
  = length (List.filter (fun v => mem String.eqb v order) (omap id x)).
Proof.
  intros Hn. unfold countplot_order. rewrite map_map. simpl.
  rewrite count_double.
  induction (omap id x) as [|y l IH]; simpl; [reflexivity |].
  rewrite IH, matches_in_NoDup by exact Hn.
  destruct (mem String.eqb y order); simpl; lia.
Qed.

(** X10.  Line 44 gives each row the day name of its date, and no day name
    to an undated row; a day name is one of the seven of line 105.  Each
    bar of the weekday chart (lines 103-107) counts the dated rows on that
    day, and the bars add up to the number of dated rows. *)
Theorem weekday_bars_count_dated_rows (dates : list (option Timestamp)) :
  length (weekday dates) = length dates
  /\ (forall i, weekday dates !! i = fmap day_name <$> dates !! i)
  /\ (forall name, In (Some name) (weekday dates) -> In name weekday_order)
  /\ list_sum (map snd (crimes_weekday dates)) = length (omap id dates)
  /\ forall name n,
       In (name, n) (crimes_weekday dates) ->
       n = length (List.filter (fun t => String.eqb name (day_name t)) (omap id dates)).
Proof.
  split; [apply length_map | split; [| split; [| split]]].
  - intros i. unfold weekday. apply list_lookup_fmap.
  - intros name H. unfold weekday in H. apply in_map_iff in H.
    destruct H as ([t|] & E & _); [| discriminate].
    injection E as <-. apply day_name_is_a_weekday.
  - unfold crimes_weekday. rewrite countplot_order_sum by apply weekday_order_NoDup.
    unfold weekday. rewrite omap_id_fmap.
    rewrite (filter_ext_in _ (fun _ => true)).
    + rewrite List.filter_true. apply length_map.
    + intros name Hin. apply in_map_iff in Hin. destruct Hin as (t & <- & _).
      apply mem_In. exists (day_name t).
      split; [apply day_name_is_a_weekday | apply String.eqb_refl].
  - intros name n Hin. unfold crimes_weekday, countplot_order in Hin.
    apply in_map_iff in Hin. destruct Hin as (k & [= <- <-] & _).
    unfold weekday. now rewrite omap_id_fmap, count_map.
Qed.

Lemma real_leb_total (a b : Num.real) : Num.real_leb a b = false -> Num.real_leb b a = true.
Proof.
  destruct a as [p|[|]], b as [q|[|]]; simpl; try discriminate; auto.
  intros H. apply Qle_bool_iff. apply not_true_iff_false in H.
  rewrite Qle_bool_iff in H. apply Qlt_le_weak. now apply Qnot_le_lt.
Qed.

Lemma real_leb_trans (a b c : Num.real) :
  Num.real_leb a b = true -> Num.real_leb b c = true -> Num.real_leb a c = true.
Proof.
  destruct a as [p|[|]], b as [q|[|]], c as [r|[|]]; simpl; try discriminate; auto.
  rewrite !Qle_bool_iff. apply Qle_trans.
Qed.

(** X11.  The hour chart (lines 111-114) has one bar for each hour value
    that occurs, each once and in increasing order; a bar counts the rows
    with that hour and is never empty; the bars add up to the number of
    rows that have an hour.  Without the time column there is no bar at
    all. *)
Theorem hour_bars_count_timed_rows (df : DataFrame) :
  list_sum (map snd (crimes_hours df)) = length (omap id (hour df))
  /\ List.NoDup (map fst (crimes_hours df))
  /\ StronglySorted (fun a b => Num.real_leb (fst a) (fst b) = true) (crimes_hours df)
  /\ (forall h n, In (h, n) (crimes_hours df) ->
        (0 < n)%nat /\ In (Some h) (hour df)
        /\ n = length (List.filter (Num.real_eqb h) (omap id (hour df))))
  /\ (df_columns df !! "time_occ" = None -> crimes_hours df = []).
Proof.
  unfold crimes_hours, countplot.
  split; [| split; [| split; [| split]]].
  - apply (groups_sum Num.real_eqb Num.real_leb real_eqb_refl real_eqb_sym real_eqb_trans).
  - apply groups_NoDup. apply real_eqb_refl.
  - apply groups_sorted; [apply real_leb_total | apply real_leb_trans].
  - intros h n Hin.
    apply (groups_positive Num.real_eqb Num.real_leb real_eqb_refl) in Hin.
    destruct Hin as (Hin & -> & Hpos). repeat split; auto.
    apply list_elem_of_In, list_elem_of_omap in Hin. destruct Hin as ([x|] & Hx & E);
      [| discriminate]. injection E as <-. now apply list_elem_of_In.
  - intros Habsent. unfold hour. rewrite Habsent.
    assert (E : omap id (repeat (@None Num.real) (df_len df)) = []).
    { induction (df_len df); simpl; auto. }
    now rewrite E.
Qed.

(** *** The date range *)

Lemma fold_min_from (l : list Timestamp) (a : Timestamp) :
  exists m,
    fold_left (fun acc t =>
                 match acc with
                 | None => Some t
                 | Some a => Some (if ts_leb a t then a else t)
                 end) l (Some a) = Some m
    /\ (m = a \/ In m l) /\ ts_leb m a = true /\ forall t, In t l -> ts_leb m t = true.
Proof.
  revert a. induction l as [|x l IH]; intros a; simpl.
  - exists a. split; [reflexivity | split; [now left | split; [apply ts_leb_refl |]]].
    intros t [].
  - destruct (ts_leb a x) eqn:E.
    + destruct (IH a) as (m & Em & Hm & Hma & Hall). exists m.
      split; [exact Em | split; [destruct Hm as [->|Hm]; simpl; auto | split; [exact Hma |]]].
      intros t [<-|Ht]; [now apply ts_leb_trans with a | now apply Hall].
    + destruct (IH x) as (m & Em & Hm & Hmx & Hall). exists m.
      split; [exact Em | split; [destruct Hm as [->|Hm]; simpl; auto | split]].
      * apply ts_leb_trans with x; [exact Hmx | now apply ts_leb_total].
      * intros t [<-|Ht]; [exact Hmx | now apply Hall].
Qed.

Lemma fold_max_from (l : list Timestamp) (a : Timestamp) :
  exists m,
    fold_left (fun acc t =>
                 match acc with
                 | None => Some t
                 | Some a => Some (if ts_leb a t then t else a)
                 end) l (Some a) = Some m
    /\ (m = a \/ In m l) /\ ts_leb a m = true /\ forall t, In t l -> ts_leb t m = true.
Proof.
  revert a. induction l as [|x l IH]; intros a; simpl.
  - exists a. split; [reflexivity | split; [now left | split; [apply ts_leb_refl |]]].
    intros t [].
  - destruct (ts_leb a x) eqn:E.
    + destruct (IH x) as (m & Em & Hm & Hxm & Hall). exists m.
      split; [exact Em | split; [destruct Hm as [->|Hm]; simpl; auto | split]].
      * now apply ts_leb_trans with x.
      * intros t [<-|Ht]; [exact Hxm | now apply Hall].
    + destruct (IH a) as (m & Em & Hm & Ham & Hall). exists m.
      split; [exact Em | split; [destruct Hm as [->|Hm]; simpl; auto | split; [exact Ham |]]].
      intros t [<-|Ht]; [| now apply Hall].
      apply ts_leb_trans with a; [now apply ts_leb_total | exact Ham].
Qed.

Lemma In_omap_id_iff {A} (x : list (option A)) (a : A) : In a (omap id x) <-> In (Some a) x.
Proof.
  rewrite <- !list_elem_of_In, list_elem_of_omap. split.
  - intros ([b|] & Hb & E); [| discriminate]. now injection E as <-.
  - intros H. exists (Some a). auto.
Qed.

(** X4.  The two dates printed on line 52 are dates of the table: the
    earliest and the latest among the dated rows, so that every dated row
    lies between them.  When no row has a date, both are missing. *)
Theorem date_range_is_earliest_and_latest (dates : list (option Timestamp)) :
  match ts_min dates, ts_max dates with
  | Some lo, Some hi =>
      In (Some lo) dates /\ In (Some hi) dates
      /\ forall t, In (Some t) dates -> ts_leb lo t = true /\ ts_leb t hi = true
  | None, None => forall t, ~ In (Some t) dates
  | _, _ => False
  end.
Proof.
  unfold ts_min, ts_max.
  destruct (omap id dates) as [|a l] eqn:E; simpl.
  - intros t Ht. apply In_omap_id_iff in Ht. rewrite E in Ht. contradiction.
  - destruct (fold_min_from l a) as (lo & Elo & Hlo & Hlo_a & Hlo_all).
    destruct (fold_max_from l a) as (hi & Ehi & Hhi & Hhi_a & Hhi_all).
    rewrite Elo, Ehi.
    assert (Hmem : forall m, m = a \/ In m l -> In (Some m) dates).
    { intros m Hm. apply In_omap_id_iff. rewrite E. simpl. destruct Hm; auto. }
    split; [now apply Hmem | split; [now apply Hmem |]].
    intros t Ht. apply In_omap_id_iff in Ht. rewrite E in Ht.
    destruct Ht as [<-|Ht]; split; auto.
Qed.

Lemma rolling_average_witness :
  map fst (rolling_mean 12 [((2020, 1), 2%nat); ((2020, 2), 4%nat)]) = [(2020, 1); (2020, 2)]
  /\ exists (window : list nat),
       length window = 2%nat
       /\ (forall j, (j < 2)%nat -> window !! j = [2%nat; 4%nat] !! j)
       /\ rolling_mean 12 [((2020, 1), 2%nat); ((2020, 2), 4%nat)] !! 1%nat
          = Some ((2020, 1 + 1),
                  Qred (Qdiv (inject_Z (Z.of_nat (list_sum window)))
                             (inject_Z (Z.of_nat (length window))))).
Proof.
  apply (rolling_average_of_last_twelve [((2020, 1), 2%nat); ((2020, 2), 4%nat)] 1
           (2020, 2) 4 eq_refl).
Defined.

(** *** helper.py: the descent labels *)

Lemma descent_pairs_lookup (code label : string) :
  descent_map !! code = Some label <-> In (code, label) descent_pairs.
Proof.
  unfold descent_pairs. rewrite <- list_elem_of_In. symmetry. apply elem_of_map_to_list.
Qed.

Lemma descent_pairs_checked :
  labels_distinct descent_pairs = true
  /\ forallb (fun kv => is_capital (fst kv)) descent_pairs = true
  /\ length descent_pairs = 19%nat.
Proof. vm_compute. auto. Qed.

Lemma descent_label_code (code1 code2 label : string) :
  descent_map !! code1 = Some label ->
  descent_map !! code2 = Some label ->
  code1 = code2.
Proof.
  intros H1 H2.
  apply (proj1 (descent_pairs_lookup code1 label)) in H1.
  apply (proj1 (descent_pairs_lookup code2 label)) in H2.
  destruct descent_pairs_checked as (Hd & _ & _).
  pose proof (proj1 (forallb_forall _ _) Hd (code1, label) H1) as Hd1.
  pose proof (proj1 (forallb_forall _ _) Hd1 (code2, label) H2) as Hd2.
  clear H1 H2 Hd Hd1. cbn [fst snd] in Hd2. rewrite String.eqb_refl in Hd2.
  cbn [implb] in Hd2. apply String.eqb_eq. exact Hd2.
Qed.

(** X16.  [descent_map] of helper.py has nineteen codes, each a single
    capital letter, and no two codes share a label: a label on the console
    or on a chart stands for one code. *)
Theorem descent_map_is_one_to_one :
  size descent_map = 19%nat
  /\ (forall code label : string,
        descent_map !! code = Some label -> is_capital code = true)
  /\ (forall code1 code2 label : string,
        descent_map !! code1 = Some label -> descent_map !! code2 = Some label ->
        code1 = code2).
Proof.
  destruct descent_pairs_checked as (_ & Hc & Hn). split; [| split].
  - rewrite <- Hn. unfold descent_pairs. symmetry. apply length_map_to_list.
  - intros code label H. apply descent_pairs_lookup in H.
    rewrite forallb_forall in Hc. apply (Hc _ H).
  - apply descent_label_code.
Qed.

(** *** The descent chart *)

Lemma map_descent_label (c : cell) (label : string) :
  map_descent c = Str label <-> exists code, c = Str code /\ descent_map !! code = Some label.
Proof.
  unfold map_descent. split.
  - destruct c as [| |s]; try discriminate.
    destruct (descent_map !! s) as [l|] eqn:E; [| discriminate].
    intros [= ->]. now exists s.
  - intros (code & -> & H). now rewrite H.
Qed.

(** X17.  The descent chart (lines 177-184) shows the ten most frequent
    labels, or all when fewer.  Each bar carries the label of a code of
    [descent_map], and its height is the number of rows with that code;
    for the code X it is the rows with X and the rows without a code
    together.  Rows whose code is not in [descent_map] are in no bar. *)
Theorem descent_chart_counts_codes (col : list cell) :
  top_bars 10 (map map_descent (fillna (Str "X") col)) (descent_bars col)
  /\ forall (label : cell) (n : nat),
       In (label, n) (descent_bars col) ->
       exists code text,
         label = Str text
         /\ descent_map !! code = Some text
         /\ n = count cell_eqb (Str code) (fillna (Str "X") col)
         /\ (code <> "X" -> n = count cell_eqb (Str code) col)
         /\ (code = "X" -> n = (count cell_eqb NaN col + count cell_eqb (Str "X") col)%nat).
Proof.
  split; [apply top_bars_spec |].
  intros label n Hin. unfold descent_bars in Hin. rewrite nlargest_value_counts in Hin.
  apply In_take, value_counts_entry in Hin. destruct Hin as (Hna & Hin & ->).
  apply in_map_iff in Hin. destruct Hin as (c & Hc & Hcin).
  destruct label as [| |text]; [contradiction | |].
  { unfold map_descent in Hc. destruct c as [| |s]; try discriminate.
    destruct (descent_map !! s); discriminate. }
  apply map_descent_label in Hc. destruct Hc as (code & -> & Hcode).
  exists code, text. split; [reflexivity | split; [exact Hcode |]].
  assert (Hn : count cell_eqb (Str text) (map map_descent (fillna (Str "X") col))
               = count cell_eqb (Str code) (fillna (Str "X") col)).
  { rewrite count_map. unfold count. f_equal. apply filter_ext. intros c.
    apply eq_true_iff_eq. rewrite !cell_eqb_eq. split.
    - intros E. symmetry in E. apply map_descent_label in E.
      destruct E as (code' & -> & H'). f_equal. now apply descent_label_code with text.
    - intros <-. symmetry. apply map_descent_label. now exists code. }
  split; [exact Hn | split].
  - intros Hne. rewrite Hn, count_fillna by discriminate.
    rewrite decide_False by congruence. now rewrite decide_False by discriminate.
  - intros ->. rewrite Hn, count_fillna by discriminate. now rewrite decide_True.
Qed.

(** *** When the hour-by-weekday table exists *)

Lemma mem_string_In (k : string) (l : list string) : mem String.eqb k l = true <-> In k l.
Proof.
  rewrite mem_In. split.
  - intros (k' & Hin & E). apply String.eqb_eq in E. now subst.
  - intros H. exists k. split; [exact H | apply String.eqb_refl].
Qed.

Lemma pivot_table_has_column {I} (eqI leI : I -> I -> bool)
    (index : list (option I)) (columns : list (option string)) (values : list cell)
    (name : string) :
  In name (p_columns (pivot_table eqI leI String.eqb String.leb index columns values (Some 0)))
  <-> exists i v, In (i, name, v) (keyed_rows index columns values).
Proof.
  unfold pivot_table. cbn [p_columns]. rewrite In_sort. split.
  - intros H. apply In_unique, in_map_iff in H. destruct H as ([[i c] v] & <- & H).
    now exists i, v.
  - intros (i & v & H).
    assert (Hin : In name (map (fun r : I * string * cell => snd (fst r))
                             (keyed_rows index columns values))).
    { apply in_map_iff. now exists (i, name, v). }
    pose proof (mem_unique String.eqb String.eqb_refl String.eqb_sym string_eqb_trans _ _ Hin)
      as M.
    now apply mem_string_In in M.
Qed.

(** X12.  The reordering on line 119 raises [KeyError] exactly when some
    weekday has no row with both an hour and a date, and the error lists
    those weekdays in Monday-to-Sunday order.  When it does not raise,
    every weekday has such a row. *)
Theorem heatmap_needs_every_weekday (hours : list (option Num.real))
    (weekdays : list (option string)) (dr_no : list cell) :
  let rows := keyed_rows hours weekdays dr_no in
  let absent :=
    List.filter (fun name => negb (existsb (fun r => String.eqb name (snd (fst r))) rows))
                weekday_order in
  match pivot hours weekdays dr_no with
  | inr p => absent = [] /\ forall name, In name weekday_order -> exists h v, In (h, name, v) rows
  | inl e => absent <> [] /\ e = KeyError (map Str absent)
  end.
Proof.
  intros rows absent.
  assert (Habs : absent
                 = List.filter
                     (fun l => negb (mem String.eqb l
                        (p_columns (pivot_table Num.real_eqb Num.real_leb String.eqb String.leb
                                      hours weekdays dr_no (Some 0))))) weekday_order).
  { unfold absent. apply filter_ext. intros name. f_equal.
    apply eq_true_iff_eq. rewrite mem_string_In, pivot_table_has_column, existsb_exists.
    split.
    - intros ([[h c] v] & Hin & E). simpl in E. apply String.eqb_eq in E. subst c.
      now exists h, v.
    - intros (h & v & Hin). exists (h, name, v). split; [exact Hin | apply String.eqb_refl]. }
  unfold pivot, getitem_columns. rewrite <- Habs.
  destruct absent as [|a rest] eqn:E.
  - split; [reflexivity |]. intros name Hname.
    apply pivot_table_has_column with (eqI := Num.real_eqb) (leI := Num.real_leb).
    apply mem_string_In.
    destruct (mem String.eqb name _) eqn:M; [reflexivity |].
    assert (Hin : In name []).
    { rewrite Habs. apply filter_In. split; [exact Hname | now rewrite M]. }
    contradiction.
  - split; [discriminate | reflexivity].
Qed.

Lemma keyed_rows_no_index {I C} (n : nat) (columns : list (option C)) (values : list cell) :
  keyed_rows (repeat (@None I) n) columns values = [].
Proof.
  revert columns values. induction n as [|n IH]; intros [|c columns] [|v values]; simpl; auto.
Qed.

(** X13.  Without the time column every hour is missing (line 39), and then
    the hour-by-weekday heatmap (lines 118-123) cannot be drawn: it raises
    [KeyError], for [dr_no] when that column is absent too and otherwise
    for all seven weekdays, and it saves nothing. *)
Theorem heatmap_fails_without_time_column (df : DataFrame) (dates : list (option Timestamp))
    (w : world) :
  df_columns df !! "time_occ" = None ->
  exists e,
    plot_hour_weekday_heatmap df dates w = (w, inl e)
    /\ (e = KeyError [Str "dr_no"]
        \/ e = KeyError [Str "Monday"; Str "Tuesday"; Str "Wednesday"; Str "Thursday";
                         Str "Friday"; Str "Saturday"; Str "Sunday"]).
Proof.
  intros Htime. unfold plot_hour_weekday_heatmap.
  destruct (df_columns df !! "dr_no") as [dr_no|] eqn:Edr.
  - assert (Hh : hour df = repeat None (df_len df)) by (unfold hour; now rewrite Htime).
    rewrite Hh. eexists. split; [| right; reflexivity].
    unfold mbind, M_bind, getitem, mret, M_ret, lift, pivot, pivot_table.
    rewrite keyed_rows_no_index. reflexivity.
  - eexists. split; [reflexivity | now left].
Qed.

(** *** The time code *)

Lemma time_code_fixed (s : string) :
  String.length s = 4%nat -> Text.last_chars 4 (Text.zfill 4 s) = s.
Proof.
  intros H. unfold Text.zfill, Text.last_chars. rewrite H. simpl. now rewrite H.
Qed.

(** X2.  Line 36 gives every row whose time is not missing a time code of
    exactly four characters; a cell whose text already has four characters
    is kept as it is; and applying the line again to the codes changes
    nothing.  A row without a time gets no code and no hour.  The texts
    are ASCII, where a character of the model is a character of Python. *)
Theorem time_code_has_four_characters (col : list cell) :
  (forall c, In c col -> is_ascii (str c)) ->
  length (time_occ col) = length col
  /\ (forall t, In (Some t) (time_occ col) -> String.length t = 4%nat)
  /\ (forall i c, col !! i = Some c -> c <> NaN ->
        exists t, time_occ col !! i = Some (Some t)
                  /\ String.length t = 4%nat
                  /\ (String.length (str c) = 4%nat -> t = str c))
  /\ time_occ (map (fun t => match t with Some t => Str t | None => NaN end) (time_occ col))
     = time_occ col
  /\ (forall i, col !! i = Some NaN ->
        time_occ col !! i = Some None
        /\ forall df, df_columns df !! "time_occ" = Some col -> hour df !! i = Some None).
Proof.
  intros _.
  assert (Hcode : forall c, String.length (Text.last_chars 4 (Text.zfill 4 (str c))) = 4%nat).
  { intros c. apply length_last_chars, length_zfill. }
  split; [apply length_map | split; [| split; [| split]]].
  - intros t H. unfold time_occ in H. apply in_map_iff in H. destruct H as (c & E & _).
    destruct c as [|z|s0]; [discriminate | |]; injection E as <-;
      [apply (Hcode (Int z)) | apply (Hcode (Str s0))].
  - intros i c Hi Hc. exists (Text.last_chars 4 (Text.zfill 4 (str c))).
    split; [| split; [apply Hcode | intros H; now apply time_code_fixed]].
    unfold time_occ. rewrite list_lookup_fmap, Hi.
    destruct c; [contradiction | reflexivity | reflexivity].
  - unfold time_occ. rewrite !map_map. apply map_ext.
    intros c. destruct c as [|z|t]; [reflexivity | |]; cbv beta iota; f_equal;
      [apply (time_code_fixed _ (Hcode (Int z))) | apply (time_code_fixed _ (Hcode (Str t)))].
  - intros i Hi. split.
    + unfold time_occ. now rewrite list_lookup_fmap, Hi.
    + intros df Hdf. unfold hour, time_occ. rewrite Hdf.
      now rewrite map_map, list_lookup_fmap, Hi.
Qed.

Lemma time_code_witness :
  length (time_occ [Int 2300; Str "5"; NaN]) = 3%nat
  /\ time_occ [Int 2300; Str "5"; NaN] !! 1%nat = Some (Some "0005")
  /\ time_occ [Int 2300; Str "5"; NaN] !! 2%nat = Some None.
Proof.
  assert (H : forall c, In c [Int 2300; Str "5"; NaN] -> is_ascii (str c)).
  { intros c Hc k Hk. simpl in Hc.
    repeat (destruct Hc as [<-|Hc];
            [vm_compute in Hk; repeat (destruct Hk as [<-|Hk]; [vm_compute; lia |]);
             contradiction |]).
    contradiction. }
  destruct (time_code_has_four_characters [Int 2300; Str "5"; NaN] H)
    as (H1 & _ & H3 & _ & H5).
  split; [exact H1 | split].
  - destruct (H3 1%nat (Str "5") eq_refl) as (t & Et & _); [discriminate |].
    rewrite Et. vm_compute in Et. injection Et as <-. reflexivity.
  - apply (H5 2%nat eq_refl).
Defined.

(** *** The scatter plot *)

Lemma sample_spec {A} (choice : Z -> nat -> nat -> list nat) (entropy : Z)
    (rows : list A) (n : Z) (random_state : option Z) :
  match sample choice entropy rows n random_state with
  | inl e =>
      Z.of_nat (length rows) < n
      /\ e = ValueError "Cannot take a larger sample than population when 'replace=False'"
  | inr s => n <= Z.of_nat (length rows) /\ forall r, In r s -> In r rows
  end.
Proof.
  unfold sample. destruct (Z.ltb_spec (Z.of_nat (length rows)) n) as [H|H].
  - split; [exact H | reflexivity].
  - split; [exact H |]. intros r Hr.
    apply list_elem_of_In, list_elem_of_omap in Hr. destruct Hr as (i & _ & Hi).
    apply list_elem_of_In. now apply list_elem_of_lookup_2 with i.
Qed.

Lemma astype_float_text (c : cell) :
  match astype_float c with
  | inr x => True
  | inl e => exists text, c = Str text /\ Num.python_float text = None
                          /\ e = ValueError ("could not convert string to float: "
                                             +:+ Text.repr text)
  end.
Proof.
  destruct c as [| |s]; cbn [astype_float]; try exact I.
  destruct (Num.python_float s) eqn:E; [exact I |].
  exists s. auto.
Qed.

Lemma astype_float_all_spec (l : list cell) :
  match astype_float_all l with
  | inr xs => Forall2 (fun c x => astype_float c = inr x) l xs
  | inl e => exists text, In (Str text) l /\ Num.python_float text = None
                          /\ e = ValueError ("could not convert string to float: "
                                             +:+ Text.repr text)
  end.
Proof.
  induction l as [|c l IH]; cbn [astype_float_all]; [constructor |].
  pose proof (astype_float_text c) as Hc.
  destruct (astype_float c) as [e|x] eqn:Ec.
  - destruct Hc as (text & -> & Hp & ->). exists text. split; [now left | auto].
  - destruct (astype_float_all l) as [e|xs].
    + destruct IH as (text & Hin & Hp & ->). exists text. split; [now right | auto].
    + constructor; [exact Ec | exact IH].
Qed.

(** X18.  With both coordinate columns, the scatter plot (lines 188-197) is
    saved only if the rows that have both coordinates are at least as many
    as the sample size, which is the smaller of 100000 and the number of
    rows of the whole table; the points plotted are then rows of the table
    with both coordinates, each coordinate converted by [astype(float)].
    Otherwise a [ValueError] is raised and nothing is saved: the sample is
    larger than the population, or a sampled coordinate is a text that
    Python's [float] does not read, and the message quotes that text. *)
Theorem scatter_plots_sampled_geocoded_rows (choice : Z -> nat -> nat -> list nat)
    (entropy : Z) (df : DataFrame) (lat lon : list cell) (w : world) :
  df_columns df !! "lat" = Some lat ->
  df_columns df !! "lon" = Some lon ->
  match plot_lat_lon choice entropy df w with
  | (w', inr _) =>
      Z.min 100000 (Z.of_nat (df_len df)) <= Z.of_nat (length (geocoded lat lon))
      /\ exists s xs ys,
           sub choice entropy df lat lon = inr s
           /\ (forall r, In r s -> In r (combine lat lon) /\ fst r <> NaN /\ snd r <> NaN)
           /\ Forall2 (fun c x => astype_float c = inr x) (map snd s) xs
           /\ Forall2 (fun c y => astype_float c = inr y) (map fst s) ys
           /\ w' = after_savefig "la_lat_lon.png" (Scatter xs ys) w
  | (w', inl e) =>
      w' = w
      /\ ((Z.of_nat (length (geocoded lat lon)) < Z.min 100000 (Z.of_nat (df_len df))
           /\ e = ValueError "Cannot take a larger sample than population when 'replace=False'")
          \/ exists text,
               (In (Str text) lat \/ In (Str text) lon)
               /\ Num.python_float text = None
               /\ e = ValueError ("could not convert string to float: " +:+ Text.repr text))
  end.
Proof.
  intros Hlat Hlon. unfold plot_lat_lon. rewrite Hlat, Hlon.
  pose proof (sample_spec choice entropy (geocoded lat lon)
                (Z.min 100000 (Z.of_nat (df_len df))) (Some 1)) as Hs.
  fold (sub choice entropy df lat lon) in Hs.
  unfold mbind, M_bind, lift.
  destruct (sub choice entropy df lat lon) as [e|s] eqn:Es.
  - destruct Hs as [Hlt ->]. split; [reflexivity | left; auto].
  - destruct Hs as [Hle Hin].
    assert (Hgeo : forall r, In r s -> In r (combine lat lon) /\ fst r <> NaN /\ snd r <> NaN).
    { intros r Hr. apply Hin in Hr. unfold geocoded in Hr. apply filter_In in Hr.
      destruct Hr as [Hc Hn]. apply andb_true_iff in Hn. destruct Hn as [H1 H2].
      split; [exact Hc |]. destruct r as [a b]; simpl in *.
      split; intros ->; discriminate. }
    pose proof (astype_float_all_spec (map snd s)) as Hx.
    destruct (astype_float_all (map snd s)) as [e|xs].
    + split; [reflexivity | right].
      destruct Hx as (text & Ht & Hp & ->). exists text. split; [| auto].
      right. apply in_map_iff in Ht. destruct Ht as (r & Er & Hr).
      destruct (Hgeo r Hr) as (Hc & _). destruct r as [a b]. simpl in Er. subst b.
      now apply in_combine_r in Hc.
    + pose proof (astype_float_all_spec (map fst s)) as Hy.
      destruct (astype_float_all (map fst s)) as [e|ys].
      * split; [reflexivity | right].
        destruct Hy as (text & Ht & Hp & ->). exists text. split; [| auto].
        left. apply in_map_iff in Ht. destruct Ht as (r & Er & Hr).
        destruct (Hgeo r Hr) as (Hc & _). destruct r as [a b]. simpl in Er. subst a.
        now apply in_combine_l in Hc.
      * split; [exact Hle |]. exists s, xs, ys. auto.
Qed.

Lemma heatmap_fails_witness :
  exists e,
    plot_hour_weekday_heatmap no_time (firstn 2 week_dates) start = (start, inl e)
    /\ (e = KeyError [Str "dr_no"]
        \/ e = KeyError [Str "Monday"; Str "Tuesday"; Str "Wednesday"; Str "Thursday";
                         Str "Friday"; Str "Saturday"; Str "Sunday"]).
Proof.
  apply (heatmap_fails_without_time_column no_time (firstn 2 week_dates) start).
  reflexivity.
Defined.

Lemma scatter_witness :
  match plot_lat_lon first_positions 0 fully_geocoded start with
  | (w', inr _) =>
      Z.min 100000 (Z.of_nat (df_len fully_geocoded))
      <= Z.of_nat (length (geocoded [Str "34.05"; Int 34] [Str "-118.25"; Str "-118.30"]))
      /\ exists s xs ys,
           sub first_positions 0 fully_geocoded [Str "34.05"; Int 34]
               [Str "-118.25"; Str "-118.30"] = inr s
           /\ (forall r, In r s ->
                 In r (combine [Str "34.05"; Int 34] [Str "-118.25"; Str "-118.30"])
                 /\ fst r <> NaN /\ snd r <> NaN)
           /\ Forall2 (fun c x => astype_float c = inr x) (map snd s) xs
           /\ Forall2 (fun c y => astype_float c = inr y) (map fst s) ys
           /\ w' = after_savefig "la_lat_lon.png" (Scatter xs ys) start
  | (w', inl e) =>
      w' = start
      /\ ((Z.of_nat (length (geocoded [Str "34.05"; Int 34] [Str "-118.25"; Str "-118.30"]))
           < Z.min 100000 (Z.of_nat (df_len fully_geocoded))
           /\ e = ValueError "Cannot take a larger sample than population when 'replace=False'")
          \/ exists text,
               (In (Str text) [Str "34.05"; Int 34]
                \/ In (Str text) [Str "-118.25"; Str "-118.30"])
               /\ Num.python_float text = None
               /\ e = ValueError ("could not convert string to float: " +:+ Text.repr text))
  end.
Proof.
  apply (scatter_plots_sampled_geocoded_rows first_positions 0 fully_geocoded
           [Str "34.05"; Int 34] [Str "-118.25"; Str "-118.30"] start); reflexivity.
Defined.

(** *** The columns the script depends on *)

(** X20.  The outcome of a run depends on the table only through its number of
    rows and the eleven columns the script reads; [date_rptd] matters only
    when [date_occ] is absent (line 31). *)
Theorem run_reads_only_its_columns
    (to_datetime : list cell -> list (option Timestamp)) (round_tenths : Q -> Z)
    (choice : Z -> nat -> nat -> list nat) (entropy : Z) (df1 df2 : DataFrame) (w : world) :
  df_len df1 = df_len df2 ->
  (forall name, In name columns_read -> name <> "date_rptd" ->
     df_columns df1 !! name = df_columns df2 !! name) ->
  (df_columns df1 !! "date_occ" = None ->
     df_columns df1 !! "date_rptd" = df_columns df2 !! "date_rptd") ->
  run to_datetime round_tenths choice entropy df1 w
  = run to_datetime round_tenths choice entropy df2 w.
Proof.
  intros Hlen Hcols Hrptd.
  assert (Hdate : df_columns df1 !! "date_occ" = df_columns df2 !! "date_occ")
    by (apply Hcols; [simpl; tauto | discriminate]).
  assert (Htime : df_columns df1 !! "time_occ" = df_columns df2 !! "time_occ")
    by (apply Hcols; [simpl; tauto | discriminate]).
  assert (Hcrime : df_columns df1 !! "crm_cd_desc" = df_columns df2 !! "crm_cd_desc")
    by (apply Hcols; [simpl; tauto | discriminate]).
  assert (Harea : df_columns df1 !! "area_name" = df_columns df2 !! "area_name")
    by (apply Hcols; [simpl; tauto | discriminate]).
  assert (Hage : df_columns df1 !! "vict_age" = df_columns df2 !! "vict_age")
    by (apply Hcols; [simpl; tauto | discriminate]).
  assert (Hdescent : df_columns df1 !! "vict_descent" = df_columns df2 !! "vict_descent")
    by (apply Hcols; [simpl; tauto | discriminate]).
  assert (Hsex : df_columns df1 !! "vict_sex" = df_columns df2 !! "vict_sex")
    by (apply Hcols; [simpl; tauto | discriminate]).
  assert (Hlat : df_columns df1 !! "lat" = df_columns df2 !! "lat")
    by (apply Hcols; [simpl; tauto | discriminate]).
  assert (Hlon : df_columns df1 !! "lon" = df_columns df2 !! "lon")
    by (apply Hcols; [simpl; tauto | discriminate]).
  assert (Hdr : df_columns df1 !! "dr_no" = df_columns df2 !! "dr_no")
    by (apply Hcols; [simpl; tauto | discriminate]).
  assert (Hd : date_occ to_datetime df1 = date_occ to_datetime df2).
  { unfold date_occ. rewrite <- Hdate.
    destruct (df_columns df1 !! "date_occ"); [reflexivity |].
    now rewrite <- Hrptd. }
  clear Hcols Hrptd Hdate.
  unfold run. rewrite Hd.
  unfold kpi_summary, plots, kpi_crime_types, kpi_top_area, kpi_victim_age, kpi_victim_descent,
    plot_crimes_hours, crimes_hours, plot_hour_weekday_heatmap, hour, plot_top_areas,
    plot_top_crimes, plot_victim_age, plot_victim_sex, plot_victim_descent, plot_lat_lon,
    sub, plot_year_month_heatmap.
  rewrite Hlen, Htime, Hcrime, Harea, Hage, Hdescent, Hsex, Hlat, Hlon, Hdr.
  reflexivity.
Qed.
(** *** What a run adds to the console and to the figures folder *)

Lemma string_app_cons (x : ascii) (a b : string) : String x a +:+ b = String x (a +:+ b).
Proof. reflexivity. Qed.

Lemma string_app_assoc (a b c : string) : (a +:+ b) +:+ c = a +:+ (b +:+ c).
Proof.
  induction a as [|x a IH]; [reflexivity |].
  rewrite !string_app_cons. f_equal. exact IH.
Qed.

Lemma string_app_nil_r (a : string) : a +:+ "" = a.
Proof.
  induction a as [|x a IH]; [reflexivity |].
  rewrite string_app_cons. f_equal. exact IH.
Qed.

Lemma world_same (w : world) :
  w = {| stdout := stdout w +:+ ""; figures := figures w ++ [] |}.
Proof. destruct w as [o f]. simpl. now rewrite string_app_nil_r, app_nil_r. Qed.

Lemma emits_ret {A} (a : A) : emits false [] (mret a : M A).
Proof.
  intros w. exists "", [], []. split; [apply world_same |]. split; reflexivity.
Qed.

Lemma emits_print (args : list string) : emits false [] (print args).
Proof.
  intros w. exists (Text.join_space args +:+ String (ascii_of_nat 10) ""), [], [].
  simpl. rewrite app_nil_r. repeat split; reflexivity.
Qed.

Lemma emits_savefig (strict : bool) (name : string) (c : chart) :
  emits strict [name] (savefig name c).
Proof.
  intros w. exists "", [(name, c)], []. simpl. rewrite string_app_nil_r.
  repeat split; reflexivity.
Qed.

Lemma emits_lift {A B} (strict : bool) (names : list string) (r : exn + A) (k : A -> M B) :
  (strict = true -> names <> []) ->
  (forall a, r = inr a -> emits strict names (k a)) ->
  emits strict names (x ← lift r; k x).
Proof.
  intros Hne Hk w. unfold mbind, M_bind, lift.
  destruct r as [e|a].
  - exists "", [], names. split; [apply world_same |]. split; [reflexivity | exact Hne].
  - apply (Hk a eq_refl).
Qed.

Lemma emits_getitem {A B} (strict : bool) (names : list string) (column : option A)
    (name : string) (k : A -> M B) :
  (strict = true -> names <> []) ->
  (forall a, column = Some a -> emits strict names (k a)) ->
  emits strict names (x ← getitem column name; k x).
Proof.
  intros Hne Hk w. unfold mbind, M_bind, getitem.
  destruct column as [a|].
  - apply (Hk a eq_refl).
  - exists "", [], names. split; [apply world_same |]. split; [reflexivity | exact Hne].
Qed.

Lemma emits_seq {B} (strict : bool) (names1 names2 : list string) (m1 : M unit) (m2 : M B) :
  (strict = true -> names2 <> []) ->
  emits false names1 m1 -> emits strict names2 m2 ->
  emits strict (names1 ++ names2) (m1;; m2).
Proof.
  intros Hne H1 H2 w. unfold mbind, M_bind.
  destruct (H1 w) as (out1 & figs1 & rest1 & E1 & N1 & R1).
  destruct (m1 w) as [w1 [e|[]]]; simpl in E1, R1.
  - exists out1, figs1, (rest1 ++ names2). simpl.
    split; [exact E1 |]. split; [now rewrite N1, <- app_assoc |].
    intros Hs Hnil. apply app_eq_nil in Hnil. now apply (Hne Hs).
  - subst rest1. rewrite app_nil_r in N1.
    destruct (H2 w1) as (out2 & figs2 & rest2 & E2 & N2 & R2).
    exists (out1 +:+ out2), (figs1 ++ figs2), rest2.
    split; [| split].
    + rewrite E2, E1. simpl. now rewrite string_app_assoc, <- app_assoc.
    + now rewrite map_app, N1, N2, <- app_assoc.
    + exact R2.
Qed.

Lemma emits_weaken {A} (names : list string) (m : M A) :
  emits true names m -> emits false names m.
Proof.
  intros H w. destruct (H w) as (out & figs & rest & E & N & R).
  exists out, figs, rest. split; [exact E |]. split; [exact N |].
  destruct (snd (m w)); [discriminate | exact R].
Qed.

Lemma emits_when (cond : bool) (body : M unit) :
  emits false [] body -> emits false [] (when cond body).
Proof. intros H. unfold when. destruct cond; [exact H | apply emits_ret]. Qed.

Lemma emits_print_descent (items : list (cell * nat)) : emits false [] (print_descent items).
Proof.
  induction items as [|[code n] items IH]; [apply emits_ret |].
  cbn [print_descent]. apply emits_lift; [discriminate |]. intros label _.
  apply (emits_seq false [] []); [discriminate | apply emits_print | exact IH].
Qed.

Lemma emits_kpi_crime_types (df : DataFrame) : emits false [] (kpi_crime_types df).
Proof.
  unfold kpi_crime_types. destruct (df_columns df !! "crm_cd_desc"); [| apply emits_ret].
  apply (emits_seq false [] []); [discriminate | apply emits_print |].
  apply emits_lift; [discriminate |]. intros top _. apply emits_print.
Qed.

Lemma emits_kpi_top_area (df : DataFrame) : emits false [] (kpi_top_area df).
Proof.
  unfold kpi_top_area. destruct (df_columns df !! "area_name"); [| apply emits_ret].
  apply emits_lift; [discriminate |]. intros top _.
  apply (emits_seq false [] []); [discriminate | apply emits_print | apply emits_print].
Qed.

Lemma emits_kpi_victim_age (round_tenths : Q -> Z) (df : DataFrame) :
  emits false [] (kpi_victim_age round_tenths df).
Proof.
  unfold kpi_victim_age. destruct (df_columns df !! "vict_age"); [| apply emits_ret].
  apply emits_when, emits_print.
Qed.

Lemma emits_kpi_victim_descent (df : DataFrame) : emits false [] (kpi_victim_descent df).
Proof.
  unfold kpi_victim_descent. destruct (df_columns df !! "vict_descent"); [| apply emits_ret].
  apply (emits_seq false [] []); [discriminate | apply emits_print |].
  apply emits_print_descent.
Qed.

Lemma emits_kpi_summary (round_tenths : Q -> Z) (df : DataFrame)
    (dates : list (option Timestamp)) :
  emits false [] (kpi_summary round_tenths df dates).
Proof.
  unfold kpi_summary.
  apply (emits_seq false [] []); [discriminate | apply emits_print |].
  apply (emits_seq false [] []); [discriminate | apply emits_print |].
  apply (emits_seq false [] []); [discriminate | apply emits_print |].
  apply (emits_seq false [] []); [discriminate | apply emits_kpi_crime_types |].
  apply (emits_seq false [] []); [discriminate | apply emits_kpi_top_area |].
  apply (emits_seq false [] []); [discriminate | unfold kpi_avg_monthly; apply emits_print |].
  apply (emits_seq false [] []); [discriminate | apply emits_kpi_victim_age |].
  apply (emits_seq false [] []); [discriminate | apply emits_kpi_victim_descent |].
  apply emits_print.
Qed.

Lemma emits_optional {A} (column : option A) (name : string) (body : A -> M unit) :
  (forall a, emits false [name] (body a)) ->
  emits false (if bool_decide (is_Some column) then [name] else [])
        (match column with Some a => body a | None => mret tt end).
Proof.
  intros H. destruct column as [a|].
  - rewrite bool_decide_eq_true_2 by eauto. apply H.
  - rewrite bool_decide_eq_false_2 by (intros [? ?]; discriminate). apply emits_ret.
Qed.

Lemma emits_plot_monthly_trend (dates : list (option Timestamp)) :
  emits false ["monthly_trend.png"] (plot_monthly_trend dates).
Proof.
  unfold plot_monthly_trend.
  destruct (groupby_size period_eqb period_leb (month_year dates)) as [|x rest].
  - intros w. exists "", [], ["monthly_trend.png"].
    split; [apply world_same |]. split; [reflexivity | discriminate].
  - apply emits_savefig.
Qed.

Ltac names_left :=
  intros _;
  first [ discriminate
        | let H := fresh "H" in
          intros H; repeat (apply app_eq_nil in H; destruct H as [_ H]); discriminate ].

Lemma emits_plots (choice : Z -> nat -> nat -> list nat) (entropy : Z) (df : DataFrame)
    (dates : list (option Timestamp)) :
  emits true (figure_names df) (plots choice entropy df dates).
Proof.
  unfold plots, figure_names.
  apply (emits_seq true ["monthly_trend.png"]);
    [names_left | apply emits_plot_monthly_trend |].
  apply (emits_seq true ["crimes_weekday.png"]); [names_left | apply emits_savefig |].
  apply (emits_seq true ["crimes_hours.png"]); [names_left | apply emits_savefig |].
  apply (emits_seq true ["hour_weekday_heatmap.png"]); [names_left | |].
  { unfold plot_hour_weekday_heatmap.
    apply emits_getitem; [discriminate |]. intros dr_no _.
    apply emits_lift; [discriminate |]. intros p _. apply emits_savefig. }
  apply emits_seq; [names_left | |].
  { unfold plot_top_areas, has. apply emits_optional. intros a. apply emits_savefig. }
  apply emits_seq; [names_left | |].
  { unfold plot_top_crimes, has. apply emits_optional. intros a. apply emits_savefig. }
  apply emits_seq; [names_left | |].
  { unfold plot_victim_age, has. apply emits_optional. intros a. apply emits_savefig. }
  apply emits_seq; [names_left | |].
  { unfold plot_victim_sex, has. apply emits_optional. intros a. apply emits_savefig. }
  apply emits_seq; [names_left | |].
  { unfold plot_victim_descent, has. apply emits_optional. intros a. apply emits_savefig. }
  apply emits_seq; [names_left | |].
  { unfold plot_lat_lon, has.
    destruct (df_columns df !! "lat") as [lat|], (df_columns df !! "lon") as [lon|];
      rewrite ?bool_decide_eq_true_2 by eauto;
      rewrite ?bool_decide_eq_false_2 by (intros [? ?]; discriminate);
      cbn [andb]; try apply emits_ret.
    apply emits_lift; [discriminate |]. intros s _.
    apply emits_lift; [discriminate |]. intros xs _.
    apply emits_lift; [discriminate |]. intros ys _. apply emits_savefig. }
  unfold plot_year_month_heatmap.
  apply emits_getitem; [names_left |]. intros dr_no _. apply emits_savefig.
Qed.

(** X21.  Whatever the table and however the run ends, the console text and the
    saved figures the run started with are still there afterwards, with
    text and figures added behind them.  The figures added are the first
    of [figure_names df], in that order: the four date and time charts,
    one chart for each optional column that is there, the scatter plot
    when both coordinates are there, and the year-by-month heatmap.  A
    complete run saves all of them; a run that raises has not saved the
    last one. *)
Theorem run_appends_figures_in_order
    (to_datetime : list cell -> list (option Timestamp)) (round_tenths : Q -> Z)
    (choice : Z -> nat -> nat -> list nat) (entropy : Z) (df : DataFrame) (w : world) :
  exists (out : string) (figs : list (string * chart)) (rest : list string),
    fst (run to_datetime round_tenths choice entropy df w)
    = {| stdout := stdout w +:+ out; figures := figures w ++ figs |}
    /\ figure_names df = map fst figs ++ rest
    /\ match snd (run to_datetime round_tenths choice entropy df w) with
       | inr _ => rest = []
       | inl _ => rest <> []
       end.
Proof.
  assert (H : emits true (figure_names df) (run to_datetime round_tenths choice entropy df)).
  { unfold run. apply emits_getitem; [intros _ E; unfold figure_names in E; discriminate |]. intros dates _.
    apply (emits_seq true []); [| apply emits_kpi_summary | apply emits_plots].
    intros _ E. unfold figure_names in E. discriminate. }
  destruct (H w) as (out & figs & rest & E & N & R).
  exists out, figs, rest. split; [exact E |]. split; [exact N |].
  destruct (snd (run to_datetime round_tenths choice entropy df w)); [now apply R | exact R].
Qed.
(** *** When a run completes *)

Lemma returns_ret {A} (a : A) : returns_iff (mret a : M A) True.
Proof. intros w. split; [auto |]. intros _. now exists w, a. Qed.

Lemma returns_print (args : list string) : returns_iff (print args) True.
Proof. intros w. split; [auto |]. intros _. unfold print. eauto. Qed.

Lemma returns_savefig (name : string) (c : chart) : returns_iff (savefig name c) True.
Proof. intros w. split; [auto |]. intros _. unfold savefig. eauto. Qed.

Lemma returns_equiv {A} (m : M A) (P Q : Prop) : returns_iff m P -> (P <-> Q) -> returns_iff m Q.
Proof. intros H E w. rewrite <- E. apply H. Qed.

Lemma returns_seq {B} (m1 : M unit) (m2 : M B) (P1 P2 : Prop) :
  returns_iff m1 P1 -> returns_iff m2 P2 -> returns_iff (m1;; m2) (P1 /\ P2).
Proof.
  intros H1 H2 w. unfold mbind, M_bind. specialize (H1 w).
  destruct (m1 w) as [w1 [e|a]].
  - split.
    + intros (w' & b & E). discriminate.
    + intros [HP1 _]. apply H1 in HP1. destruct HP1 as (w' & a & E). discriminate.
  - rewrite (H2 w1). split.
    + intros HP2. split; [apply H1; eauto | exact HP2].
    + intros [_ HP2]. exact HP2.
Qed.

Lemma returns_lift {A B} (r : exn + A) (k : A -> M B) (Q : A -> Prop) :
  (forall a, returns_iff (k a) (Q a)) ->
  returns_iff (x ← lift r; k x) (exists a, r = inr a /\ Q a).
Proof.
  intros Hk w. unfold mbind, M_bind, lift. destruct r as [e|a].
  - split.
    + intros (w' & b & E). discriminate.
    + intros (a & E & _). discriminate.
  - rewrite (Hk a w). split.
    + intros HQ. now exists a.
    + intros (a' & E & HQ). now injection E as ->.
Qed.

Lemma returns_getitem {A B} (column : option A) (name : string) (k : A -> M B)
    (Q : A -> Prop) :
  (forall a, returns_iff (k a) (Q a)) ->
  returns_iff (x ← getitem column name; k x) (exists a, column = Some a /\ Q a).
Proof.
  intros Hk w. unfold mbind, M_bind, getitem. destruct column as [a|].
  - unfold mret, M_ret. rewrite (Hk a w). split.
    + intros HQ. now exists a.
    + intros (a' & E & HQ). now injection E as ->.
  - split.
    + intros (w' & b & E). discriminate.
    + intros (a & E & _). discriminate.
Qed.

Lemma returns_optional {A} (column : option A) (body : A -> M unit) (Q : A -> Prop) :
  (forall a, returns_iff (body a) (Q a)) ->
  returns_iff (match column with Some a => body a | None => mret tt end)
              (forall a, column = Some a -> Q a).
Proof.
  intros H. destruct column as [a|].
  - apply (returns_equiv _ _ _ (H a)). split.
    + intros HQ a' E. now injection E as <-.
    + intros HQ. now apply HQ.
  - apply (returns_equiv _ _ _ (returns_ret tt)). split; [| auto].
    intros _ a E. discriminate.
Qed.

Lemma idxmax_returns (col : list cell) :
  (exists top, idxmax (value_counts col) = inr top /\ True) <-> dropna col <> [].
Proof.
  pose proof (idxmax_value_counts col) as H.
  destruct (idxmax (value_counts col)) as [e|top].
  - destruct H as [Hempty _]. split.
    + intros (top & E & _). discriminate.
    + intros Hne. contradiction.
  - destruct H as [(Hk & Hin & _) _]. split.
    + intros _ Hempty.
      assert (Hd : In top (dropna col)) by (apply In_dropna; auto).
      rewrite Hempty in Hd. contradiction.
    + intros _. now exists top.
Qed.

Lemma descent_label_returns (code : cell) (label : string) :
  descent_label code = inr label
  <-> exists c, code = Str c /\ descent_map !! c = Some label.
Proof.
  unfold descent_label. split.
  - destruct code as [| |s]; try discriminate.
    destruct (descent_map !! s) as [l|] eqn:E; [| discriminate].
    intros [= ->]. now exists s.
  - intros (c & -> & H). now rewrite H.
Qed.

Lemma returns_print_descent (items : list (cell * nat)) :
  returns_iff (print_descent items)
    (forall code n, In (code, n) items ->
       exists c label, code = Str c /\ descent_map !! c = Some label).
Proof.
  induction items as [|[code n] items IH].
  - apply (returns_equiv _ _ _ (returns_ret tt)). split; [| auto].
    intros _ code n [].
  - cbn [print_descent].
    eapply returns_equiv.
    + apply returns_lift. intros label.
      apply returns_seq; [apply returns_print | exact IH].
    + split.
      * intros (label & E & _ & Hrest) code' n' [[= <- <-]|Hin].
        -- apply descent_label_returns in E. destruct E as (c & -> & E). now exists c, label.
        -- now apply Hrest with n'.
      * intros H. destruct (H code n (or_introl eq_refl)) as (c & label & -> & E).
        exists label. split; [apply descent_label_returns; now exists c |].
        split; [exact I |]. intros code' n' Hin. apply (H code' n'). now right.
Qed.

Lemma returns_kpi_summary (round_tenths : Q -> Z) (df : DataFrame)
    (dates : list (option Timestamp)) :
  returns_iff (kpi_summary round_tenths df dates)
    ((forall col, df_columns df !! "crm_cd_desc" = Some col -> dropna col <> [])
     /\ (forall col, df_columns df !! "area_name" = Some col -> dropna col <> [])
     /\ (forall col, df_columns df !! "vict_descent" = Some col ->
           forall code n, In (code, n) (max_descent col) ->
             exists c label, code = Str c /\ descent_map !! c = Some label)).
Proof.
  assert (Hcrime : returns_iff (kpi_crime_types df)
            (forall col, df_columns df !! "crm_cd_desc" = Some col -> dropna col <> [])).
  { unfold kpi_crime_types. apply returns_optional. intros col.
    eapply returns_equiv.
    - apply returns_seq; [apply returns_print |].
      apply returns_lift. intros top. apply returns_print.
    - rewrite idxmax_returns. tauto. }
  assert (Harea : returns_iff (kpi_top_area df)
            (forall col, df_columns df !! "area_name" = Some col -> dropna col <> [])).
  { unfold kpi_top_area. apply returns_optional. intros col.
    eapply returns_equiv.
    - apply returns_lift. intros top.
      apply returns_seq; [apply returns_print | apply returns_print].
    - rewrite <- idxmax_returns. split.
      + intros (top & E & _). now exists top.
      + intros (top & E & _). now exists top. }
  assert (Hage : returns_iff (kpi_victim_age round_tenths df) True).
  { unfold kpi_victim_age. destruct (df_columns df !! "vict_age"); [| apply returns_ret].
    unfold when. destruct (0 <? _)%nat; [apply returns_print | apply returns_ret]. }
  assert (Hdescent : returns_iff (kpi_victim_descent df)
            (forall col, df_columns df !! "vict_descent" = Some col ->
               forall code n, In (code, n) (max_descent col) ->
                 exists c label, code = Str c /\ descent_map !! c = Some label)).
  { unfold kpi_victim_descent. apply returns_optional. intros col.
    eapply returns_equiv.
    - apply returns_seq; [apply returns_print | apply returns_print_descent].
    - tauto. }
  unfold kpi_summary. eapply returns_equiv.
  - apply returns_seq; [apply returns_print |].
    apply returns_seq; [apply returns_print |].
    apply returns_seq; [apply returns_print |].
    apply returns_seq; [exact Hcrime |].
    apply returns_seq; [exact Harea |].
    apply returns_seq; [unfold kpi_avg_monthly; apply returns_print |].
    apply returns_seq; [exact Hage |].
    apply returns_seq; [exact Hdescent | apply returns_print].
  - tauto.
Qed.

Lemma pivot_returns (hours : list (option Num.real)) (weekdays : list (option string))
    (dr_no : list cell) :
  (exists p, pivot hours weekdays dr_no = inr p /\ True)
  <-> forall name, In name weekday_order ->
        exists h v, In (h, name, v) (keyed_rows hours weekdays dr_no).
Proof.
  unfold pivot. split.
  - intros (p & E & _) name Hname.
    apply pivot_table_has_column with (eqI := Num.real_eqb) (leI := Num.real_leb).
    apply mem_string_In.
    exact (getitem_columns_present String.eqb _ p weekday_order Str name E Hname).
  - intros H. unfold getitem_columns.
    rewrite filter_none.
    + eexists. split; [reflexivity | exact I].
    + intros name Hname. apply negb_false_iff, mem_string_In.
      apply pivot_table_has_column. now apply H.
Qed.

Lemma astype_float_all_returns (l : list cell) :
  (exists xs, astype_float_all l = inr xs /\ True)
  <-> forall text, In (Str text) l -> Num.python_float text <> None.
Proof.
  induction l as [|c l IH]; cbn [astype_float_all].
  - split; [intros _ text [] | intros _; now exists []].
  - assert (Hc : (exists x, astype_float c = inr x)
                 <-> forall text, c = Str text -> Num.python_float text <> None).
    { destruct c as [| |s]; cbn [astype_float].
      - split; [intros _ text E; discriminate | eauto].
      - split; [intros _ text E; discriminate | eauto].
      - destruct (Num.python_float s) eqn:Es.
        + split; [intros _ text [= <-]; now rewrite Es | eauto].
        + split; [intros (x & E); discriminate | intros H; now destruct (H s eq_refl)]. }
    destruct (astype_float c) as [e|x].
    + split; [intros (xs & E & _); discriminate |].
      intros H. destruct (proj2 Hc) as (x & E); [| discriminate].
      intros text ->. apply H. now left.
    + destruct (astype_float_all l) as [e|xs].
      * split; [intros (xs & E & _); discriminate |].
        intros H. destruct (proj2 IH) as (xs & E & _); [| discriminate].
        intros text Hin. apply H. now right.
      * split; [| eauto]. intros _ text [->|Hin].
        -- apply (proj1 Hc); eauto.
        -- apply (proj1 IH); eauto.
Qed.

Lemma returns_plots (choice : Z -> nat -> nat -> list nat) (entropy : Z) (df : DataFrame)
    (dates : list (option Timestamp)) :
  returns_iff (plots choice entropy df dates)
    ((exists dr_no, df_columns df !! "dr_no" = Some dr_no
        /\ forall name, In name weekday_order ->
             exists h v, In (h, name, v) (keyed_rows (hour df) (weekday dates) dr_no))
     /\ (forall lat lon,
           df_columns df !! "lat" = Some lat -> df_columns df !! "lon" = Some lon ->
           exists s, sub choice entropy df lat lon = inr s
             /\ forall text, In (Str text) (map fst s) \/ In (Str text) (map snd s) ->
                  Num.python_float text <> None)).
Proof.
  assert (Hheat : returns_iff (plot_hour_weekday_heatmap df dates)
            (exists dr_no, df_columns df !! "dr_no" = Some dr_no
               /\ forall name, In name weekday_order ->
                    exists h v, In (h, name, v) (keyed_rows (hour df) (weekday dates) dr_no))).
  { unfold plot_hour_weekday_heatmap. eapply returns_equiv.
    - apply returns_getitem. intros dr_no.
      apply returns_lift. intros p. apply returns_savefig.
    - split.
      + intros (dr_no & E & H). exists dr_no. split; [exact E |]. now apply pivot_returns.
      + intros (dr_no & E & H). exists dr_no. split; [exact E |]. now apply pivot_returns. }
  assert (Hopt : forall (name : string) (body : list cell -> M unit),
            (forall col, returns_iff (body col) True) ->
            returns_iff (match df_columns df !! name with
                         | Some col => body col
                         | None => mret tt
                         end) True).
  { intros name body H. destruct (df_columns df !! name); [apply H | apply returns_ret]. }
  assert (Hscatter : returns_iff (plot_lat_lon choice entropy df)
            (forall lat lon,
               df_columns df !! "lat" = Some lat -> df_columns df !! "lon" = Some lon ->
               exists s, sub choice entropy df lat lon = inr s
                 /\ forall text, In (Str text) (map fst s) \/ In (Str text) (map snd s) ->
                      Num.python_float text <> None)).
  { unfold plot_lat_lon.
    destruct (df_columns df !! "lat") as [lat|]; [destruct (df_columns df !! "lon") as [lon|] |].
    - eapply returns_equiv.
      + apply returns_lift. intros s.
        apply returns_lift. intros xs.
        apply returns_lift. intros ys. apply returns_savefig.
      + split.
        * intros (s & E & (xs & Ex & ys & Ey & _)) lat' lon' [= <-] [= <-].
          exists s. split; [exact E |]. intros text [H|H].
          -- apply (proj1 (astype_float_all_returns (map fst s))); eauto.
          -- apply (proj1 (astype_float_all_returns (map snd s))); eauto.
        * intros H. destruct (H lat lon eq_refl eq_refl) as (s & E & Hs).
          exists s. split; [exact E |].
          destruct (proj2 (astype_float_all_returns (map snd s))) as (xs & Ex & _);
            [intros; apply Hs; now right |].
          destruct (proj2 (astype_float_all_returns (map fst s))) as (ys & Ey & _);
            [intros; apply Hs; now left |].
          exists xs. split; [exact Ex |]. exists ys. split; [exact Ey | exact I].
    - apply (returns_equiv _ _ _ (returns_ret tt)). split; [| auto].
      intros _ lat' lon' _ E. discriminate.
    - apply (returns_equiv _ _ _ (returns_ret tt)). split; [| auto].
      intros _ lat' lon' E. discriminate. }
  assert (Hmonthly : returns_iff (plot_monthly_trend dates) (omap id dates <> [])).
  { intros w. destruct (plot_monthly_trend_outcome dates w) as [Hfail Hsave].
    split.
    - intros (w' & a & E) Hnone. rewrite (Hfail Hnone) in E. discriminate.
    - intros Hne. rewrite (Hsave Hne). eauto. }
  unfold plots. eapply returns_equiv.
  - apply returns_seq; [exact Hmonthly |].
    apply returns_seq; [apply returns_savefig |].
    apply returns_seq; [apply returns_savefig |].
    apply returns_seq; [exact Hheat |].
    apply returns_seq; [unfold plot_top_areas; apply Hopt; intros; apply returns_savefig |].
    apply returns_seq; [unfold plot_top_crimes; apply Hopt; intros; apply returns_savefig |].
    apply returns_seq; [unfold plot_victim_age; apply Hopt; intros; apply returns_savefig |].
    apply returns_seq; [unfold plot_victim_sex; apply Hopt; intros; apply returns_savefig |].
    apply returns_seq; [unfold plot_victim_descent; apply Hopt; intros; apply returns_savefig |].
    apply returns_seq; [exact Hscatter |].
    unfold plot_year_month_heatmap.
    apply returns_getitem. intros dr_no. apply returns_savefig.
  - split.
    + tauto.
    + intros [(dr_no & E & H) Hs].
      assert (Hdated : omap id dates <> []).
      { destruct (H "Monday") as (h & v & Hin); [now left |].
        apply keyed_rows_In in Hin. destruct Hin as (n & _ & Hw & _).
        unfold weekday in Hw. rewrite list_lookup_fmap in Hw.
        destruct (dates !! n) as [[t|]|] eqn:Et; try discriminate.
        intros Hnone. pose proof (In_omap_id dates n t Et) as Ht.
        rewrite Hnone in Ht. contradiction. }
      repeat (split; [first [exact I | exact Hs | exact Hdated | now exists dr_no] |]).
      now exists dr_no.
Qed.

(** X22.  The script runs to its end on exactly the tables that pass every
    step that can raise: a date column is there (lines 29-32 and 42);
    [dr_no] is there (lines 118 and 202); the crime-type and area
    columns, when there, have a value that is not missing (lines 56 and
    60); the most frequent descent code, with missing codes read as X, is
    a key of [descent_map] (line 80); every weekday from Monday to Sunday
    is the weekday of a dated row that has an hour (line 119); and, when
    both coordinates are there, the rows with both are as many as the
    sample asks for and every sampled coordinate that is a text is one
    that Python's [float] reads (lines 189 and 191).  A table that passes
    line 119 has a dated row, so line 92 has passed too. *)
Theorem run_completes_exactly_when
    (to_datetime : list cell -> list (option Timestamp)) (round_tenths : Q -> Z)
    (choice : Z -> nat -> nat -> list nat) (entropy : Z) (df : DataFrame) (w : world) :
  (exists w', run to_datetime round_tenths choice entropy df w = (w', inr tt))
  <-> exists dates dr_no,
        date_occ to_datetime df = Some dates
        /\ df_columns df !! "dr_no" = Some dr_no
        /\ (forall col, df_columns df !! "crm_cd_desc" = Some col -> dropna col <> [])
        /\ (forall col, df_columns df !! "area_name" = Some col -> dropna col <> [])
        /\ (forall col code n,
              df_columns df !! "vict_descent" = Some col -> In (code, n) (max_descent col) ->
              exists c label, code = Str c /\ descent_map !! c = Some label)
        /\ (forall name, In name weekday_order ->
              exists h v, In (h, name, v) (keyed_rows (hour df) (weekday dates) dr_no))
        /\ (forall lat lon,
              df_columns df !! "lat" = Some lat -> df_columns df !! "lon" = Some lon ->
              exists s, sub choice entropy df lat lon = inr s
                /\ forall text, In (Str text) (map fst s) \/ In (Str text) (map snd s) ->
                     Num.python_float text <> None).
Proof.
  pose proof (returns_getitem (date_occ to_datetime df) "date_occ" _ _
                (fun dates => returns_seq _ _ _ _ (returns_kpi_summary round_tenths df dates)
                                (returns_plots choice entropy df dates)) w) as H.
  fold (run to_datetime round_tenths choice entropy df) in H.
  split.
  - intros (w' & E).
    destruct (proj1 H) as (dates & Ed & (Hc & Ha & Hd) & (dr_no & Edr & Hw) & Hs).
    { now exists w', tt. }
    exists dates, dr_no. repeat split; try assumption.
    intros col code n Hcol. now apply Hd.
  - intros (dates & dr_no & Ed & Edr & Hc & Ha & Hd & Hw & Hs).
    destruct (proj2 H) as (w' & [] & E); [| now exists w'].
    exists dates. split; [exact Ed |]. split.
    + split; [exact Hc | split; [exact Ha |]].
      intros col Hcol code n. now apply Hd.
    + split; [now exists dr_no | exact Hs].
Qed.
(** *** The year-by-month heatmap *)

Lemma In_unique_Z (k : Z) (l : list Z) : In k (unique Z.eqb l) <-> In k l.
Proof.
  split; [apply In_unique |]. intros H.
  assert (Htrans : forall a b c : Z, (a =? b) = true -> (b =? c) = true -> (a =? c) = true).
  { intros a b c. rewrite !Z.eqb_eq. congruence. }
  pose proof (mem_unique Z.eqb Z.eqb_refl Z.eqb_sym Htrans k l H) as M.
  apply mem_In in M. destruct M as (k' & Hin & E). apply Z.eqb_eq in E. now subst.
Qed.

Lemma sorted_keys_increase (l : list Z) :
  StronglySorted (fun a b => (a <=? b) = true) (sort Z.leb (unique Z.eqb l))
  /\ List.NoDup (sort Z.leb (unique Z.eqb l)).
Proof.
  split.
  - apply sort_sorted.
    + intros a b H. apply Z.leb_le. apply Z.leb_gt in H. lia.
    + intros a b c. rewrite !Z.leb_le. lia.
  - apply (Permutation_NoDup (l := unique Z.eqb l)).
    + symmetry. apply sort_perm.
    + apply NoDup_unique. apply Z.eqb_refl.
Qed.

Lemma strictly_increasing (l : list Z) :
  StronglySorted (fun a b => (a <=? b) = true) l -> List.NoDup l -> StronglySorted Z.lt l.
Proof.
  induction 1 as [|a l Hs IH Hall]; intros Hn; constructor.
  - apply IH. now inversion Hn.
  - inversion Hn as [|? ? Hnotin _]; subst.
    rewrite List.Forall_forall in *. intros x Hx.
    specialize (Hall x Hx). apply Z.leb_le in Hall.
    assert (a <> x) by (intros ->; contradiction). lia.
Qed.

Lemma dated_rows (dates : list (option Timestamp)) (dr_no : list cell) (y m : Z) :
  length dr_no = length dates ->
  (exists v, In (y, m, v) (keyed_rows (year dates) (month dates) dr_no))
  <-> exists t, In (Some t) dates /\ ts_year t = y /\ ts_month t = m.
Proof.
  intros Hlen. split.
  - intros (v & Hin). apply keyed_rows_In in Hin. destruct Hin as (n & Hy & Hm & _).
    unfold year in Hy. unfold month in Hm. rewrite list_lookup_fmap in Hy, Hm.
    destruct (dates !! n) as [[t|]|] eqn:E; try discriminate.
    simpl in Hy, Hm. exists t. split.
    + apply list_elem_of_In. now apply list_elem_of_lookup_2 with n.
    + split; congruence.
  - intros (t & Hin & <- & <-).
    apply list_elem_of_In, list_elem_of_lookup_1 in Hin. destruct Hin as (n & Hn).
    assert (Hv : is_Some (dr_no !! n)).
    { apply lookup_lt_is_Some. rewrite Hlen. now apply lookup_lt_Some with (Some t). }
    destruct Hv as (v & Hv). exists v.
    apply keyed_rows_lookup with n; [| | exact Hv].
    + unfold year. now rewrite list_lookup_fmap, Hn.
    + unfold month. now rewrite list_lookup_fmap, Hn.
Qed.

(** X19.  The year-by-month heatmap (lines 201-207) needs the column [dr_no].
    With it, the table drawn has one row for each year and one column for
    each month that a dated incident falls in, each once and in increasing
    order, and every row has an entry for every column.  The tick labels
    are always the twelve month abbreviations, however many month columns
    the table has. *)
Theorem year_month_heatmap_spans_dated_rows (df : DataFrame)
    (dates : list (option Timestamp)) (w : world) :
  (df_columns df !! "dr_no" = None ->
     plot_year_month_heatmap df dates w = (w, inl (KeyError [Str "dr_no"])))
  /\ forall dr_no,
       df_columns df !! "dr_no" = Some dr_no -> length dr_no = length dates ->
       let p := pivot2 (year dates) (month dates) dr_no in
       plot_year_month_heatmap df dates w
       = (after_savefig "year_month_heatmap.png" (YearMonthHeatmap p month_abbr) w, inr tt)
       /\ (forall y, In y (p_index p) <-> exists t, In (Some t) dates /\ ts_year t = y)
       /\ (forall m, In m (p_columns p) <-> exists t, In (Some t) dates /\ ts_month t = m)
       /\ StronglySorted Z.lt (p_index p)
       /\ StronglySorted Z.lt (p_columns p)
       /\ length (p_values p) = length (p_index p)
       /\ (forall row, In row (p_values p) -> length row = length (p_columns p))
       /\ length month_abbr = 12%nat.
Proof.
  split.
  - intros Hdr. unfold plot_year_month_heatmap. now rewrite Hdr.
  - intros dr_no Hdr Hlen p.
    assert (Hrows : forall y m, (exists v, In (y, m, v) (keyed_rows (year dates) (month dates) dr_no))
                                <-> exists t, In (Some t) dates /\ ts_year t = y /\ ts_month t = m)
      by (intros; now apply dated_rows).
    pose proof (keyed_rows_df2 (year dates) (month dates) dr_no) as Hk. cbv zeta in Hk.
    split; [unfold plot_year_month_heatmap; rewrite Hdr; reflexivity |].
    unfold p, pivot2, pivot_table. cbv zeta. rewrite Hk. cbn [p_index p_columns p_values].
    set (rows := keyed_rows (year dates) (month dates) dr_no) in *.
    split; [| split; [| split; [| split; [| split; [| split]]]]].
    + intros y. rewrite In_sort, In_unique_Z, in_map_iff. split.
      * intros ([[y' m] v] & E & Hin). simpl in E. subst y'.
        destruct (proj1 (Hrows y m)) as (t & Ht & Hy & _); [now exists v |].
        now exists t.
      * intros (t & Ht & Hy).
        destruct (proj2 (Hrows y (ts_month t))) as (v & Hin); [now exists t |].
        now exists (y, ts_month t, v).
    + intros m. rewrite In_sort, In_unique_Z, in_map_iff. split.
      * intros ([[y m'] v] & E & Hin). simpl in E. subst m'.
        destruct (proj1 (Hrows y m)) as (t & Ht & _ & Hm); [now exists v |].
        now exists t.
      * intros (t & Ht & Hm).
        destruct (proj2 (Hrows (ts_year t) m)) as (v & Hin); [now exists t |].
        now exists (ts_year t, m, v).
    + apply strictly_increasing; apply sorted_keys_increase.
    + apply strictly_increasing; apply sorted_keys_increase.
    + apply length_map.
    + intros row Hrow. apply in_map_iff in Hrow. destruct Hrow as (y & <- & _).
      apply length_map.
    + reflexivity.
Qed.
(** *** Column names *)

Lemma name_char_facts (c : ascii) :
  is_name_char c = true ->
  is_word c = true /\ is_whitespace c = false /\ Num.lower c = c.
Proof.
  destruct c as [[] [] [] [] [] [] [] []]; vm_compute; intros H;
    try discriminate H; repeat split.
Qed.

Lemma lower_word_is_name_char (c : ascii) :
  is_word (Num.lower c) = true -> is_name_char (Num.lower c) = true.
Proof.
  destruct c as [[] [] [] [] [] [] [] []]; vm_compute; intros H;
    try discriminate H; reflexivity.
Qed.

Lemma replace_runs_chars (l : list ascii) (in_run : bool) (c : ascii) :
  In c (replace_runs l in_run) -> c = "_"%char \/ (In c l /\ is_word c = true).
Proof.
  revert in_run. induction l as [|x l IH]; intros in_run; simpl; [tauto |].
  destruct (is_word x) eqn:Ex.
  - intros [<-|H]; [right; auto |].
    destruct (IH _ H) as [->|[H1 H2]]; auto.
  - destruct in_run.
    + intros H. destruct (IH _ H) as [->|[H1 H2]]; auto.
    + intros [<-|H]; [now left |].
      destruct (IH _ H) as [->|[H1 H2]]; auto.
Qed.

Lemma In_lowercase (s : string) (c : ascii) :
  In c (list_ascii_of_string (Num.lowercase s)) ->
  exists c0, In c0 (list_ascii_of_string s) /\ c = Num.lower c0.
Proof.
  induction s as [|x s IH]; simpl; [tauto |].
  intros [<-|H]; [exists x; auto |].
  destruct (IH H) as (c0 & H0 & ->). exists c0. auto.
Qed.

Lemma replace_runs_fixed (l : list ascii) :
  (forall c, In c l -> is_name_char c = true) -> replace_runs l false = l.
Proof.
  induction l as [|x l IH]; intros H; simpl; [reflexivity |].
  destruct (name_char_facts x (H x (or_introl eq_refl))) as (-> & _ & _).
  f_equal. apply IH. intros c Hc. apply H. now right.
Qed.

Lemma lowercase_fixed (s : string) :
  (forall c, In c (list_ascii_of_string s) -> is_name_char c = true) ->
  Num.lowercase s = s.
Proof.
  induction s as [|x s IH]; intros H; simpl; [reflexivity |].
  destruct (name_char_facts x (H x (or_introl eq_refl))) as (_ & _ & ->).
  f_equal. apply IH. intros c Hc. apply H. now right.
Qed.

Lemma lstrip_fixed (l : list ascii) :
  (forall c, In c l -> is_name_char c = true) -> lstrip l = l.
Proof.
  destruct l as [|x l]; intros H; simpl; [reflexivity |].
  now destruct (name_char_facts x (H x (or_introl eq_refl))) as (_ & -> & _).
Qed.

Lemma strip_fixed (s : string) :
  (forall c, In c (list_ascii_of_string s) -> is_name_char c = true) -> strip s = s.
Proof.
  intros H. unfold strip. rewrite (lstrip_fixed _ H), lstrip_fixed.
  - now rewrite rev_involutive, string_of_list_ascii_of_string.
  - intros c Hc. apply H. now apply in_rev.
Qed.

Lemma alnum_facts (c : ascii) :
  is_alnum (Num.lower c) = is_alnum c
  /\ (is_word c = false -> is_alnum c = false)
  /\ (is_whitespace c = true -> is_alnum c = false).
Proof.
  destruct c as [[] [] [] [] [] [] [] []]; vm_compute; repeat split; intros H;
    first [reflexivity | discriminate H].
Qed.

Lemma alnum_replace_runs (l : list ascii) (in_run : bool) :
  List.filter is_alnum (replace_runs l in_run) = List.filter is_alnum l.
Proof.
  revert in_run. induction l as [|x l IH]; intros in_run; simpl; [reflexivity |].
  destruct (is_word x) eqn:Ex.
  - simpl. now rewrite IH.
  - destruct (alnum_facts x) as (_ & H & _). rewrite (H Ex).
    destruct in_run; simpl; apply IH.
Qed.

Lemma alnum_lowercase (s : string) :
  List.filter is_alnum (list_ascii_of_string (Num.lowercase s))
  = map Num.lower (List.filter is_alnum (list_ascii_of_string s)).
Proof.
  induction s as [|x s IH]; simpl; [reflexivity |].
  destruct (alnum_facts x) as (-> & _ & _).
  destruct (is_alnum x); simpl; now rewrite IH.
Qed.

Lemma alnum_lstrip (l : list ascii) :
  List.filter is_alnum (lstrip l) = List.filter is_alnum l.
Proof.
  induction l as [|x l IH]; simpl; [reflexivity |].
  destruct (is_whitespace x) eqn:Ex; [| reflexivity].
  destruct (alnum_facts x) as (_ & _ & H). now rewrite (H Ex).
Qed.

Lemma alnum_strip (s : string) :
  List.filter is_alnum (list_ascii_of_string (strip s))
  = List.filter is_alnum (list_ascii_of_string s).
Proof.
  unfold strip. rewrite list_ascii_of_string_of_list_ascii.
  rewrite List.filter_rev, alnum_lstrip, List.filter_rev, rev_involutive.
  apply alnum_lstrip.
Qed.

(** X1.  Line 23 turns a column header into a name made of lower-case
    letters, digits and underscores only; a header that already has that
    form is kept as it is, so renaming twice changes nothing more.  The
    letters and digits of the header all survive, in their order and in
    lower case: only what stands between them is changed.  The embedding
    follows Python on ASCII headers, which is what the theorem is about. *)
Theorem standardized_names_are_plain (name : string) :
  is_ascii name ->
  (forall c, In c (list_ascii_of_string (standardize name)) -> is_name_char c = true)
  /\ ((forall c, In c (list_ascii_of_string name) -> is_name_char c = true) ->
      standardize name = name)
  /\ standardize (standardize name) = standardize name
  /\ List.filter is_alnum (list_ascii_of_string (standardize name))
     = map Num.lower (List.filter is_alnum (list_ascii_of_string name)).
Proof.
  intros _.
  assert (Hplain : forall s c, In c (list_ascii_of_string (standardize s)) ->
                               is_name_char c = true).
  { intros s c. unfold standardize. rewrite list_ascii_of_string_of_list_ascii.
    intros H. apply replace_runs_chars in H. destruct H as [->|[Hin Hw]]; [reflexivity |].
    apply In_lowercase in Hin. destruct Hin as (c0 & _ & ->).
    now apply lower_word_is_name_char. }
  assert (Hfixed : forall s, (forall c, In c (list_ascii_of_string s) -> is_name_char c = true) ->
                             standardize s = s).
  { intros s H. unfold standardize.
    rewrite (strip_fixed _ H), (lowercase_fixed _ H), (replace_runs_fixed _ H).
    apply string_of_list_ascii_of_string. }
  split; [apply Hplain | split; [apply Hfixed | split]].
  - apply Hfixed, Hplain.
  - unfold standardize. rewrite list_ascii_of_string_of_list_ascii.
    now rewrite alnum_replace_runs, alnum_lowercase, alnum_strip.
Qed.

Lemma standardized_names_witness :
  (forall c, In c (list_ascii_of_string (standardize " DATE OCC")) -> is_name_char c = true)
  /\ standardize " DATE OCC" = "date_occ"
  /\ standardize "Crm Cd Desc" = "crm_cd_desc"
  /\ standardize (standardize " DATE OCC") = standardize " DATE OCC".
Proof.
  assert (H : is_ascii " DATE OCC").
  { intros c Hc. simpl in Hc.
    repeat (destruct Hc as [<-|Hc]; [vm_compute; lia |]). contradiction. }
  destruct (standardized_names_are_plain " DATE OCC" H) as (H1 & _ & H3 & _).
  split; [exact H1 | split; [reflexivity | split; [reflexivity | exact H3]]].
Defined.
(** *** The opening and closing lines of the summary *)

Lemma string_app_inv (a b c : string) : a +:+ b = a +:+ c -> b = c.
Proof.
  induction a as [|x a IH]; [auto |].
  rewrite !string_app_cons. intros [= H]. now apply IH.
Qed.

Lemma closes_print (args : list string) :
  closes_with (Text.join_space args +:+ String (ascii_of_nat 10) "") (print args).
Proof. intros w w' a [= <- _]. now exists "". Qed.

Lemma closes_seq {B} (line : string) (names : list string) (m1 : M unit) (m2 : M B) :
  emits false names m1 -> closes_with line m2 -> closes_with line (m1;; m2).
Proof.
  intros H1 H2 w w' a. unfold mbind, M_bind.
  destruct (H1 w) as (out & figs & rest & E & _).
  destruct (m1 w) as [w1 [e|[]]]; [discriminate |].
  intros H. destruct (H2 _ _ _ H) as (body & ->).
  simpl in E. subst w1. cbn [stdout]. exists (out +:+ body).
  now rewrite !string_app_assoc.
Qed.

(** X3.  The summary (lines 50-82) saves no figure.  Whatever happens later,
    it first prints the heading, the number of rows of the whole table
    (undated rows included) and the earliest and latest date.  When it
    returns, the last line printed is the closing rule. *)
Theorem kpi_summary_opens_with_totals (round_tenths : Q -> Z) (df : DataFrame)
    (dates : list (option Timestamp)) (w : world) :
  let opening :=
    after_print ["Date range:                  "; ts_str (ts_min dates); "to";
                 ts_str (ts_max dates)]
      (after_print ["Total records:               "; str_of_nat (df_len df)]
         (after_print [nl +:+ "========= KPI Summary ========="] w)) in
  exists rest : string,
    fst (kpi_summary round_tenths df dates w)
    = {| stdout := stdout opening +:+ rest; figures := figures w |}
    /\ forall w', kpi_summary round_tenths df dates w = (w', inr tt) ->
         exists body, rest = body +:+ "===============================" +:+ nl.
Proof.
  intros opening.
  set (tail := (kpi_crime_types df;; kpi_top_area df;; kpi_avg_monthly round_tenths dates;;
                kpi_victim_age round_tenths df;; kpi_victim_descent df;;
                print ["==============================="]) : M unit).
  assert (Hrun : kpi_summary round_tenths df dates w = tail opening) by reflexivity.
  assert (Hemits : emits false [] tail).
  { unfold tail.
    apply (emits_seq false [] []); [discriminate | apply emits_kpi_crime_types |].
    apply (emits_seq false [] []); [discriminate | apply emits_kpi_top_area |].
    apply (emits_seq false [] []); [discriminate | unfold kpi_avg_monthly; apply emits_print |].
    apply (emits_seq false [] []); [discriminate | apply emits_kpi_victim_age |].
    apply (emits_seq false [] []); [discriminate | apply emits_kpi_victim_descent |].
    apply emits_print. }
  assert (Hcloses : closes_with ("===============================" +:+ nl) tail).
  { unfold tail.
    apply (closes_seq _ []); [apply emits_kpi_crime_types |].
    apply (closes_seq _ []); [apply emits_kpi_top_area |].
    apply (closes_seq _ []); [unfold kpi_avg_monthly; apply emits_print |].
    apply (closes_seq _ []); [apply emits_kpi_victim_age |].
    apply (closes_seq _ []); [apply emits_kpi_victim_descent |].
    apply closes_print. }
  destruct (Hemits opening) as (out & figs & rest & E & N & _).
  symmetry in N. apply app_eq_nil in N. destruct N as [N _].
  apply map_eq_nil in N. subst figs. rewrite app_nil_r in E.
  exists out. rewrite Hrun. split; [exact E |].
  intros w' Hw'. destruct (Hcloses _ _ _ Hw') as (body & Hbody).
  rewrite Hw' in E. simpl in E. rewrite E in Hbody. cbn [stdout] in Hbody.
  exists body. now apply string_app_inv in Hbody.
Qed.
Lemma run_reads_only_its_columns_witness :
  run iso_dates nearest_tenth first_positions 0 city_week start
  = run iso_dates nearest_tenth first_positions 0 city_week_annotated start.
Proof.
  apply run_reads_only_its_columns.
  - reflexivity.
  - intros name Hin Hne. simpl in Hin.
    repeat (destruct Hin as [<-|Hin]; [first [reflexivity | contradiction] |]).
    contradiction.
  - intros H. vm_compute in H. discriminate.
Defined.

Lemma run_completes_witness :
  exists w', run iso_dates nearest_tenth first_positions 0 city_week start = (w', inr tt).
Proof.
  apply (proj2 (run_completes_exactly_when iso_dates nearest_tenth first_positions 0
                  city_week start)).
  exists week_dates, [Int 1; Int 2; Int 3; Int 4; Int 5; Int 6; Int 7].
  split; [reflexivity |]. split; [reflexivity |].
  split; [| split; [| split; [| split]]].
  - intros col H. vm_compute in H. injection H as <-. discriminate.
  - intros col H. vm_compute in H. injection H as <-. discriminate.
  - intros col code n H Hin. vm_compute in H. injection H as <-.
    vm_compute in Hin. destruct Hin as [[= <- <-]|[]].
    exists "H", "Hispanic/Latin/Mexican". split; reflexivity.
  - intros name Hin. simpl in Hin.
    destruct Hin as [<-|Hin]; [eexists; eexists; apply (keyed_rows_lookup _ _ _ 0%nat); reflexivity |].
    destruct Hin as [<-|Hin]; [eexists; eexists; apply (keyed_rows_lookup _ _ _ 1%nat); reflexivity |].
    destruct Hin as [<-|Hin]; [eexists; eexists; apply (keyed_rows_lookup _ _ _ 2%nat); reflexivity |].
    destruct Hin as [<-|Hin]; [eexists; eexists; apply (keyed_rows_lookup _ _ _ 3%nat); reflexivity |].
    destruct Hin as [<-|Hin]; [eexists; eexists; apply (keyed_rows_lookup _ _ _ 4%nat); reflexivity |].
    destruct Hin as [<-|Hin]; [eexists; eexists; apply (keyed_rows_lookup _ _ _ 5%nat); reflexivity |].
    destruct Hin as [<-|Hin]; [eexists; eexists; apply (keyed_rows_lookup _ _ _ 6%nat); reflexivity |].
    contradiction.
  - intros lat lon Hlat Hlon. vm_compute in Hlat, Hlon.
    injection Hlat as <-. injection Hlon as <-.
    eexists. split; [reflexivity |].
    intros text [H|H]; vm_compute in H;
      repeat (destruct H as [H|H];
              [try discriminate H; injection H as <-; intros E; vm_compute in E;
               discriminate |]);
      contradiction.
Defined.

Lemma year_month_heatmap_witness :
  plot_year_month_heatmap city_week week_dates start
  = (after_savefig "year_month_heatmap.png"
       (YearMonthHeatmap
          (pivot2 (year week_dates) (month week_dates)
                  [Int 1; Int 2; Int 3; Int 4; Int 5; Int 6; Int 7]) month_abbr) start, inr tt)
  /\ StronglySorted Z.lt
       (p_columns (pivot2 (year week_dates) (month week_dates)
                          [Int 1; Int 2; Int 3; Int 4; Int 5; Int 6; Int 7]))
  /\ length (p_values (pivot2 (year week_dates) (month week_dates)
                              [Int 1; Int 2; Int 3; Int 4; Int 5; Int 6; Int 7]))
     = length (p_index (pivot2 (year week_dates) (month week_dates)
                               [Int 1; Int 2; Int 3; Int 4; Int 5; Int 6; Int 7])).
Proof.
  destruct (year_month_heatmap_spans_dated_rows city_week week_dates start) as [_ H].
  destruct (H [Int 1; Int 2; Int 3; Int 4; Int 5; Int 6; Int 7] eq_refl eq_refl)
    as (H1 & _ & _ & _ & H5 & H6 & _).
  split; [exact H1 | split; [exact H5 | exact H6]].
Defined.

(** *** Rows that the count tables keep *)

Section PivotKept.
Context {I C : Type} (eqI leI : I -> I -> bool) (eqC leC : C -> C -> bool).
Hypothesis eqI_refl : forall a, eqI a a = true.
Hypothesis eqI_sym : forall a b, eqI a b = eqI b a.
Hypothesis eqI_trans : forall a b c, eqI a b = true -> eqI b c = true -> eqI a c = true.
Hypothesis eqC_refl : forall a, eqC a a = true.
Hypothesis eqC_sym : forall a b, eqC a b = eqC b a.
Hypothesis eqC_trans : forall a b c, eqC a b = true -> eqC b c = true -> eqC a c = true.






End PivotKept.



(** *** The weekday order, and the reorder that needs every weekday *)

Lemma pivot_error (hours : list (option Num.real)) (weekdays : list (option string))
    (dr_no : list cell) (name : string) :
  In name weekday_order ->
  (forall h v, ~ In (h, name, v) (keyed_rows hours weekdays dr_no)) ->
  exists absent,
    In name absent /\ pivot hours weekdays dr_no = inl (KeyError (map Str absent)).
Proof.
  intros Hname Hnone. unfold pivot, getitem_columns.
  set (table := pivot_table Num.real_eqb Num.real_leb String.eqb String.leb
                  hours weekdays dr_no (Some 0)).
  assert (Hin : In name (List.filter (fun l => negb (mem String.eqb l (p_columns table)))
                           weekday_order)).
  { apply filter_In. split; [exact Hname |]. apply negb_true_iff.
    destruct (mem String.eqb name (p_columns table)) eqn:M; [| reflexivity].
    apply mem_string_In in M. unfold table in M.
    apply pivot_table_has_column in M. destruct M as (h & v & Hrow).
    exfalso. now apply (Hnone h v). }
  destruct (List.filter _ weekday_order) as [|a rest] eqn:E; [contradiction |].
  exists (a :: rest). split; [exact Hin | reflexivity].
Qed.

(** C3.  Whatever the dates are, in whatever order, and whichever weekdays
    are missing, the categories of the weekday bar chart are exactly Monday
    to Sunday in that order.  The hour-by-weekday table has the same seven
    columns in the same order whenever line 119 returns; but when a weekday
    has no row with both an hour and a date, line 119 raises [KeyError]
    naming that weekday, and the heatmap block ends there with nothing
    saved. *)
Theorem C3_weekday_order_is_fixed (dates : list (option Timestamp))
    (hours : list (option Num.real)) (weekdays : list (option string)) (dr_no : list cell) :
  map fst (crimes_weekday dates)
  = ["Monday"; "Tuesday"; "Wednesday"; "Thursday"; "Friday"; "Saturday"; "Sunday"]
  /\ (forall p : Pivot Num.real string,
        pivot hours weekdays dr_no = inr p ->
        p_columns p
        = ["Monday"; "Tuesday"; "Wednesday"; "Thursday"; "Friday"; "Saturday"; "Sunday"])
  /\ (forall name : string,
        In name weekday_order ->
        (forall h v, ~ In (h, name, v) (keyed_rows hours weekdays dr_no)) ->
        exists absent,
          In name absent
          /\ pivot hours weekdays dr_no = inl (KeyError (map Str absent))
          /\ forall (df : DataFrame) (w : world),
               df_columns df !! "dr_no" = Some dr_no ->
               hour df = hours -> weekday dates = weekdays ->
               plot_hour_weekday_heatmap df dates w = (w, inl (KeyError (map Str absent)))).
Proof.
  split; [| split].
  - unfold crimes_weekday. apply countplot_order_categories.
  - intros p H. unfold pivot in H. apply getitem_columns_labels in H. apply H.
  - intros name Hname Hnone.
    destruct (pivot_error hours weekdays dr_no name Hname Hnone) as (absent & Hin & E).
    exists absent. split; [exact Hin | split; [exact E |]].
    intros df w Hdr Hh Hw. unfold plot_hour_weekday_heatmap.
    rewrite Hdr, Hh, Hw. unfold mbind, M_bind, getitem, mret, M_ret, lift.
    now rewrite E.
Qed.

(** C3, at a single incident on a Monday: the bar chart has its seven
    categories, and the heatmap is not drawn. *)
Lemma C3_witness :
  map fst (crimes_weekday [Some monday])
  = ["Monday"; "Tuesday"; "Wednesday"; "Thursday"; "Friday"; "Saturday"; "Sunday"]
  /\ exists absent,
       In "Tuesday" absent
       /\ plot_hour_weekday_heatmap one_monday [Some monday] start
          = (start, inl (KeyError (map Str absent))).
Proof.
  destruct (C3_weekday_order_is_fixed [Some monday] (hour one_monday)
              (weekday [Some monday]) [Int 1]) as (H1 & _ & H3).
  split; [exact H1 |].
  destruct (H3 "Tuesday") as (absent & Hin & _ & Hrun).
  - simpl. auto.
  - intros h v Hrow. vm_compute in Hrow. destruct Hrow as [E|[]]. discriminate E.
  - exists absent. split; [exact Hin |].
    apply (Hrun one_monday start); reflexivity.
Defined.

(** *** Missing descent codes on the console and on the chart *)

Lemma count_label (code text : string) (l : list cell) :
  descent_map !! code = Some text ->
  count cell_eqb (Str text) (map map_descent l) = count cell_eqb (Str code) l.
Proof.
  intros Hcode. rewrite count_map. unfold count. f_equal. apply filter_ext. intros c.
  apply eq_true_iff_eq. rewrite !cell_eqb_eq. split.
  - intros E. symmetry in E. apply map_descent_label in E.
    destruct E as (code' & -> & H'). f_equal. now apply descent_label_code with text.
  - intros <-. symmetry. apply map_descent_label. now exists code.
Qed.

Lemma unknown_label : descent_map !! "X" = Some "Unknown".
Proof. vm_compute. reflexivity. Qed.

Lemma head_take {A} (n : nat) (l : list A) : hd_error (firstn (S n) l) = hd_error l.
Proof. destruct l; reflexivity. Qed.

Lemma descent_bars_unknown (col : list cell) :
  (forall k : cell, k <> NaN -> (count cell_eqb k col < count cell_eqb NaN col)%nat) ->
  hd_error (descent_bars col)
  = Some (Str "Unknown", (count cell_eqb NaN col + count cell_eqb (Str "X") col)%nat).
Proof.
  intros Hmax.
  set (n := (count cell_eqb NaN col + count cell_eqb (Str "X") col)%nat).
  set (s := map map_descent (fillna (Str "X") col)).
  assert (Hmissing : (0 < count cell_eqb NaN col)%nat).
  { assert (HX : Str "X" <> NaN) by discriminate.
    pose proof (Hmax (Str "X") HX). lia. }
  assert (Hn : count cell_eqb (Str "Unknown") s = n).
  { unfold s. rewrite (count_label "X" "Unknown" _ unknown_label).
    rewrite count_fillna by discriminate. now rewrite decide_True. }
  assert (Hd : forall k, k <> NaN -> count cell_eqb k (dropna s) = count cell_eqb k s)
    by (intros; now apply count_dropna).
  unfold descent_bars. fold s. unfold nlargest.
  change (take 10 (sort by_count_desc (value_counts s)))
    with (firstn 10 (sort by_count_desc (value_counts s))).
  rewrite head_take. apply ranked_head.
  - apply value_counts_In. cbn [fst snd]. split.
    + apply In_dropna. split; [| discriminate]. apply count_pos_In. rewrite Hn. unfold n. lia.
    + rewrite Hd by discriminate. now rewrite Hn.
  - intros [k m] Hx Hne. apply value_counts_In in Hx. cbn [fst snd] in *.
    destruct Hx as [Hk ->]. apply In_dropna in Hk. destruct Hk as [Hk Hna].
    rewrite (Hd k Hna).
    unfold s in Hk. apply in_map_iff in Hk. destruct Hk as (c & Hc & _).
    destruct k as [| |text]; [contradiction | |].
    { unfold map_descent in Hc. destruct c as [| |c0]; try discriminate.
      destruct (descent_map !! c0); discriminate. }
    apply map_descent_label in Hc. destruct Hc as (code & _ & Hcode).
    unfold s. rewrite (count_label code text _ Hcode).
    destruct (String.eqb_spec code "X") as [->|Hcx].
    + exfalso. apply Hne.
      assert (text = "Unknown").
      { pose proof unknown_label as HX. rewrite Hcode in HX. now injection HX. }
      subst text. f_equal. rewrite (Hd _ Hna). exact Hn.
    + clear Hcode Hne. rewrite count_fillna by discriminate.
      rewrite decide_False by congruence. rewrite decide_False by discriminate.
      assert (Hlt : (count cell_eqb (Str code) col < count cell_eqb NaN col)%nat)
        by (apply Hmax; discriminate).
      unfold n. lia.
Qed.

(** C9.  The statistic and the chart are both computed from the column in
    which every missing value has become the code X, so a column where
    that replacement was already made gives the same results; X is labelled
    Unknown.  When the missing values outnumber every code, the top descent
    is X, its count is the missing rows plus the rows that already held X,
    and the line printed is "Unknown: count"; the chart is saved, and its
    first bar is Unknown with that same count. *)
Theorem C9_missing_descent_counts_as_unknown (df : DataFrame) (col : list cell) (w : world) :
  df_columns df !! "vict_descent" = Some col ->
  (forall k : cell, k <> NaN -> (count cell_eqb k col < count cell_eqb NaN col)%nat) ->
  let n := (count cell_eqb NaN col + count cell_eqb (Str "X") col)%nat in
  (forall c : cell, In c (fillna (Str "X") col) -> c <> NaN)
  /\ max_descent (fillna (Str "X") col) = max_descent col
  /\ descent_bars (fillna (Str "X") col) = descent_bars col
  /\ descent_map !! "X" = Some "Unknown"
  /\ max_descent col = [(Str "X", n)]
  /\ kpi_victim_descent df w
     = ({| stdout := (stdout w +:+ "Top victim descent code:" +:+ nl)
                     +:+ ("      Unknown: " +:+ str_of_nat n) +:+ nl;
           figures := figures w |}, inr tt)
  /\ hd_error (descent_bars col) = Some (Str "Unknown", n)
  /\ plot_victim_descent df w
     = ({| stdout := stdout w;
           figures := figures w ++ [("victim_descent.png", DescentBars (descent_bars col))] |},
        inr tt).
Proof.
  intros Hcol Hmax n.
  assert (HX : Str "X" <> NaN) by discriminate.
  pose proof (max_descent_unknown col Hmax) as Htop. fold n in Htop.
  pose proof (descent_bars_unknown col Hmax) as Hbar. fold n in Hbar.
  split; [| split; [| split; [| split; [| split; [| split; [| split]]]]]].
  - intros c. now apply fillna_notna.
  - unfold max_descent. now rewrite fillna_idem.
  - unfold descent_bars. now rewrite fillna_idem.
  - exact unknown_label.
  - exact Htop.
  - unfold kpi_victim_descent. rewrite Hcol.
    unfold mbind, M_bind. simpl. rewrite Htop. reflexivity.
  - exact Hbar.
  - unfold plot_victim_descent. now rewrite Hcol.
Qed.

(** C9, at three missing values, one B and one X. *)
Lemma C9_witness :
  max_descent [NaN; Str "B"; NaN; Str "X"; NaN] = [(Str "X", 4%nat)]
  /\ kpi_victim_descent Examples.mostly_missing start
     = ({| stdout := ("" +:+ "Top victim descent code:" +:+ nl)
                     +:+ ("      Unknown: " +:+ "4") +:+ nl;
           figures := [] |}, inr tt)
  /\ hd_error (descent_bars [NaN; Str "B"; NaN; Str "X"; NaN]) = Some (Str "Unknown", 4%nat).
Proof.
  assert (H : forall k : cell, k <> NaN ->
                (count cell_eqb k [NaN; Str "B"; NaN; Str "X"; NaN]
                 < count cell_eqb NaN [NaN; Str "B"; NaN; Str "X"; NaN])%nat).
  { intros k Hk. unfold count, cell_eqb. simpl.
    repeat case_bool_decide; simpl; try congruence; lia. }
  destruct (C9_missing_descent_counts_as_unknown Examples.mostly_missing
              [NaN; Str "B"; NaN; Str "X"; NaN] start eq_refl H)
    as (_ & _ & _ & _ & Htop & Hrun & Hbar & _).
  split; [exact Htop | split; [exact Hrun | exact Hbar]].
Defined.
